(** * QUIC multiplexing simulation: a shallow embedding

    The development follows the Python sources file by file:
    - [Py]: the Python built-ins the program relies on ([str], [int],
      [str.zfill], [str.strip], UTF-8 [encode]/[decode], [len], float
      arithmetic), as CPython 3.11 implements them;
    - [QUIC_API]: the packet codec ([create_packet], [parse_packet]);
    - [Net]: datagram sockets driven by a script of [recvfrom] results;
    - [StreamIn], [StreamOut]: the per-channel receiver and sender;
    - [QuicClient]: the initiator's handshake, stream set-up and statistics.

    The predicates the statements are written with come next ([Text],
    [Codec], [Sender], [Receiver], [Client]), and then the lemmas and the
    theorems, one module of facts for each module of the program. *)

From Stdlib Require Import ZArith List Lia Bool String Ascii Floats.
From Stdlib Require Import Strings.Byte.
Import ListNotations.
Local Open Scope Z_scope.

(* ================================================================== *)
(** * Python built-ins *)
(* ================================================================== *)

Module Py.

(** Exceptions the modelled code can meet. [socket_timeout] is
    [socket.timeout]; [ClientNotConnected] is the plain [Exception] raised by
    [StreamOut.send_data_from_file]. All of them are subclasses of
    [Exception]. *)
Inductive exn : Type :=
| ValueError
| UnicodeDecodeError
| UnicodeEncodeError
| OverflowError
| ZeroDivisionError
| TypeError
| socket_timeout
| OSError
| FileNotFoundError
| ClientNotConnected.

Definition exn_eqb (a b : exn) : bool :=
  match a, b with
  | ValueError, ValueError | UnicodeDecodeError, UnicodeDecodeError
  | UnicodeEncodeError, UnicodeEncodeError | OverflowError, OverflowError
  | ZeroDivisionError, ZeroDivisionError | TypeError, TypeError
  | socket_timeout, socket_timeout | OSError, OSError
  | FileNotFoundError, FileNotFoundError
  | ClientNotConnected, ClientNotConnected => true
  | _, _ => false
  end.

(** A call either returns or raises. *)
Inductive result (A : Type) : Type :=
| Ok (a : A)
| Raise (e : exn).
Arguments Ok {A} a.
Arguments Raise {A} e.

Definition bind {A B : Type} (m : result A) (k : A -> result B) : result B :=
  match m with
  | Ok a => k a
  | Raise e => Raise e
  end.

(** [bytes] objects, and [str] objects as sequences of code points
    (Python strings may hold any code point of [0, 0x10FFFF], lone
    surrogates included). *)
Definition bytes := list byte.
Definition str := list Z.

Definition b2z (b : byte) : Z := Z.of_N (Byte.to_N b).
Definition z2b (z : Z) : byte :=
  match Byte.of_N (Z.to_N z) with
  | Some b => b
  | None => x00
  end.

(** ASCII literals of the source, as [str] and as [bytes]. *)
Definition lit (s : string) : str :=
  map (fun a => Z.of_N (N_of_ascii a)) (list_ascii_of_string s).
Definition blit (s : string) : bytes := list_byte_of_string s.

(** The values that flow through the codec: [create_packet] is called with
    [str], [int] and (by the tests' byte payloads) [bytes] arguments. *)
Inductive value : Type :=
| VStr (s : str)
| VBytes (b : bytes)
| VInt (n : Z).

Definition str_eqb (a b : str) : bool :=
  if list_eq_dec Z.eq_dec a b then true else false.

(** [v == s] for a [str] literal [s]: only a [str] can be equal to it. *)
Definition eq_str (v : value) (s : str) : bool :=
  match v with
  | VStr t => str_eqb t s
  | _ => false
  end.

(** [len(v)] for the values [parse_packet] returns: code points of a [str],
    bytes of a [bytes]. *)
Definition len (v : value) : result Z :=
  match v with
  | VStr s => Ok (Z.of_nat (List.length s))
  | VBytes b => Ok (Z.of_nat (List.length b))
  | VInt _ => Raise TypeError
  end.

(** ** UTF-8 *)

Definition is_surrogate (c : Z) : bool := (0xD800 <=? c) && (c <=? 0xDFFF).

(** [str.encode()] of one code point; [None] is [UnicodeEncodeError]
    (surrogates cannot be encoded). *)
Definition utf8_encode_char (c : Z) : option bytes :=
  if c <? 0 then None
  else if c <? 0x80 then Some [z2b c]
  else if c <? 0x800 then
    Some [z2b (0xC0 + c / 64); z2b (0x80 + c mod 64)]
  else if c <? 0x10000 then
    if is_surrogate c then None
    else Some [z2b (0xE0 + c / 4096); z2b (0x80 + (c / 64) mod 64);
               z2b (0x80 + c mod 64)]
  else if c <? 0x110000 then
    Some [z2b (0xF0 + c / 262144); z2b (0x80 + (c / 4096) mod 64);
          z2b (0x80 + (c / 64) mod 64); z2b (0x80 + c mod 64)]
  else None.

Fixpoint utf8_encode (s : str) : option bytes :=
  match s with
  | [] => Some []
  | c :: r =>
      match utf8_encode_char c, utf8_encode r with
      | Some b, Some br => Some (b ++ br)
      | _, _ => None
      end
  end.

Definition encode (s : str) : result bytes :=
  match utf8_encode s with
  | Some b => Ok b
  | None => Raise UnicodeEncodeError
  end.

Definition is_cont (x : Z) : bool := (0x80 <=? x) && (x <=? 0xBF).

(** Strict UTF-8 decoding: continuation bytes must be [10xxxxxx], and the
    decoded scalar must need the length it was written with, must not be a
    surrogate and must not exceed [0x10FFFF]. *)
Fixpoint utf8_decode (bs : bytes) : option str :=
  match bs with
  | [] => Some []
  | b0 :: r0 =>
      let x0 := b2z b0 in
      if x0 <? 0x80 then option_map (cons x0) (utf8_decode r0)
      else if (0xC2 <=? x0) && (x0 <=? 0xDF) then
        match r0 with
        | b1 :: r1 =>
            let x1 := b2z b1 in
            if is_cont x1
            then option_map (cons ((x0 - 0xC0) * 64 + (x1 - 0x80)))
                            (utf8_decode r1)
            else None
        | _ => None
        end
      else if (0xE0 <=? x0) && (x0 <=? 0xEF) then
        match r0 with
        | b1 :: b2 :: r2 =>
            let x1 := b2z b1 in
            let x2 := b2z b2 in
            let c := (x0 - 0xE0) * 4096 + (x1 - 0x80) * 64 + (x2 - 0x80) in
            if is_cont x1 && is_cont x2 && (0x800 <=? c)
               && negb (is_surrogate c)
            then option_map (cons c) (utf8_decode r2)
            else None
        | _ => None
        end
      else if (0xF0 <=? x0) && (x0 <=? 0xF4) then
        match r0 with
        | b1 :: b2 :: b3 :: r3 =>
            let x1 := b2z b1 in
            let x2 := b2z b2 in
            let x3 := b2z b3 in
            let c := (x0 - 0xF0) * 262144 + (x1 - 0x80) * 4096
                     + (x2 - 0x80) * 64 + (x3 - 0x80) in
            if is_cont x1 && is_cont x2 && is_cont x3
               && (0x10000 <=? c) && (c <=? 0x10FFFF)
            then option_map (cons c) (utf8_decode r3)
            else None
        | _ => None
        end
      else None
  end.

Definition decode (b : bytes) : result str :=
  match utf8_decode b with
  | Some s => Ok s
  | None => Raise UnicodeDecodeError
  end.

(** ** [str(x)] *)

(** CPython refuses conversions between [int] and decimal [str] beyond
    [sys.int_info.default_max_str_digits] digits. *)
Definition int_max_str_digits : Z := 4300.

Fixpoint digits_fuel (fuel : nat) (n : Z) (acc : str) : str :=
  match fuel with
  | O => acc
  | S f =>
      let acc' := (48 + n mod 10) :: acc in
      if n <? 10 then acc' else digits_fuel f (n / 10) acc'
  end.

(** Decimal digits of [n >= 0], most significant first. *)
Definition decimal (n : Z) : str :=
  digits_fuel (S (Z.to_nat (Z.log2 n))) n [].

Definition str_of_int (n : Z) : result str :=
  if 10 ^ int_max_str_digits <=? Z.abs n then Raise ValueError
  else Ok (if n <? 0 then 45 :: decimal (- n) else decimal n).

Definition hex_digit (d : Z) : Z := if d <? 10 then 48 + d else 87 + d.

(** [repr] of a [bytes] object, which is what [str(b)] returns. *)
Definition repr_byte (quote : Z) (b : byte) : str :=
  let c := b2z b in
  if (c =? quote) || (c =? 92) then [92; c]
  else if c =? 9 then [92; 116]
  else if c =? 10 then [92; 110]
  else if c =? 13 then [92; 114]
  else if (c <? 32) || (127 <=? c) then
    [92; 120; hex_digit (c / 16); hex_digit (c mod 16)]
  else [c].

Definition repr_bytes (b : bytes) : str :=
  let has c := existsb (fun x => b2z x =? c) b in
  let quote := if has 39 && negb (has 34) then 34 else 39 in
  98 :: quote :: flat_map (repr_byte quote) b ++ [quote].

Definition to_str (v : value) : result str :=
  match v with
  | VStr s => Ok s
  | VBytes b => Ok (repr_bytes b)
  | VInt n => str_of_int n
  end.

(** ** [str.zfill] and [str.strip] *)

Definition zfill (width : nat) (s : str) : str :=
  let pad := repeat 48 (width - List.length s) in
  match s with
  | c :: r => if (c =? 43) || (c =? 45) then c :: pad ++ r else pad ++ s
  | [] => pad
  end.

(** [str.isspace] of one code point (Unicode 14.0, as in CPython 3.11). *)
Definition isspace (c : Z) : bool :=
  ((9 <=? c) && (c <=? 13)) || ((28 <=? c) && (c <=? 32))
  || (c =? 0x85) || (c =? 0xA0) || (c =? 0x1680)
  || ((0x2000 <=? c) && (c <=? 0x200A))
  || (c =? 0x2028) || (c =? 0x2029) || (c =? 0x202F) || (c =? 0x205F)
  || (c =? 0x3000).

Fixpoint lstrip (s : str) : str :=
  match s with
  | c :: r => if isspace c then lstrip r else s
  | [] => []
  end.

Definition rstrip (s : str) : str := rev (lstrip (rev s)).
Definition strip (s : str) : str := rstrip (lstrip s).

(** ** [int(x)] *)

(** The code points of value zero of the decimal digit runs (general
    category Nd, Unicode 14.0): each is followed by the digits one to
    nine. *)
Definition decimal_zeros : list Z :=
  [0x30; 0x660; 0x6f0; 0x7c0; 0x966; 0x9e6; 0xa66; 0xae6; 0xb66; 0xbe6;
   0xc66; 0xce6; 0xd66; 0xde6; 0xe50; 0xed0; 0xf20; 0x1040; 0x1090; 0x17e0;
   0x1810; 0x1946; 0x19d0; 0x1a80; 0x1a90; 0x1b50; 0x1bb0; 0x1c40; 0x1c50;
   0xa620; 0xa8d0; 0xa900; 0xa9d0; 0xa9f0; 0xaa50; 0xabf0; 0xff10; 0x104a0;
   0x10d30; 0x11066; 0x110f0; 0x11136; 0x111d0; 0x112f0; 0x11450; 0x114d0;
   0x11650; 0x116c0; 0x11730; 0x118e0; 0x11950; 0x11c50; 0x11d50; 0x11da0;
   0x16a60; 0x16ac0; 0x16b50; 0x1d7ce; 0x1d7d8; 0x1d7e2; 0x1d7ec; 0x1d7f6;
   0x1e140; 0x1e2f0; 0x1e950; 0x1fbf0].

(** [unicodedata.decimal(c)], [None] when [c] is not a decimal digit. *)
Definition to_decimal (c : Z) : option Z :=
  match find (fun z => (z <=? c) && (c <? z + 10)) decimal_zeros with
  | Some z => Some (c - z)
  | None => None
  end.

(** The C library's [isspace] in the "C" locale, which is what
    [PyLong_FromString] skips. *)
Definition ascii_isspace (c : Z) : bool :=
  ((9 <=? c) && (c <=? 13)) || (c =? 32).

(** [int(s)] first rewrites a [str] to ASCII: code points below 127 stay,
    other white space becomes a blank, other decimal digits become their
    ASCII digit and anything else becomes a question mark (which no integer
    literal contains). *)
Definition transform_char (c : Z) : Z :=
  if c <? 127 then c
  else if isspace c then 32
  else match to_decimal c with
       | Some d => 48 + d
       | None => 63
       end.

Definition ascii_digit (c : Z) : option Z :=
  if (48 <=? c) && (c <=? 57) then Some (c - 48) else None.

(** The digit loop of [PyLong_FromString] in base 10: digits, with single
    underscores between them. Returns the value, the number of digits and
    the text left; [None] on a doubled or trailing underscore. *)
Fixpoint scan_digits (s : str) (acc : Z) (ndigits : Z) (prev_us : bool)
  : option (Z * Z * str) :=
  match s with
  | c :: r =>
      match ascii_digit c with
      | Some d => scan_digits r (10 * acc + d) (ndigits + 1) false
      | None =>
          if c =? 95 then
            if prev_us then None else scan_digits r acc ndigits true
          else if prev_us then None else Some (acc, ndigits, s)
      end
  | [] => if prev_us then None else Some (acc, ndigits, s)
  end.

Fixpoint skip_space (s : str) : str :=
  match s with
  | c :: r => if ascii_isspace c then skip_space r else s
  | [] => []
  end.

(** The optional sign: whether it is a minus, and the text after it. *)
Definition split_sign (s : str) : bool * str :=
  match s with
  | c :: r =>
      if c =? 43 then (false, r)
      else if c =? 45 then (true, r)
      else (false, s)
  | [] => (false, s)
  end.

(** The digits of [PyLong_FromString(s, base=10)]: they may not start
    with an underscore, there must be at least one and at most 4300 of
    them, and only white space may follow. *)
Definition int_of_digits (negative : bool) (s : str) : result Z :=
  match s with
  | [] => Raise ValueError
  | c :: _ =>
      if c =? 95 then Raise ValueError
      else
        match scan_digits s 0 0 false with
        | None => Raise ValueError
        | Some (v, ndigits, rest) =>
            if ndigits =? 0 then Raise ValueError
            else if int_max_str_digits <? ndigits then Raise ValueError
            else
              match skip_space rest with
              | [] => Ok (if negative then - v else v)
              | _ :: _ => Raise ValueError
              end
        end
  end.

(** [PyLong_FromString(s, base=10)] on ASCII text: white space, an
    optional sign, the digits, white space. *)
Definition int_of_ascii (s : str) : result Z :=
  let '(negative, s2) := split_sign (skip_space s) in
  int_of_digits negative s2.

Definition int_of_str (s : str) : result Z :=
  int_of_ascii (map transform_char s).

(** [int(b)] for [bytes]: no rewriting, ASCII only. *)
Definition int_of_bytes (b : bytes) : result Z :=
  int_of_ascii (map b2z b).

Definition to_int (v : value) : result Z :=
  match v with
  | VStr s => int_of_str s
  | VBytes b => int_of_bytes b
  | VInt n => Ok n
  end.

(** ** Floats *)

(** Python's [float] is IEEE 754 binary64, as are Rocq's primitive floats.
    [float(n)] rounds to nearest even and refuses integers that would
    overflow. *)
Definition float_of_int (n : Z) : result float :=
  let f := SF2Prim (binary_normalize prec emax n 0 false) in
  if PrimFloat.is_infinity f then Raise OverflowError else Ok f.

(** [n / t] for an [int] and a [float]. *)
Definition int_truediv (n : Z) (t : float) : result float :=
  bind (float_of_int n) (fun x =>
  if PrimFloat.eqb t PrimFloat.zero then Raise ZeroDivisionError
  else Ok (PrimFloat.div x t)).

(** [t > 0] for a [float] and the [int] zero. *)
Definition float_gt0 (t : float) : bool := PrimFloat.ltb PrimFloat.zero t.

(** A rate as the program computes it: a [float], or the [int] zero. *)
Inductive number : Type :=
| Int (n : Z)
| Float (f : float).

(** The conditional expression [total / t if t > 0 else 0], which both
    [StreamIn.get_stats] and [QuicClient.calculate_rates] use. *)
Definition rate (total : Z) (t : float) : result number :=
  if float_gt0 t
  then bind (int_truediv total t) (fun r => Ok (Float r))
  else Ok (Int 0).

(** [max(values)] over floats: the first of the largest values;
    [ValueError] on an empty sequence. *)
Definition max_float (values : list float) : result float :=
  match values with
  | [] => Raise ValueError
  | x :: r =>
      Ok (fold_left (fun m y => if PrimFloat.ltb m y then y else m) r x)
  end.

(** [sum(values)] over ints. *)
Definition sum (values : list Z) : Z := fold_left Z.add values 0.

(** ** Dictionaries

    Insertion-ordered, with the key comparison as a parameter: [==] on
    [int] keys, [==] on [float] keys (two distinct NaN objects are
    different keys). *)
Section Dict.
Variables K V : Type.
Variable key_eqb : K -> K -> bool.

Definition dict : Type := list (K * V).

Fixpoint dict_get (d : dict) (k : K) : option V :=
  match d with
  | [] => None
  | (k', v) :: r => if key_eqb k' k then Some v else dict_get r k
  end.

(** [d[k] = v]: an existing key keeps its place. *)
Fixpoint dict_set (d : dict) (k : K) (v : V) : dict :=
  match d with
  | [] => [(k, v)]
  | (k', v') :: r =>
      if key_eqb k' k then (k', v) :: r else (k', v') :: dict_set r k v
  end.

Definition dict_values (d : dict) : list V := map snd d.

(** [d[k]] on a [defaultdict] whose factory returns [default]. *)
Definition dict_get_default (default : V) (d : dict) (k : K) : V :=
  match dict_get d k with
  | Some v => v
  | None => default
  end.
End Dict.
Arguments dict_get {K V} key_eqb d k.
Arguments dict_set {K V} key_eqb d k v.
Arguments dict_values {K V} d.
Arguments dict_get_default {K V} key_eqb default d k.

(** ** More float arithmetic *)

(** [int(x)] for a [float]: the fraction is dropped; infinities and NaN
    are refused. *)
Definition int_of_float (x : float) : result Z :=
  match Prim2SF x with
  | S754_zero _ => Ok 0
  | S754_infinity _ => Raise OverflowError
  | S754_nan => Raise ValueError
  | S754_finite negative m e =>
      let magnitude :=
        if 0 <=? e then Z.pos m * 2 ^ e else Z.pos m / 2 ^ (- e) in
      Ok (if negative then - magnitude else magnitude)
  end.

(** An [int] as an exact binary number, before any rounding. *)
Definition exact_of_int (n : Z) : spec_float :=
  match n with
  | Z0 => S754_zero false
  | Z.pos m => S754_finite false m 0
  | Z.neg m => S754_finite true m 0
  end.

(** [a / b] for two [int]s: the quotient, correctly rounded. A zero
    dividend gives a zero whose sign is that of the quotient. *)
Definition int_int_truediv (a b : Z) : result float :=
  if b =? 0 then Raise ZeroDivisionError
  else if a =? 0 then
    Ok (if b <? 0 then PrimFloat.opp PrimFloat.zero else PrimFloat.zero)
  else
    let q := SF2Prim (SFdiv prec emax (exact_of_int a) (exact_of_int b)) in
    if PrimFloat.is_infinity q then Raise OverflowError else Ok q.

(** [x / n] for a number [x] and an [int] [n]. *)
Definition number_truediv (x : number) (n : Z) : result float :=
  match x with
  | Int a => int_int_truediv a n
  | Float f =>
      bind (float_of_int n) (fun y =>
      if PrimFloat.eqb y PrimFloat.zero then Raise ZeroDivisionError
      else Ok (PrimFloat.div f y))
  end.

(** ** [random]

    The generator is a stream of numbers: the call of [_randbelow(n)]
    that comes after [calls] others returns [random calls mod n]. *)
Section Random.
Variable random : nat -> Z.

Definition randbelow (calls : nat) (n : Z) : Z := random calls mod n.

(** [random.randint(a, b)] is [a + _randbelow(b - a + 1)]. *)
Definition randint (calls : nat) (a b : Z) : Z :=
  a + randbelow calls (b - a + 1).

(** [random.choice(seq)] is [seq[_randbelow(len(seq))]], for a sequence
    that is not empty. *)
Definition choice (calls : nat) (seq : str) : Z :=
  nth (Z.to_nat (randbelow calls (Z.of_nat (List.length seq)))) seq 0.

End Random.

(** [string.ascii_letters]. *)
Definition ascii_letters : str :=
  lit "abcdefghijklmnopqrstuvwxyzABCDEFGHIJKLMNOPQRSTUVWXYZ".

End Py.

(* ================================================================== *)
(** * QUIC_API.py: the packet codec *)
(* ================================================================== *)

Module QUIC_API.
Import Py.

Definition header_size : nat := 8.

(** [create_packet(packet_id, data='')]:
    [str(packet_id).zfill(8).encode() + str(data).encode()]. *)
Definition create_packet (packet_id : Z) (data : value) : result bytes :=
  bind (str_of_int packet_id) (fun id_str =>
  bind (encode (zfill 8 id_str)) (fun packet_id_encoded =>
  bind (to_str data) (fun data_str =>
  bind (encode data_str) (fun data_encoded =>
  Ok (packet_id_encoded ++ data_encoded))))).

(** The default argument [data=''] . *)
Definition create_ack (packet_id : Z) : result bytes :=
  create_packet packet_id (VStr []).

(** [parse_packet(packet)]: the first eight bytes, decoded, stripped and
    read by [int]; the rest as text when it is UTF-8, as raw bytes
    otherwise. *)
Definition parse_packet (packet : bytes) : result (Z * value) :=
  bind (decode (firstn header_size packet)) (fun header =>
  bind (int_of_str (strip header)) (fun packet_number =>
  let data := skipn header_size packet in
  match decode data with
  | Ok text => Ok (packet_number, VStr text)
  | Raise _ => Ok (packet_number, VBytes data)
  end)).

(** [create_data(size_in_bytes)]: one [random.choice] among the letters
    for each turn of [range(size_in_bytes)], [calls] draws having been made
    before. *)
Definition create_data (random : nat -> Z) (calls : nat)
    (size_in_bytes : Z) : str :=
  map (fun i => choice random (calls + i) ascii_letters)
      (seq 0 (Z.to_nat size_in_bytes)).

End QUIC_API.

(* ================================================================== *)
(** * Datagram sockets *)
(* ================================================================== *)

Module Net.
Import Py.

(** A socket address [(host, port)]. *)
Definition address : Type := str * Z.

(** What one call of [socket.recvfrom] gives back: a datagram with its
    source address, or an exception ([socket.timeout] when the socket's
    timeout expires). A [script] lists the results of the successive calls
    on one socket, as the tests' [recvfrom.side_effect] does; the buffer
    size passed to [recvfrom] is the socket's business and is not part of
    the result. *)
Inductive recv_result : Type :=
| Datagram (packet : bytes) (source : address)
| Raises (e : exn).

Definition script : Type := list recv_result.

(** How a call that reads from a scripted socket ends: it returns a value,
    it raises, or the script is used up while the call is still waiting in
    [recvfrom]. The state is kept in all three cases, since Python objects
    are mutated in place. *)
Inductive outcome (A S : Type) : Type :=
| Returned (a : A) (s : S) (inbox : script)
| Raised (e : exn) (s : S) (inbox : script)
| Blocked (s : S).
Arguments Returned {A S} a s inbox.
Arguments Raised {A S} e s inbox.
Arguments Blocked {A S} s.

(** A call that does not read from the socket. *)
Inductive step (S : Type) : Type :=
| Fine (s : S)
| Fail (e : exn) (s : S).
Arguments Fine {S} s.
Arguments Fail {S} e s.

End Net.

(* ================================================================== *)
(** * StreamIn.py: the channel receiver *)
(* ================================================================== *)

Module StreamIn.
Import Py QUIC_API Net.

(** The lines written to the stream's log file. *)
Inductive log_entry : Type :=
| LogConnecting (host : str) (port : Z)
| LogSentSyn (host : str) (port : Z)
| LogDataSize (size : Z)
| LogSentAck (packet_num : Z)
| LogReceivedEOF
| LogTimeout
| LogReceiveError (e : exn)
| LogReceived (packet_num : Z) (nbytes : Z)
| LogCompleted
| LogError (e : exn).

(** The attributes of a [StreamIn] object. [sent] records the socket's
    [sendto] calls and [log_file] the lines logged, both oldest first;
    [clock_reads] counts the calls of [time.time()] made so far. *)
Record t : Type := mk {
  server_host : str;
  server_port : Z;
  index : Z;
  data_size : option Z;
  global_start_time : float;
  total_data_received : Z;
  total_packets_received : Z;
  sent : list (bytes * address);
  log_file : list log_entry;
  clock_reads : nat;
  closed : bool
}.

(** [StreamIn.__init__]. *)
Definition init (host : str) (port index : Z) (start_time : float) : t :=
  mk host port index None start_time 0 0 [] [] 0 false.

Definition log (m : log_entry) (s : t) : t :=
  mk (server_host s) (server_port s) (index s) (data_size s)
     (global_start_time s) (total_data_received s) (total_packets_received s)
     (sent s) (log_file s ++ [m]) (clock_reads s) (closed s).

Definition sendto (packet : bytes) (s : t) : t :=
  mk (server_host s) (server_port s) (index s) (data_size s)
     (global_start_time s) (total_data_received s) (total_packets_received s)
     (sent s ++ [(packet, (server_host s, server_port s))]) (log_file s)
     (clock_reads s) (closed s).

Definition set_data_size (n : Z) (s : t) : t :=
  mk (server_host s) (server_port s) (index s) (Some n)
     (global_start_time s) (total_data_received s) (total_packets_received s)
     (sent s) (log_file s) (clock_reads s) (closed s).

Definition count (nbytes npackets : Z) (s : t) : t :=
  mk (server_host s) (server_port s) (index s) (data_size s)
     (global_start_time s) (total_data_received s + nbytes)
     (total_packets_received s + npackets)
     (sent s) (log_file s) (clock_reads s) (closed s).

Definition tick (s : t) : t :=
  mk (server_host s) (server_port s) (index s) (data_size s)
     (global_start_time s) (total_data_received s) (total_packets_received s)
     (sent s) (log_file s) (S (clock_reads s)) (closed s).

Definition close_resources (s : t) : t :=
  mk (server_host s) (server_port s) (index s) (data_size s)
     (global_start_time s) (total_data_received s) (total_packets_received s)
     (sent s) (log_file s) (clock_reads s) true.

(** The dictionary [get_stats] returns. *)
Record stats : Type := mk_stats {
  total_time : float;
  stream_index : Z;
  stats_total_data_received : Z;
  stats_total_packets_received : Z;
  stats_data_size : option Z;
  bytes_per_second : number;
  packets_per_second : number
}.

Section Receiver.

(** The clock: [clock n] is what the [n]-th call of [time.time()] returns.
    The statistics callback acts on a state [A] owned by the client
    ([QuicClient.add_stream_data], with the stream index already bound). *)
Variable clock : nat -> float.
Variable A : Type.
Variable add_stream_data : float -> Z -> Z -> A -> A.

Definition send_syn (s : t) : step t :=
  match create_packet 0 (VStr (lit "Syn")) with
  | Ok syn_message =>
      Fine (log (LogSentSyn (server_host s) (server_port s))
                (sendto syn_message s))
  | Raise e => Fail e s
  end.

Definition send_ack (packet_num : Z) (s : t) : step t :=
  match create_ack packet_num with
  | Ok ack_packet => Fine (log (LogSentAck packet_num) (sendto ack_packet s))
  | Raise e => Fail e s
  end.

(** [receive_stream_size]: the declared size plus the eight header bytes
    becomes [data_size]. *)
Definition receive_stream_size (inbox : script) (s : t) : outcome unit t :=
  match inbox with
  | [] => Blocked s
  | Raises e :: rest => Raised e s rest
  | Datagram packet _ :: rest =>
      match parse_packet packet with
      | Raise e => Raised e s rest
      | Ok (packet_num, data) =>
          match to_int data with
          | Raise e => Raised e s rest
          | Ok size =>
              let s1 := set_data_size (size + 8) s in
              let s2 := log (LogDataSize (size + 8)) s1 in
              match send_ack packet_num s2 with
              | Fine s3 => Returned tt s3 rest
              | Fail e s3 => Raised e s3 rest
              end
          end
      end
  end.

Definition initialize_connection (inbox : script) (s : t) : outcome unit t :=
  let s1 := log (LogConnecting (server_host s) (server_port s)) s in
  match send_syn s1 with
  | Fine s2 => receive_stream_size inbox s2
  | Fail e s2 => Raised e s2 inbox
  end.

(** [handle_received_data]: the counters are updated and the callback is
    called before the acknowledgment is sent. *)
Definition handle_received_data (packet_num : Z) (data : value)
    (sa : t * A) : step (t * A) :=
  let '(s, a) := sa in
  let time_elapsed :=
    PrimFloat.sub (clock (clock_reads s)) (global_start_time s) in
  let s0 := tick s in
  match len data with
  | Raise e => Fail e (s0, a)
  | Ok n =>
      let s1 := count n 1 s0 in
      let a1 := add_stream_data time_elapsed n 1 a in
      match send_ack packet_num s1 with
      | Fine s2 => Fine (log (LogReceived packet_num n) s2, a1)
      | Fail e s2 => Fail e (s2, a1)
      end
  end.

Definition log1 (m : log_entry) (sa : t * A) : t * A :=
  (log m (fst sa), snd sa).

(** [receive_data]: loops until "EOF" or until an exception other than a
    receive timeout; it never raises. [except] is the pair of [except]
    clauses: a timeout is logged and the loop goes on, anything else is
    logged and ends the loop. *)
Fixpoint receive_data (inbox : script) (sa : t * A) : outcome unit (t * A) :=
  match inbox with
  | [] => Blocked sa
  | received :: rest =>
      let except (e : exn) (sa' : t * A) :=
        if exn_eqb e socket_timeout
        then receive_data rest (log1 LogTimeout sa')
        else Returned tt (log1 (LogReceiveError e) sa') rest in
      match received with
      | Raises e => except e sa
      | Datagram packet _ =>
          match parse_packet packet with
          | Raise e => except e sa
          | Ok (packet_num, data) =>
              if eq_str data (lit "EOF")
              then Returned tt (log1 LogReceivedEOF sa) rest
              else
                match handle_received_data packet_num data sa with
                | Fine sa' => receive_data rest sa'
                | Fail e sa' => except e sa'
                end
          end
      end
  end.

(** [get_stats]. *)
Definition get_stats (s : t) : result stats :=
  let elapsed_time :=
    PrimFloat.sub (clock (clock_reads s)) (global_start_time s) in
  bind (rate (total_data_received s) elapsed_time) (fun bps =>
  bind (rate (total_packets_received s) elapsed_time) (fun pps =>
  Ok (mk_stats elapsed_time (index s) (total_data_received s)
               (total_packets_received s) (data_size s) bps pps))).

(** [start]: any exception is logged; the resources are closed on every
    path. *)
Definition start (inbox : script) (sa : t * A) : outcome unit (t * A) :=
  let '(s, a) := sa in
  match initialize_connection inbox s with
  | Blocked s1 => Blocked (s1, a)
  | Raised e s1 rest =>
      Returned tt (close_resources (log (LogError e) s1), a) rest
  | Returned _ s1 rest =>
      match receive_data rest (s1, a) with
      | Blocked sa2 => Blocked sa2
      | Raised e (s2, a2) rest2 =>
          Returned tt (close_resources (log (LogError e) s2), a2) rest2
      | Returned _ (s2, a2) rest2 =>
          Returned tt (close_resources (log LogCompleted s2), a2) rest2
      end
  end.

End Receiver.

End StreamIn.

(* ================================================================== *)
(** * StreamOut.py: the channel sender *)
(* ================================================================== *)

Module StreamOut.
Import Py QUIC_API Net.

Inductive log_entry : Type :=
| LogWaiting (host : str) (port : Z)
| LogOpenConnection (client : address)
| LogSentDataSize (size : Z) (client : option address)
| LogSentPacket (packet_num : Z) (nchars : Z) (client : option address)
| LogReceivedAck (packet_num : Z)
| LogUnexpectedAck (expected received : Z)
| LogTimedOut (packet_num : Z)
| LogFileNotFound
| LogSendError (e : exn)
| LogSentEOF
| LogStreamError (port : Z) (e : exn).

(** The attributes of a [StreamOut] object; [sent] records the socket's
    [sendto] calls, oldest first, and [timeout] what [settimeout] set. *)
Record t : Type := mk {
  host : str;
  port : Z;
  index : Z;
  data_size : Z;
  client_address : option address;
  packet_num : Z;
  sent : list (bytes * address);
  timeout : option Z;
  log_file : list log_entry;
  closed : bool
}.

(** [StreamOut.__init__]: the header size is deducted from the size
    given. *)
Definition init (host : str) (port size index : Z) : t :=
  mk host port index (size - 8) None 0 [] None [] false.

Definition log (m : log_entry) (s : t) : t :=
  mk (host s) (port s) (index s) (data_size s) (client_address s)
     (packet_num s) (sent s) (timeout s) (log_file s ++ [m]) (closed s).

Definition set_client_address (a : address) (s : t) : t :=
  mk (host s) (port s) (index s) (data_size s) (Some a)
     (packet_num s) (sent s) (timeout s) (log_file s) (closed s).

Definition next_packet (s : t) : t :=
  mk (host s) (port s) (index s) (data_size s) (client_address s)
     (packet_num s + 1) (sent s) (timeout s) (log_file s) (closed s).

Definition settimeout (seconds : Z) (s : t) : t :=
  mk (host s) (port s) (index s) (data_size s) (client_address s)
     (packet_num s) (sent s) (Some seconds) (log_file s) (closed s).

Definition close_resources (s : t) : t :=
  mk (host s) (port s) (index s) (data_size s) (client_address s)
     (packet_num s) (sent s) (timeout s) (log_file s) true.

(** [self.socket.sendto(packet, self.client_address)]: a socket refuses
    [None] as an address. *)
Definition sendto (packet : bytes) (s : t) : step t :=
  match client_address s with
  | Some a =>
      Fine (mk (host s) (port s) (index s) (data_size s) (client_address s)
               (packet_num s) (sent s ++ [(packet, a)]) (timeout s)
               (log_file s) (closed s))
  | None => Fail TypeError s
  end.

(** [wait_for_client_syn]: the source address is stored by the tuple
    assignment, before the packet is parsed; the payload only decides
    whether a line is logged. *)
Definition wait_for_client_syn (inbox : script) (s : t) : outcome unit t :=
  match inbox with
  | [] => Blocked s
  | Raises e :: rest => Raised e s rest
  | Datagram packet source :: rest =>
      let s1 := set_client_address source s in
      match parse_packet packet with
      | Raise e => Raised e s1 rest
      | Ok (_, data) =>
          if eq_str data (lit "Syn")
          then Returned tt (log (LogOpenConnection source) s1) rest
          else Returned tt s1 rest
      end
  end.

Definition send_stream_size (s : t) : step t :=
  match create_packet (packet_num s) (VInt (data_size s)) with
  | Raise e => Fail e s
  | Ok packet =>
      match sendto packet s with
      | Fine s1 =>
          Fine (log (LogSentDataSize (data_size s) (client_address s)) s1)
      | Fail e s1 => Fail e s1
      end
  end.

(** [wait_for_ack]: whatever arrives counts as the acknowledgment. *)
Definition wait_for_ack (inbox : script) (s : t) : outcome unit t :=
  match inbox with
  | [] => Blocked s
  | Raises e :: rest => Raised e s rest
  | Datagram _ _ :: rest =>
      Returned tt (next_packet (log (LogReceivedAck (packet_num s)) s)) rest
  end.

Definition send_packet (packet_data : str) (s : t) : step t :=
  match create_packet (packet_num s) (VStr packet_data) with
  | Raise e => Fail e s
  | Ok packet =>
      match sendto packet s with
      | Fine s1 =>
          Fine (log (LogSentPacket (packet_num s)
                       (Z.of_nat (List.length packet_data))
                       (client_address s)) s1)
      | Fail e s1 => Fail e s1
      end
  end.

(** [wait_for_ack_with_retry]: one turn of the loop per [recvfrom].
    [except] is the [except socket.timeout] clause: on a timeout the chunk
    is sent again and the loop goes on; any other exception leaves the
    function, as does one raised while resending. *)
Fixpoint wait_for_ack_with_retry (packet_data : str) (inbox : script)
    (s : t) : outcome unit t :=
  match inbox with
  | [] => Blocked (settimeout 1 s)
  | received :: rest =>
      let except (e : exn) (s' : t) :=
        if exn_eqb e socket_timeout then
          match send_packet packet_data (log (LogTimedOut (packet_num s')) s')
          with
          | Fine s1 => wait_for_ack_with_retry packet_data rest s1
          | Fail e' s1 => Raised e' s1 rest
          end
        else Raised e s' rest in
      match received with
      | Raises e => except e (settimeout 1 s)
      | Datagram packet source =>
          let s1 := set_client_address source (settimeout 1 s) in
          match parse_packet packet with
          | Raise e => except e s1
          | Ok (packet_num_received, _) =>
              if packet_num_received =? packet_num s1
              then Returned tt
                     (next_packet (log (LogReceivedAck (packet_num s1)) s1))
                     rest
              else wait_for_ack_with_retry packet_data rest
                     (log (LogUnexpectedAck (packet_num s1)
                             packet_num_received) s1)
          end
      end
  end.

(** [file.read(size)] on a text file: the characters read and those
    left. A negative size reads everything. *)
Definition file_read (size : Z) (content : str) : str * str :=
  if size <? 0 then (content, [])
  else (firstn (Z.to_nat size) content, skipn (Z.to_nat size) content).

(** The loop of [send_data_from_file]. Every turn that does not leave the
    loop removes at least one character from the file, so a fuel above the
    file's length is never used up. *)
Fixpoint send_chunks (fuel : nat) (content : str) (inbox : script) (s : t)
  : outcome unit t :=
  match fuel with
  | O => Blocked s
  | S fuel' =>
      let '(packet_data, remaining) := file_read (data_size s) content in
      match packet_data with
      | [] => Returned tt s inbox
      | _ :: _ =>
          match send_packet packet_data s with
          | Fail e s1 => Raised e s1 inbox
          | Fine s1 =>
              match wait_for_ack_with_retry packet_data inbox s1 with
              | Returned _ s2 rest => send_chunks fuel' remaining rest s2
              | Raised e s2 rest => Raised e s2 rest
              | Blocked s2 => Blocked s2
              end
          end
      end
  end.

(** [send_data_from_file]; [file] is the content of the stream's file,
    [None] when the file does not exist. Only the missing connection is
    raised to the caller. *)
Definition send_data_from_file (file : option str) (inbox : script) (s : t)
  : outcome unit t :=
  match client_address s with
  | None => Raised ClientNotConnected s inbox
  | Some _ =>
      match file with
      | None => Returned tt (log LogFileNotFound s) inbox
      | Some content =>
          match send_chunks (S (List.length content)) content inbox s with
          | Raised e s1 rest => Returned tt (log (LogSendError e) s1) rest
          | r => r
          end
      end
  end.

Definition send_eof (s : t) : step t :=
  match create_packet (packet_num s) (VStr (lit "EOF")) with
  | Raise e => Fail e s
  | Ok packet =>
      match sendto packet s with
      | Fine s1 => Fine (log LogSentEOF s1)
      | Fail e s1 => Fail e s1
      end
  end.

(** The [except Exception] and [finally] clauses of [start]. *)
Definition fail (e : exn) (s : t) (rest : script) : outcome unit t :=
  Returned tt (close_resources (log (LogStreamError (port s) e) s)) rest.

Definition start (file : option str) (inbox : script) (s : t)
  : outcome unit t :=
  let s0 := log (LogWaiting (host s) (port s)) s in
  match wait_for_client_syn inbox s0 with
  | Blocked s1 => Blocked s1
  | Raised e s1 rest => fail e s1 rest
  | Returned _ s1 rest =>
      match send_stream_size s1 with
      | Fail e s2 => fail e s2 rest
      | Fine s2 =>
          match wait_for_ack rest s2 with
          | Blocked s3 => Blocked s3
          | Raised e s3 rest3 => fail e s3 rest3
          | Returned _ s3 rest3 =>
              match send_data_from_file file rest3 s3 with
              | Blocked s4 => Blocked s4
              | Raised e s4 rest4 => fail e s4 rest4
              | Returned _ s4 rest4 =>
                  match send_eof s4 with
                  | Fail e s5 => fail e s5 rest4
                  | Fine s5 => Returned tt (close_resources s5) rest4
                  end
              end
          end
      end
  end.

End StreamOut.

(* ================================================================== *)
(** * QuicClient.py: the initiator *)
(* ================================================================== *)

Module QuicClient.
Import Py QUIC_API Net.

(** The lines printed. *)
Inductive print_entry : Type :=
| PrintSentSyn (host : str) (port : Z)
| PrintTimeout
| PrintNumberOfStreams (n : Z)
| PrintSentAck (packet_num : Z)
| PrintStreamPort (stream : Z) (port : Z).

(** A receiver task as [start_stream_thread] launches it: the arguments
    given to [StreamIn] (the callback is [add_stream_data] with [index]
    bound). *)
Record task : Type := mk_task {
  task_host : str;
  task_port : Z;
  task_index : Z;
  task_start_time : option float
}.

(** The attributes of a [QuicClient]: [sent] records the [sendto] calls of
    the client socket and [stdout] the lines printed, oldest first. The
    per-stream maps are keyed by stream index, then by elapsed time. *)
Record t : Type := mk {
  server_host : str;
  server_port : Z;
  sent : list (bytes * address);
  threads : list task;
  global_start_time : option float;
  data_per_stream : dict Z (dict float Z);
  packets_per_stream : dict Z (dict float Z);
  time_elapsed_per_stream : dict Z float;
  stdout : list print_entry
}.

(** [QuicClient.__init__]. *)
Definition init (host : str) (port : Z) : t :=
  mk host port [] [] None [] [] [] [].

Definition print (m : print_entry) (c : t) : t :=
  mk (server_host c) (server_port c) (sent c) (threads c)
     (global_start_time c) (data_per_stream c) (packets_per_stream c)
     (time_elapsed_per_stream c) (stdout c ++ [m]).

Definition sendto (packet : bytes) (c : t) : t :=
  mk (server_host c) (server_port c)
     (sent c ++ [(packet, (server_host c, server_port c))]) (threads c)
     (global_start_time c) (data_per_stream c) (packets_per_stream c)
     (time_elapsed_per_stream c) (stdout c).

Definition append_thread (k : task) (c : t) : t :=
  mk (server_host c) (server_port c) (sent c) (threads c ++ [k])
     (global_start_time c) (data_per_stream c) (packets_per_stream c)
     (time_elapsed_per_stream c) (stdout c).

Definition set_global_start_time (now : float) (c : t) : t :=
  mk (server_host c) (server_port c) (sent c) (threads c)
     (Some now) (data_per_stream c) (packets_per_stream c)
     (time_elapsed_per_stream c) (stdout c).

Definition send_syn_message (c : t) : step t :=
  match create_packet 0 (VStr (lit "Syn")) with
  | Raise e => Fail e c
  | Ok syn_message =>
      Fine (print (PrintSentSyn (server_host c) (server_port c))
                  (sendto syn_message c))
  end.

Definition send_ack_message (packet_num : Z) (c : t) : step t :=
  match create_ack packet_num with
  | Raise e => Fail e c
  | Ok ack_message => Fine (print (PrintSentAck packet_num) (sendto ack_message c))
  end.

Definition receive_number_of_streams (inbox : script) (c : t)
  : outcome Z t :=
  match inbox with
  | [] => Blocked c
  | Raises e :: rest => Raised e c rest
  | Datagram packet _ :: rest =>
      match parse_packet packet with
      | Raise e => Raised e c rest
      | Ok (_, data) =>
          match to_int data with
          | Raise e => Raised e c rest
          | Ok num_streams =>
              Returned num_streams (print (PrintNumberOfStreams num_streams) c)
                       rest
          end
      end
  end.

(** [handshake_with_server]: each turn of the loop sends "Syn" and uses
    one [recvfrom]. [except] is the [except socket.timeout] clause: the
    timeout is printed and the loop goes on; any other exception leaves
    the function. *)
Fixpoint handshake_with_server (inbox : script) (c : t) : outcome Z t :=
  match send_syn_message c with
  | Fail e c1 => Raised e c1 inbox
  | Fine c1 =>
      match inbox with
      | [] => Blocked c1
      | _ :: rest =>
          let except (e : exn) (c' : t) :=
            if exn_eqb e socket_timeout
            then handshake_with_server rest (print PrintTimeout c')
            else Raised e c' rest in
          match receive_number_of_streams inbox c1 with
          | Blocked c2 => Blocked c2
          | Raised e c2 _ => except e c2
          | Returned num_streams c2 rest2 =>
              match send_ack_message 0 c2 with
              | Fail e c3 => except e c3
              | Fine c3 => Returned num_streams c3 rest2
              end
          end
      end
  end.

(** [setup_stream]: the announcement is acknowledged with the packet
    number it carries. *)
Definition setup_stream (stream_index : Z) (inbox : script) (c : t)
  : outcome Z t :=
  match inbox with
  | [] => Blocked c
  | Raises e :: rest => Raised e c rest
  | Datagram packet _ :: rest =>
      match parse_packet packet with
      | Raise e => Raised e c rest
      | Ok (packet_num, data) =>
          match to_int data with
          | Raise e => Raised e c rest
          | Ok stream_port =>
              let c1 := print (PrintStreamPort (stream_index + 1) stream_port)
                              c in
              match send_ack_message packet_num c1 with
              | Fail e c2 => Raised e c2 rest
              | Fine c2 => Returned stream_port c2 rest
              end
          end
      end
  end.

(** [start_stream_thread]: a [StreamIn] bound to the server host and the
    announced port is created, started and appended to [threads]. *)
Definition start_stream_thread (index stream_port : Z) (c : t) : t :=
  append_thread
    (mk_task (server_host c) stream_port index (global_start_time c)) c.

(** [initialize_streams]: [for i in range(num_streams)], with [i] the next
    index and [todo] the number of turns left. *)
Fixpoint initialize_streams_from (i : Z) (todo : nat) (inbox : script)
    (c : t) : outcome unit t :=
  match todo with
  | O => Returned tt c inbox
  | S todo' =>
      match setup_stream i inbox c with
      | Blocked c1 => Blocked c1
      | Raised e c1 rest => Raised e c1 rest
      | Returned stream_port c1 rest =>
          initialize_streams_from (i + 1) todo' rest
            (start_stream_thread (i + 1) stream_port c1)
      end
  end.

Definition initialize_streams (num_streams : Z) (inbox : script) (c : t)
  : outcome unit t :=
  initialize_streams_from 0 (Z.to_nat num_streams) inbox c.

(** The first three steps of [start]: the handshake, the start time
    ([now] is what [time.time()] returns) and the streams' set-up. *)
Definition connect (now : float) (inbox : script) (c : t) : outcome unit t :=
  match handshake_with_server inbox c with
  | Blocked c1 => Blocked c1
  | Raised e c1 rest => Raised e c1 rest
  | Returned num_streams c1 rest =>
      initialize_streams num_streams rest (set_global_start_time now c1)
  end.

(** ** Statistics *)

Definition bucket (m : dict Z (dict float Z)) (stream_index : Z)
    (time_elapsed : float) : Z :=
  dict_get_default PrimFloat.eqb 0
    (dict_get_default Z.eqb [] m stream_index) time_elapsed.

(** [m[stream_index][time_elapsed] += amount] on a
    [defaultdict(lambda: defaultdict(int))]. *)
Definition bucket_add (m : dict Z (dict float Z)) (stream_index : Z)
    (time_elapsed : float) (amount : Z) : dict Z (dict float Z) :=
  let inner := dict_get_default Z.eqb [] m stream_index in
  let inner' :=
    dict_set PrimFloat.eqb inner time_elapsed
      (dict_get_default PrimFloat.eqb 0 inner time_elapsed + amount) in
  dict_set Z.eqb m stream_index inner'.

Definition add_stream_data (stream_index : Z) (time_elapsed : float)
    (data_received packets_received : Z) (c : t) : t :=
  mk (server_host c) (server_port c) (sent c) (threads c)
     (global_start_time c)
     (bucket_add (data_per_stream c) stream_index time_elapsed data_received)
     (bucket_add (packets_per_stream c) stream_index time_elapsed
                 packets_received)
     (dict_set Z.eqb (time_elapsed_per_stream c) stream_index time_elapsed)
     (stdout c).

Definition total (m : dict Z (dict float Z)) : Z :=
  sum (map (fun stream_data => sum (dict_values stream_data))
           (dict_values m)).

Definition calculate_rates (c : t) : result (number * number) :=
  let total_data := total (data_per_stream c) in
  let total_packets := total (packets_per_stream c) in
  bind (max_float (dict_values (time_elapsed_per_stream c)))
    (fun total_time =>
  bind (rate total_data total_time) (fun data_rate =>
  bind (rate total_packets total_time) (fun packet_rate =>
  Ok (data_rate, packet_rate)))).

End QuicClient.

(* ================================================================== *)
(** * QuicServer.py: the responder *)
(* ================================================================== *)

Module QuicServer.
Import Py QUIC_API Net.

(** What the server's methods can raise: the exceptions of the built-ins
    and of the sockets, and the [IndexError] of [self.sizes[stream_index]]. *)
Inductive error : Type :=
| Builtin (e : exn)
| IndexError.

(** The lines printed. *)
Inductive print_entry : Type :=
| PrintListening (host : str) (port : Z)
| PrintStarts
| PrintFileCreated (index size : Z)
| PrintSyn (client : address)
| PrintSentNumberOfStreams (streams : Z)
| PrintReceivedAck (packet_num : Z)
| PrintUnexpectedAck (received : Z)
| PrintAckTimeout (packet_num : Z)
| PrintSentStreamPort (stream port : Z)
| PrintAllCompleted
| PrintError (e : error).

(** The attributes of a [QuicServer], with the effects it has on the
    world around it: [sent] records the [sendto] calls of the server socket,
    [timeout] what [settimeout] set, [stdout] the lines printed and [files]
    the calls of [QUIC_API.create_file] (the index of the file and the text
    written), all oldest first; [draws] counts the random numbers drawn.
    [threads] holds the [StreamOut] objects whose [start] runs in a thread
    of its own. *)
Record t : Type := mk {
  host : str;
  port : Z;
  streams : Z;
  ack_timeout : Z;
  is_test : bool;
  uniform_size : option Z;
  sizes : list Z;
  threads : list StreamOut.t;
  client_address : option address;
  sent : list (bytes * address);
  timeout : option Z;
  files : list (Z * str);
  draws : nat;
  stdout : list print_entry
}.

Definition print (m : print_entry) (s : t) : t :=
  mk (host s) (port s) (streams s) (ack_timeout s) (is_test s)
     (uniform_size s) (sizes s) (threads s) (client_address s) (sent s)
     (timeout s) (files s) (draws s) (stdout s ++ [m]).

Definition append_size (size : Z) (s : t) : t :=
  mk (host s) (port s) (streams s) (ack_timeout s) (is_test s)
     (uniform_size s) (sizes s ++ [size]) (threads s) (client_address s)
     (sent s) (timeout s) (files s) (draws s) (stdout s).

Definition append_thread (stream : StreamOut.t) (s : t) : t :=
  mk (host s) (port s) (streams s) (ack_timeout s) (is_test s)
     (uniform_size s) (sizes s) (threads s ++ [stream]) (client_address s)
     (sent s) (timeout s) (files s) (draws s) (stdout s).

Definition set_threads (running : list StreamOut.t) (s : t) : t :=
  mk (host s) (port s) (streams s) (ack_timeout s) (is_test s)
     (uniform_size s) (sizes s) running (client_address s)
     (sent s) (timeout s) (files s) (draws s) (stdout s).

Definition set_client_address (a : address) (s : t) : t :=
  mk (host s) (port s) (streams s) (ack_timeout s) (is_test s)
     (uniform_size s) (sizes s) (threads s) (Some a) (sent s)
     (timeout s) (files s) (draws s) (stdout s).

Definition settimeout (seconds : Z) (s : t) : t :=
  mk (host s) (port s) (streams s) (ack_timeout s) (is_test s)
     (uniform_size s) (sizes s) (threads s) (client_address s) (sent s)
     (Some seconds) (files s) (draws s) (stdout s).

Definition drawn (n : nat) (s : t) : t :=
  mk (host s) (port s) (streams s) (ack_timeout s) (is_test s)
     (uniform_size s) (sizes s) (threads s) (client_address s) (sent s)
     (timeout s) (files s) (draws s + n) (stdout s).

(** [QUIC_API.create_file(data, index)]. *)
Definition create_file (data : str) (index : Z) (s : t) : t :=
  mk (host s) (port s) (streams s) (ack_timeout s) (is_test s)
     (uniform_size s) (sizes s) (threads s) (client_address s) (sent s)
     (timeout s) (files s ++ [(index, data)]) (draws s) (stdout s).

(** [self.server_socket.sendto(packet, self.client_address)]: a socket
    refuses [None] as an address. *)
Definition sendto (packet : bytes) (s : t) : step t :=
  match client_address s with
  | Some a =>
      Fine (mk (host s) (port s) (streams s) (ack_timeout s) (is_test s)
               (uniform_size s) (sizes s) (threads s) (client_address s)
               (sent s ++ [(packet, a)]) (timeout s) (files s) (draws s)
               (stdout s))
  | None => Fail TypeError s
  end.

(** ** The constructor *)

Section Construction.

Variable random : nat -> Z.

(** [create_stream_data_files(total_size)], [for i in range(self.streams)]
    with [i] the next index and [todo] the number of turns left. The chunk
    size of a stream is the uniform size when the server is in test mode
    and that size is neither [None] nor zero, and a random number
    otherwise; the file of stream [i + 1] is filled with
    [int(1024 * 1024 * (total_size / self.streams))] random letters. *)
Fixpoint create_stream_data_files_from (i : Z) (todo : nat)
    (total_size : number) (s : t) : result t :=
  match todo with
  | O => Ok s
  | S todo' =>
      let '(size, s1) :=
        match is_test s, uniform_size s with
        | true, Some u =>
            if u =? 0 then (randint random (draws s) 1000 2001, drawn 1 s)
            else (u, s)
        | _, _ => (randint random (draws s) 1000 2001, drawn 1 s)
        end in
      let s2 := append_size size s1 in
      bind (number_truediv total_size (streams s)) (fun share =>
      bind (int_of_float (PrimFloat.mul 1048576 share)) (fun length =>
      let data := create_data random (draws s2) length in
      let s3 := create_file data (i + 1) (drawn (Z.to_nat length) s2) in
      create_stream_data_files_from (i + 1) todo' total_size
        (print (PrintFileCreated (i + 1) length) s3)))
  end.

Definition create_stream_data_files (total_size : number) (s : t)
  : result t :=
  create_stream_data_files_from 0 (Z.to_nat (streams s)) total_size s.

(** [QuicServer.__init__]; an exception leaves no server. *)
Definition init (host : str) (port streams : Z) (total_size : number)
    (ack_timeout : Z) (is_test : bool) (uniform_size : option Z)
  : result t :=
  create_stream_data_files total_size
    (mk host port streams ack_timeout is_test uniform_size [] [] None []
        None [] 0 [PrintListening host port; PrintStarts]).

End Construction.

(** ** The control channel *)

(** How a method of the server ends: it returns, it raises, or it is left
    waiting, in [recvfrom] when the script is used up or in the [join] of a
    thread that does not end. *)
Inductive ending (A : Type) : Type :=
| Ends (a : A) (s : t) (inbox : script)
| Fails (e : error) (s : t) (inbox : script)
| Waits (s : t).
Arguments Ends {A} a s inbox.
Arguments Fails {A} e s inbox.
Arguments Waits {A} s.

(** [wait_for_client_syn]: the source address is stored by the tuple
    assignment; a payload other than "Syn" is refused. *)
Definition wait_for_client_syn (inbox : script) (s : t) : ending unit :=
  match inbox with
  | [] => Waits s
  | Raises e :: rest => Fails (Builtin e) s rest
  | Datagram packet source :: rest =>
      let s1 := set_client_address source s in
      match parse_packet packet with
      | Raise e => Fails (Builtin e) s1 rest
      | Ok (_, data) =>
          if eq_str data (lit "Syn")
          then Ends tt (print (PrintSyn source) s1) rest
          else Fails (Builtin ValueError) s1 rest
      end
  end.

Definition send_number_of_streams (s : t) : step t :=
  match bind (str_of_int (streams s))
             (fun text => create_packet 0 (VStr text)) with
  | Raise e => Fail e s
  | Ok packet =>
      match sendto packet s with
      | Fine s1 => Fine (print (PrintSentNumberOfStreams (streams s)) s1)
      | Fail e s1 => Fail e s1
      end
  end.

(** [wait_for_ack(expected_packet_num)]: [True] for a packet with the
    expected number, [False] for another number and on a timeout. [except]
    is the [except socket.timeout] clause. *)
Definition wait_for_ack (expected_packet_num : Z) (inbox : script) (s : t)
  : ending bool :=
  match inbox with
  | [] => Waits s
  | received :: rest =>
      let except (e : exn) :=
        if exn_eqb e socket_timeout
        then Ends false (print (PrintAckTimeout expected_packet_num) s) rest
        else Fails (Builtin e) s rest in
      match received with
      | Raises e => except e
      | Datagram ack_message _ =>
          match parse_packet ack_message with
          | Raise e => except e
          | Ok (packet_number, _) =>
              if packet_number =? expected_packet_num
              then Ends true (print (PrintReceivedAck expected_packet_num) s)
                        rest
              else Ends false (print (PrintUnexpectedAck packet_number) s)
                        rest
          end
      end
  end.

Definition send_stream_port_to_client (stream_index stream_port : Z)
    (s : t) : step t :=
  match bind (str_of_int stream_port)
             (fun text => create_packet (stream_index + 1) (VStr text)) with
  | Raise e => Fail e s
  | Ok packet =>
      match sendto packet s with
      | Fine s1 =>
          Fine (print (PrintSentStreamPort (stream_index + 1) stream_port) s1)
      | Fail e s1 => Fail e s1
      end
  end.

(** [l[i]]: a negative index counts from the end; [None] is
    [IndexError]. *)
Definition list_index {A : Type} (l : list A) (i : Z) : option A :=
  let j := if i <? 0 then i + Z.of_nat (List.length l) else i in
  if j <? 0 then None else nth_error l (Z.to_nat j).

(** [start_stream_thread]: the sender of the stream is created and
    started, the port is announced, and one acknowledgment is waited for,
    whose verdict is not looked at. *)
Definition start_stream_thread (stream_index stream_port : Z)
    (inbox : script) (s : t) : ending unit :=
  match list_index (sizes s) stream_index with
  | None => Fails IndexError s inbox
  | Some size =>
      let stream := StreamOut.init (host s) stream_port size
                                   (stream_index + 1) in
      let s1 := append_thread stream s in
      match send_stream_port_to_client stream_index stream_port s1 with
      | Fail e s2 => Fails (Builtin e) s2 inbox
      | Fine s2 =>
          match wait_for_ack (stream_index + 1) inbox s2 with
          | Ends _ s3 rest => Ends tt s3 rest
          | Fails e s3 rest => Fails e s3 rest
          | Waits s3 => Waits s3
          end
      end
  end.

(** [start_stream_threads]: [for i in range(self.streams)], with [i] the
    next index and [todo] the number of turns left. *)
Fixpoint start_stream_threads_from (i : Z) (todo : nat) (inbox : script)
    (s : t) : ending unit :=
  match todo with
  | O => Ends tt s inbox
  | S todo' =>
      match start_stream_thread i (port s + i + 1) inbox s with
      | Ends _ s1 rest => start_stream_threads_from (i + 1) todo' rest s1
      | Fails e s1 rest => Fails e s1 rest
      | Waits s1 => Waits s1
      end
  end.

Definition start_stream_threads (inbox : script) (s : t) : ending unit :=
  start_stream_threads_from 0 (Z.to_nat (streams s)) inbox s.

(** ** The stream threads

    Each sender runs [StreamOut.start] in a thread of its own, on a socket,
    a file and a log of its own, and shares nothing with the server or with
    the other senders. What it does is fixed by the file it reads and by
    what its socket receives, which are given for each stream index:
    [file_of i] is the text of [out/file_i.txt] ([None] when there is no
    such file) and [inbox_of i] the script of the stream's socket. *)
Section Threads.

Variable file_of : Z -> option str.
Variable inbox_of : Z -> script.

Definition run (stream : StreamOut.t) : outcome unit StreamOut.t :=
  StreamOut.start (file_of (StreamOut.index stream))
                  (inbox_of (StreamOut.index stream)) stream.

Definition ended {A S : Type} (o : outcome A S) : bool :=
  match o with
  | Blocked _ => false
  | _ => true
  end.

Definition final {A S : Type} (o : outcome A S) : S :=
  match o with
  | Returned _ s _ => s
  | Raised _ s _ => s
  | Blocked s => s
  end.

(** [wait_for_all_threads]: every thread is joined; the senders are left
    as their threads leave them, and the call returns when all of them have
    ended. *)
Definition wait_for_all_threads (inbox : script) (s : t) : ending unit :=
  let runs := map run (threads s) in
  let s1 := set_threads (map final runs) s in
  if forallb ended runs
  then Ends tt (print PrintAllCompleted s1) inbox
  else Waits s1.

(** [start]; [except] is the [except Exception] clause. *)
Definition start (inbox : script) (s : t) : ending unit :=
  let except (e : error) (s' : t) (rest : script) :=
    Ends tt (print (PrintError e) s') rest in
  match wait_for_client_syn inbox s with
  | Waits s1 => Waits s1
  | Fails e s1 rest => except e s1 rest
  | Ends _ s1 rest =>
      match send_number_of_streams s1 with
      | Fail e s2 => except (Builtin e) s2 rest
      | Fine s2 =>
          match wait_for_ack 0 rest (settimeout (ack_timeout s2) s2) with
          | Waits s3 => Waits s3
          | Fails e s3 rest3 => except e s3 rest3
          | Ends false s3 rest3 => Ends tt s3 rest3
          | Ends true s3 rest3 =>
              match start_stream_threads rest3 s3 with
              | Waits s4 => Waits s4
              | Fails e s4 rest4 => except e s4 rest4
              | Ends _ s4 rest4 => wait_for_all_threads rest4 s4
              end
          end
      end
  end.

End Threads.

End QuicServer.

(* ================================================================== *)
(** * QuicClient.py: the report *)
(* ================================================================== *)

Module Report.
Import Py QUIC_API Net.

(** What [print_stream_stats] can raise: the exceptions of the
    built-ins, the [KeyError] of a stream index that is not in a dictionary
    and the [NameError] of a global variable that is not defined. *)
Inductive error : Type :=
| Builtin (e : exn)
| KeyError
| NameError.

(** The texts printed and written, kept as the values they are formatted
    from: the global statistics and the statistics of one stream. *)
Inductive output : Type :=
| GlobalStatistics (num_streams total_data_received : Z)
    (total_size_mb : float) (total_packets_received : Z)
    (data_rate_mb_sec packet_rate_sec : number)
| StreamStatistics (index total_data_received : Z) (data_size : option Z)
    (bytes_per_second packets_per_second : float)
    (total_packets_received : Z) (total_time : float).

(** The name of the report file: the number of streams, the size in MB
    and, in experiment mode, the run number. *)
Record file_name : Type := mk_name {
  name_streams : Z;
  name_size_mb : float;
  name_run : option Z
}.

(** A [QuicClient] at the time of the report: the attributes modelled in
    [QuicClient], the flag [exp] and the statistics collected from the
    streams; [stdout] records the texts printed and [files] the files
    opened for writing with the texts written to them, all oldest first. *)
Record t : Type := mk {
  client : QuicClient.t;
  exp : bool;
  streams_stats : dict Z StreamIn.stats;
  stdout : list output;
  files : list (file_name * list output)
}.

(** How a reporting method ends: it returns or it raises. *)
Inductive ending : Type :=
| Done (r : t)
| Failed (e : error) (r : t).

Definition print (line : output) (r : t) : t :=
  mk (client r) (exp r) (streams_stats r) (stdout r ++ [line]) (files r).

(** [open(file_name, 'w')]. *)
Definition open (name : file_name) (r : t) : t :=
  mk (client r) (exp r) (streams_stats r) (stdout r) (files r ++ [(name, [])]).

(** [file.write(text)] on the file opened last. *)
Definition write (line : output) (r : t) : t :=
  mk (client r) (exp r) (streams_stats r) (stdout r)
     (match rev (files r) with
      | (name, text) :: earlier => rev earlier ++ [(name, text ++ [line])]
      | [] => []
      end).

(** The loop of [print_stream_stats] over [self.streams_stats.items()]. *)
Fixpoint print_each_stream (items : list (Z * StreamIn.stats)) (r : t)
  : ending :=
  match items with
  | [] => Done r
  | (index, stats) :: rest =>
      match dict_get Z.eqb (QuicClient.time_elapsed_per_stream (client r))
                     index with
      | None => Failed KeyError r
      | Some stream_total_time =>
          match int_truediv (StreamIn.stats_total_data_received stats)
                            stream_total_time with
          | Raise e => Failed (Builtin e) r
          | Ok bytes_per_second =>
              match int_truediv (StreamIn.stats_total_packets_received stats)
                                stream_total_time with
              | Raise e => Failed (Builtin e) r
              | Ok packets_per_second =>
                  let output :=
                    StreamStatistics index
                      (StreamIn.stats_total_data_received stats)
                      (StreamIn.stats_data_size stats)
                      bytes_per_second packets_per_second
                      (StreamIn.stats_total_packets_received stats)
                      stream_total_time in
                  print_each_stream rest (write output (print output r))
              end
          end
      end
  end.

(** [print_stream_stats]; [run_number] is the global variable of that
    name, [None] when the module defines none. *)
Definition print_stream_stats (run_number : option Z) (r : t) : ending :=
  let stats := dict_values (streams_stats r) in
  let total_data_received :=
    sum (map StreamIn.stats_total_data_received stats) in
  let total_packets_received :=
    sum (map StreamIn.stats_total_packets_received stats) in
  let num_streams := Z.of_nat (List.length (streams_stats r)) in
  match int_int_truediv total_data_received (1024 * 1024) with
  | Raise e => Failed (Builtin e) r
  | Ok total_size_mb =>
  match max_float
          (dict_values (QuicClient.time_elapsed_per_stream (client r))) with
  | Raise e => Failed (Builtin e) r
  | Ok total_time =>
  let data_rate_mb_sec :=
    if float_gt0 total_time
    then Float (PrimFloat.div total_size_mb total_time) else Int 0 in
  match rate total_packets_received total_time with
  | Raise e => Failed (Builtin e) r
  | Ok packet_rate_sec =>
  match (if exp r
         then match run_number with
              | Some n => Some (Some n)
              | None => None
              end
         else Some None) with
  | None => Failed NameError r
  | Some run =>
      let global_output :=
        GlobalStatistics num_streams total_data_received total_size_mb
          total_packets_received data_rate_mb_sec packet_rate_sec in
      print_each_stream (streams_stats r)
        (write global_output
           (print global_output
              (open (mk_name num_streams total_size_mb run) r)))
  end end end end.

End Report.

(* ================================================================== *)
(** * Vocabulary of the statements *)
(* ================================================================== *)

(** The predicates and the example states the lemmas and theorems below
    are stated with. *)

Module Text.
Import Py.

(** A Unicode scalar value: a code point that is not a surrogate. These
    are the code points [str.encode] accepts. *)
Definition is_scalar (c : Z) : bool :=
  (0 <=? c) && (c <=? 0x10FFFF) && negb (is_surrogate c).

Definition is_ascii (c : Z) : bool := (0 <=? c) && (c <? 128).

(** An ASCII digit. *)
Definition is_digit (c : Z) : bool := (48 <=? c) && (c <=? 57).

(** The number a run of ASCII digits denotes, continuing from [acc]. *)
Definition value_of (ds : str) (acc : Z) : Z :=
  fold_left (fun a c => 10 * a + (c - 48)) ds acc.

(** A decimal digit of Unicode (general category Nd). *)
Definition is_decimal (c : Z) : bool :=
  match to_decimal c with
  | Some _ => true
  | None => false
  end.

Section Literals.
Variable digit : Z -> bool.

(** Digits, with single underscores between them:
    [digit ("_"? digit)*]. *)
Inductive digit_run : str -> Prop :=
| run_one (c : Z) : digit c = true -> digit_run [c]
| run_next (c : Z) (r : str) :
    digit c = true -> digit_run r -> digit_run (c :: r)
| run_underscore (c : Z) (r : str) :
    digit c = true -> digit_run r -> digit_run (c :: 95 :: r).

Definition is_sign (s : str) : Prop := s = [] \/ s = [43] \/ s = [45].

(** An integer literal: an optional sign and a run of digits. *)
Definition literal (s : str) : Prop :=
  exists sign body, is_sign sign /\ digit_run body /\ s = sign ++ body.

End Literals.

(** The literals [int] accepts in a [str]: the digits are those of
    Unicode. *)
Definition int_literal : str -> Prop := literal is_decimal.

(** No run of decimal digits contains white space, and the only run
    below 127 is the ASCII one. *)
Definition run_is_clean (z : Z) : bool :=
  forallb (fun k => negb (isspace (z + k))) [0; 1; 2; 3; 4; 5; 6; 7; 8; 9]
  && ((z =? 48) || (127 <=? z)).

(** An ASCII letter, as in [string.ascii_letters]. *)
Definition is_letter (c : Z) : bool :=
  ((65 <=? c) && (c <=? 90)) || ((97 <=? c) && (c <=? 122)).

(** The number of bytes UTF-8 takes for a code point. *)
Definition utf8_width (c : Z) : nat :=
  if c <? 0x80 then 1 else if c <? 0x800 then 2
  else if c <? 0x10000 then 3 else 4.

End Text.

Module Codec.
Import Py Text QUIC_API.

(** The header [create_packet] writes for a sequence number of at most
    eight digits. *)
Definition header_text (n : Z) : str :=
  repeat 48 (8 - List.length (decimal n)) ++ decimal n.
Definition header (n : Z) : bytes := map z2b (header_text n).

(** The header of a packet is malformed when its first eight bytes are
    not UTF-8 or when their text, stripped of white space, is not an
    integer literal (an optional sign, then decimal digits with single
    underscores between them). *)
Definition header_malformed (packet : bytes) : Prop :=
  match utf8_decode (firstn header_size packet) with
  | None => True
  | Some h => ~ int_literal (strip h)
  end.

Definition header_well_formed (packet : bytes) : Prop :=
  exists h,
    utf8_decode (firstn header_size packet) = Some h
    /\ int_literal (strip h).

End Codec.

Module Sender.
Import Py QUIC_API Net StreamOut.

(** ** The events a waiting sender can meet *)

Definition is_timeout (ev : recv_result) : bool :=
  match ev with
  | Raises e => exn_eqb e socket_timeout
  | Datagram _ _ => false
  end.

(** An acknowledgment whose sequence number is not [k]. *)
Definition is_other_ack (k : Z) (ev : recv_result) : bool :=
  match ev with
  | Datagram packet _ =>
      match parse_packet packet with
      | Ok (n, _) => negb (n =? k)
      | Raise _ => false
      end
  | Raises _ => false
  end.

(** A script on which no acknowledgment for [k] arrives: timeouts and
    acknowledgments of other sequence numbers only. *)
Definition waiting (k : Z) (evs : script) : bool :=
  forallb (fun ev => is_timeout ev || is_other_ack k ev) evs.

Definition timeouts (evs : script) : nat :=
  List.length (filter is_timeout evs).

(** What stop-and-wait means for a sender in [wait_for_ack_with_retry] with the chunk
    [packet_data] in flight at sequence [k], [packet] being the chunk's
    packet and [a] the client's address. *)
Definition stop_and_wait (packet_data : str) (k : Z) (packet : bytes)
    (s : t) (a : address) : Prop :=
  (* no acknowledgment of [k]: the call does not return, the counter
     stays at [k], and the packet has been resent once per timeout *)
  (forall evs, waiting k evs = true ->
     exists s1,
       wait_for_ack_with_retry packet_data evs s = Blocked s1
       /\ packet_num s1 = k
       /\ map fst (sent s1)
          = map fst (sent s) ++ repeat packet (timeouts evs))
  (* a timeout: the same packet is sent again, and the wait goes on *)
  /\ (forall rest,
        exists s1,
          wait_for_ack_with_retry packet_data
            (Raises socket_timeout :: rest) s
          = wait_for_ack_with_retry packet_data rest s1
          /\ sent s1 = sent s ++ [(packet, a)]
          /\ packet_num s1 = k)
  (* an acknowledgment of another number: logged, nothing sent *)
  /\ (forall ack source n d rest,
        parse_packet ack = Ok (n, d) -> n <> k ->
        exists s1,
          wait_for_ack_with_retry packet_data
            (Datagram ack source :: rest) s
          = wait_for_ack_with_retry packet_data rest s1
          /\ sent s1 = sent s
          /\ packet_num s1 = k
          /\ log_file s1 = log_file s ++ [LogUnexpectedAck k n])
  (* the acknowledgment of [k]: the counter advances, the call returns *)
  /\ (forall evs ack source d rest,
        waiting k evs = true -> parse_packet ack = Ok (k, d) ->
        exists s1,
          wait_for_ack_with_retry packet_data
            (evs ++ Datagram ack source :: rest) s
          = Returned tt s1 rest
          /\ packet_num s1 = k + 1
          /\ map fst (sent s1)
             = map fst (sent s) ++ repeat packet (timeouts evs))
  (* and the call returns in no other way *)
  /\ (forall evs s1 rest,
        wait_for_ack_with_retry packet_data evs s = Returned tt s1 rest ->
        packet_num s1 = k + 1
        /\ exists before ack source d,
             evs = before ++ Datagram ack source :: rest
             /\ parse_packet ack = Ok (k, d)
             /\ waiting k before = true).

Definition localhost : str := lit "127.0.0.1".

(** The sender of the repository's tests: port 9000, size 2048, stream 1,
    with the client at port 5000. *)
Definition test_sender : t :=
  set_client_address (localhost, 5000) (init localhost 9000 2048 1).

End Sender.

Module Receiver.
Import Py QUIC_API Net StreamIn.


Definition is_eof_packet (packet : bytes) : bool :=
  match parse_packet packet with
  | Ok (_, d) => eq_str d (lit "EOF")
  | Raise _ => false
  end.


(** Two states of one channel: the declared size, the index and the
    start time are the same. *)
Definition same_channel (s s' : t) : Prop :=
  data_size s' = data_size s /\ index s' = index s
  /\ global_start_time s' = global_start_time s.

(** A script of datagrams, each with its source address. *)
Definition datagrams (l : list (bytes * address)) : script :=
  map (fun pa => Datagram (fst pa) (snd pa)) l.

(** The state a call ends in, whichever way it ends. *)
Definition state_of {R S : Type} (o : outcome R S) : S :=
  match o with
  | Returned _ s _ => s
  | Raised _ s _ => s
  | Blocked s => s
  end.

(** The receiver of the repository's tests (stream 1, server port 9000),
    started at time 3.0, with a clock that always reads 5.0 and a callback
    that does nothing. *)
Definition test_clock (_ : nat) : float := 5%float.
Definition test_receiver : t := init (lit "127.0.0.1") 9000 1 3%float.
Definition no_callback (_ : float) (_ _ : Z) (a : unit) : unit := a.
Definition test_server : address := (lit "127.0.0.1", 5000).

(** The state of the test receiver once the sender has declared 1024
    bytes. *)
Definition after_size_1024 : t :=
  state_of
    (receive_stream_size [Datagram (blit "000000001024") test_server]
       test_receiver).

End Receiver.

Module Client.
Import Py QUIC_API Net QuicClient.

(** [packet] carries the sequence number [seq] and, as its payload, the
    decimal text of [n]: what the responder sends to announce the number
    of streams or the port of a stream. *)
Definition announces (packet : bytes) (seq n : Z) : Prop :=
  exists d, parse_packet packet = Ok (seq, d) /\ to_int d = Ok n.

Definition localhost : str := lit "127.0.0.1".
Definition server : address := (localhost, 8000).




(** The client of [test_calculate_rates]: two streams, each with two
    time buckets, each with an elapsed time of 2.0. *)
Definition rates_client : t :=
  mk localhost 8000 [] [] None
     [(1, [(0%float, 1000); (1%float, 2000)]);
      (2, [(0%float, 1500); (1%float, 2500)])]
     [(1, [(0%float, 10); (1%float, 20)]);
      (2, [(0%float, 15); (1%float, 25)])]
     [(1, 2%float); (2, 2%float)]
     [].

End Client.

Module Transfer.
Import Py QUIC_API Net Codec.

(** The chunks successive calls of [file.read(size)] cut a text into, for
    a positive [size]; [fuel] bounds their number. *)
Fixpoint chunks_fuel (fuel size : nat) (content : str) : list str :=
  match fuel, content with
  | S fuel', _ :: _ =>
      firstn size content :: chunks_fuel fuel' size (skipn size content)
  | _, _ => []
  end.

Definition chunks (size : Z) (content : str) : list str :=
  chunks_fuel (List.length content) (Z.to_nat size) content.

(** [packets] are the packets of the [texts], numbered from [k] on. *)
Fixpoint numbered (k : Z) (texts : list str) (packets : list bytes)
  : Prop :=
  match texts, packets with
  | [], [] => True
  | text :: texts', packet :: packets' =>
      create_packet k (VStr text) = Ok packet
      /\ numbered (k + 1) texts' packets'
  | _, _ => False
  end.

(** [acks] carry the numbers from [k] on, in order. *)
Fixpoint acknowledges (k : Z) (acks : list bytes) : Prop :=
  match acks with
  | [] => True
  | ack :: acks' =>
      (exists d, parse_packet ack = Ok (k, d)) /\ acknowledges (k + 1) acks'
  end.

(** The acknowledgments of [todo] packets numbered from [k] on. *)
Fixpoint acks_from (k : Z) (todo : nat) : list bytes :=
  match todo with
  | O => []
  | S todo' => header k :: acks_from (k + 1) todo'
  end.

(** Packets received from one address, and packets sent to one. *)
Definition received_from (a : address) (packets : list bytes) : script :=
  map (fun packet => Datagram packet a) packets.

Definition sent_to (a : address) (packets : list bytes)
  : list (bytes * address) :=
  map (fun packet => (packet, a)) packets.

(** Every packet is of at most [bufsize] bytes: [recvfrom(bufsize)]
    returns it whole. *)
Definition fit (bufsize : Z) (packets : list bytes) : Prop :=
  Forall (fun packet => Z.of_nat (List.length packet) <= bufsize) packets.

(** A sender whose chunks hold four characters, with its client known
    and the size of the stream acknowledged; and the text of a file. *)
Definition small_sender : StreamOut.t :=
  StreamOut.next_packet
    (StreamOut.set_client_address (lit "127.0.0.1", 5000)
       (StreamOut.init (lit "127.0.0.1") 9000 12 1)).

Definition small_file : str := lit "abcdefghij".

End Transfer.

Module Streams.
Import Py QUIC_API Net QuicClient Client.

(** The announcements of the streams as they reach the initiator: the
    packets with their sources, the numbers they carry and the ports they
    announce. *)
Fixpoint announced (l : list (bytes * address)) (seqs ports : list Z)
  : Prop :=
  match l, seqs, ports with
  | [], [], [] => True
  | (packet, _) :: l', seq :: seqs', port :: ports' =>
      announces packet seq port /\ announced l' seqs' ports'
  | _, _, _ => False
  end.

(** The receiver tasks for the [ports], the first of them with the index
    [i + 1]. *)
Fixpoint tasks_from (host : str) (start_time : option float) (i : Z)
    (ports : list Z) : list task :=
  match ports with
  | [] => []
  | port :: ports' =>
      mk_task host port (i + 1) start_time
      :: tasks_from host start_time (i + 1) ports'
  end.

(** [acks] are the acknowledgments of the numbers [seqs]. *)
Fixpoint acks_of (seqs : list Z) (acks : list bytes) : Prop :=
  match seqs, acks with
  | [], [] => True
  | seq :: seqs', ack :: acks' =>
      create_ack seq = Ok ack /\ acks_of seqs' acks'
  | _, _ => False
  end.

End Streams.

Module Responder.
Import Py QUIC_API Net Codec.

(** A packet whose payload is the text "Syn". *)
Definition is_syn (packet : bytes) : bool :=
  match parse_packet packet with
  | Ok (_, d) => eq_str d (lit "Syn")
  | Raise _ => false
  end.

(** What a server that waits for an acknowledgment takes as an answer: a
    timeout, or a datagram that [parse_packet] accepts, whatever number it
    carries. *)
Definition answers (ev : recv_result) : bool :=
  match ev with
  | Raises e => exn_eqb e socket_timeout
  | Datagram packet _ =>
      match parse_packet packet with
      | Ok _ => true
      | Raise _ => false
      end
  end.

(** The packet that carries the number [seq] and, as its payload, the
    decimal text of [value]. *)
Definition announcement (seq value : Z) : bytes :=
  header seq ++ map z2b (decimal value).

(** The announcements of the ports of [todo] streams, and the ports
    themselves, from the stream after the [i]-th on. *)
Fixpoint port_announcements (port i : Z) (todo : nat) : list bytes :=
  match todo with
  | O => []
  | S todo' =>
      announcement (i + 1) (port + i + 1)
      :: port_announcements port (i + 1) todo'
  end.


Fixpoint numbers_from (i : Z) (todo : nat) : list Z :=
  match todo with
  | O => []
  | S todo' => (i + 1) :: numbers_from (i + 1) todo'
  end.


(** The senders of the streams whose sizes are [sizes], the first of them
    being the stream after the [i]-th. *)
Fixpoint senders_from (host : str) (port i : Z) (sizes : list Z)
  : list StreamOut.t :=
  match sizes with
  | [] => []
  | size :: sizes' =>
      StreamOut.init host (port + i + 1) size (i + 1)
      :: senders_from host port (i + 1) sizes'
  end.

(** The size of the chunks of a stream as the constructor chooses it:
    the uniform size in test mode, when there is one and it is not zero,
    and a number from 1000 to 2001 otherwise. *)
Definition chosen_size (is_test : bool) (uniform_size : option Z)
    (size : Z) : Prop :=
  match is_test, uniform_size with
  | true, Some u => if u =? 0 then 1000 <= size <= 2001 else size = u
  | _, _ => 1000 <= size <= 2001
  end.

(** The server of the repository's [__main__], with two streams instead
    of four, once its client is known. *)
Definition small_server : QuicServer.t :=
  QuicServer.mk (lit "127.0.0.1") 8000 2 5 true (Some 2000) [2000; 2000] []
    (Some (lit "127.0.0.1", 5000)) [] None [] 0 [].

End Responder.

Module Reports.
Import Py QUIC_API Net Report.

(** A stream that has been collected but has never reported data: its
    index is among the statistics and has no elapsed time. *)
Definition unreported (r : t) (index : Z) : Prop :=
  (exists stats, In (index, stats) (streams_stats r))
  /\ dict_get Z.eqb (QuicClient.time_elapsed_per_stream (client r)) index
     = None.

(** The statistics of a receiver that got nothing. *)
Definition idle_stats (index : Z) : StreamIn.stats :=
  StreamIn.mk_stats 2%float index 0 0 (Some 1032) (Float 0%float)
                    (Float 0%float).

(** The client of [test_calculate_rates], out of experiment mode, with
    the statistics of a third stream that got nothing; and the same client
    in experiment mode with no stream collected. *)
Definition idle_stream_report : t :=
  mk Client.rates_client false [(3, idle_stats 3)] [] [].

Definition experiment_report : t :=
  mk Client.rates_client true [] [] [].

End Reports.

(* ================================================================== *)
(** * Facts about the built-ins *)
(* ================================================================== *)

Module PyFacts.
Import Py Text.

Lemma b2z_range (b : byte) : 0 <= b2z b < 256.
Proof.
  unfold b2z. pose proof (Byte.to_N_bounded b). lia.
Qed.

Lemma b2z_z2b (z : Z) : 0 <= z < 256 -> b2z (z2b z) = z.
Proof.
  intros Hz. unfold b2z, z2b.
  destruct (Byte.of_N (Z.to_N z)) as [b|] eqn:E.
  - apply Byte.to_of_N in E. rewrite E. lia.
  - apply Byte.of_N_None_iff in E. lia.
Qed.

Lemma z2b_b2z (b : byte) : z2b (b2z b) = b.
Proof.
  unfold b2z, z2b. rewrite N2Z.id, Byte.of_to_N. reflexivity.
Qed.

Ltac arith := Z.to_euclidean_division_equations; lia.

(** Case analysis on the boolean comparisons of the goal, one at a time;
    branches whose hypotheses contradict each other are closed at once. *)
Ltac zsplit :=
  repeat (match goal with
          | |- context [?a <? ?b] => destruct (Z.ltb_spec a b)
          | |- context [?a <=? ?b] => destruct (Z.leb_spec a b)
          | |- context [?a =? ?b] => destruct (Z.eqb_spec a b)
          end; try lia);
  cbv beta iota delta [andb orb negb].

(** The boolean comparisons of the goal are decided one after the other
    from the hypotheses, with quotients and remainders turned into
    equations. *)
Ltac zdecide :=
  repeat match goal with
    | |- context [?a <? ?b] =>
        first [ replace (a <? b) with true by (symmetry; apply Z.ltb_lt; arith)
              | replace (a <? b) with false
                  by (symmetry; apply Z.ltb_ge; arith) ]
    | |- context [?a <=? ?b] =>
        first [ replace (a <=? b) with true
                  by (symmetry; apply Z.leb_le; arith)
              | replace (a <=? b) with false
                  by (symmetry; apply Z.leb_gt; arith) ]
    | |- context [?a =? ?b] =>
        first [ replace (a =? b) with true
                  by (symmetry; apply Z.eqb_eq; arith)
              | replace (a =? b) with false
                  by (symmetry; apply Z.eqb_neq; arith) ]
    end;
  cbv beta iota delta [andb orb negb].

Lemma utf8_encode_char_scalar (c : Z) :
  is_scalar c = true <-> utf8_encode_char c <> None.
Proof.
  unfold is_scalar, utf8_encode_char, is_surrogate. split.
  - zsplit; intros; try discriminate; try lia.
  - zsplit; intros Hx; try reflexivity; try congruence; try lia.
Qed.

Lemma Some_inj {A : Type} (x y : A) : Some x = Some y -> x = y.
Proof. congruence. Qed.

Ltac some_subst :=
  let E := fresh "E" in intros E; apply Some_inj in E; subst.

Lemma utf8_decode_cons (b0 : byte) (r0 : bytes) :
  utf8_decode (b0 :: r0) =
  let x0 := b2z b0 in
  if x0 <? 0x80 then option_map (cons x0) (utf8_decode r0)
  else if (0xC2 <=? x0) && (x0 <=? 0xDF) then
    match r0 with
    | b1 :: r1 =>
        let x1 := b2z b1 in
        if is_cont x1
        then option_map (cons ((x0 - 0xC0) * 64 + (x1 - 0x80)))
                        (utf8_decode r1)
        else None
    | _ => None
    end
  else if (0xE0 <=? x0) && (x0 <=? 0xEF) then
    match r0 with
    | b1 :: b2 :: r2 =>
        let x1 := b2z b1 in
        let x2 := b2z b2 in
        let c := (x0 - 0xE0) * 4096 + (x1 - 0x80) * 64 + (x2 - 0x80) in
        if is_cont x1 && is_cont x2 && (0x800 <=? c)
           && negb (is_surrogate c)
        then option_map (cons c) (utf8_decode r2)
        else None
    | _ => None
    end
  else if (0xF0 <=? x0) && (x0 <=? 0xF4) then
    match r0 with
    | b1 :: b2 :: b3 :: r3 =>
        let x1 := b2z b1 in
        let x2 := b2z b2 in
        let x3 := b2z b3 in
        let c := (x0 - 0xF0) * 262144 + (x1 - 0x80) * 4096
                 + (x2 - 0x80) * 64 + (x3 - 0x80) in
        if is_cont x1 && is_cont x2 && is_cont x3
           && (0x10000 <=? c) && (c <=? 0x10FFFF)
        then option_map (cons c) (utf8_decode r3)
        else None
    | _ => None
    end
  else None.
Proof. reflexivity. Qed.

Ltac bytes_in_range := rewrite !b2z_z2b by arith.

(** Decoding undoes the encoding of one code point, whatever follows. *)
Lemma utf8_decode_encode_char (c : Z) (b r : bytes) :
  utf8_encode_char c = Some b ->
  utf8_decode (b ++ r) = option_map (cons c) (utf8_decode r).
Proof.
  unfold utf8_encode_char, is_surrogate.
  destruct (Z.ltb_spec c 0); [discriminate|].
  destruct (Z.ltb_spec c 0x80).
  { some_subst. unfold app. rewrite utf8_decode_cons. cbv zeta.
    bytes_in_range.
    destruct (Z.ltb_spec c 0x80); [reflexivity | lia]. }
  destruct (Z.ltb_spec c 0x800).
  { some_subst. unfold app. rewrite utf8_decode_cons. cbv beta iota zeta.
    bytes_in_range. unfold is_cont.
    replace ((0xC0 + c / 64 - 0xC0) * 64 + (0x80 + c mod 64 - 0x80)) with c
      by arith.
    zdecide. reflexivity. }
  destruct (Z.ltb_spec c 0x10000).
  { destruct (Z.leb_spec 0xD800 c); destruct (Z.leb_spec c 0xDFFF);
      try (exfalso; lia);
      cbv beta iota delta [andb]; try (intros; discriminate);
      some_subst; unfold app; rewrite utf8_decode_cons;
      cbv beta iota zeta; bytes_in_range; unfold is_cont, is_surrogate;
      replace ((0xE0 + c / 4096 - 0xE0) * 4096
               + (0x80 + (c / 64) mod 64 - 0x80) * 64
               + (0x80 + c mod 64 - 0x80)) with c
        by arith;
      zdecide; reflexivity. }
  destruct (Z.ltb_spec c 0x110000); [|discriminate].
  some_subst. unfold app. rewrite utf8_decode_cons. cbv beta iota zeta.
  bytes_in_range. unfold is_cont.
  replace ((0xF0 + c / 262144 - 0xF0) * 262144
           + (0x80 + (c / 4096) mod 64 - 0x80) * 4096
           + (0x80 + (c / 64) mod 64 - 0x80) * 64
           + (0x80 + c mod 64 - 0x80)) with c
    by arith.
  zdecide. reflexivity.
Qed.

Lemma utf8_decode_encode (s : str) (b : bytes) :
  utf8_encode s = Some b -> utf8_decode b = Some s.
Proof.
  revert b. induction s as [|c s IH]; intros b.
  - intros [= <-]. reflexivity.
  - cbn [utf8_encode].
    destruct (utf8_encode_char c) as [bc|] eqn:Ec; [|discriminate].
    destruct (utf8_encode s) as [bs|] eqn:Es; [|discriminate].
    some_subst. rewrite (utf8_decode_encode_char c bc bs Ec).
    rewrite (IH bs eq_refl). reflexivity.
Qed.

Lemma utf8_encode_scalars (s : str) :
  forallb is_scalar s = true -> exists b, utf8_encode s = Some b.
Proof.
  induction s as [|c s IH]; cbn [forallb utf8_encode].
  - intros _. exists []. reflexivity.
  - intros H. apply andb_true_iff in H as [Hc Hs].
    destruct (IH Hs) as [bs ->].
    apply utf8_encode_char_scalar in Hc.
    destruct (utf8_encode_char c) as [bc|]; [|congruence].
    exists (bc ++ bs). reflexivity.
Qed.

(** ** Decimal digits *)

Lemma value_of_app (ds1 ds2 : str) (acc : Z) :
  value_of (ds1 ++ ds2) acc = value_of ds2 (value_of ds1 acc).
Proof. apply fold_left_app. Qed.

Lemma value_of_zeros (k : nat) : value_of (repeat 48 k) 0 = 0.
Proof. induction k as [|k IH]; [reflexivity | exact IH]. Qed.

Lemma forallb_app_true {A : Type} (f : A -> bool) (l1 l2 : list A) :
  forallb f l1 = true -> forallb f l2 = true -> forallb f (l1 ++ l2) = true.
Proof. intros H1 H2. rewrite forallb_app, H1, H2. reflexivity. Qed.

Lemma digits_fuel_S (f : nat) (n : Z) (acc : str) :
  digits_fuel (S f) n acc =
  if n <? 10 then (48 + n mod 10) :: acc
  else digits_fuel f (n / 10) ((48 + n mod 10) :: acc).
Proof. reflexivity. Qed.

Lemma digits_fuel_spec (f : nat) :
  forall n acc, 0 <= n < 2 ^ Z.of_nat (S f) ->
  exists ds,
    digits_fuel (S f) n acc = ds ++ acc
    /\ forallb is_digit ds = true
    /\ ds <> []
    /\ value_of ds 0 = n
    /\ forall k, (0 < k)%nat -> n < 10 ^ Z.of_nat k ->
                 (List.length ds <= k)%nat.
Proof.
  induction f as [|f IH]; intros n acc Hn.
  - change (2 ^ Z.of_nat 1) with 2 in Hn.
    exists [48 + n mod 10]. rewrite digits_fuel_S.
    destruct (Z.ltb_spec n 10); [|lia].
    repeat split.
    + unfold is_digit. cbn [forallb]. zdecide. reflexivity.
    + discriminate.
    + unfold value_of. cbn [fold_left]. arith.
    + intros k Hk _. cbn [List.length]. lia.
  - rewrite digits_fuel_S.
    destruct (Z.ltb_spec n 10) as [Hlt|Hge].
    + exists [48 + n mod 10]. repeat split.
      * unfold is_digit. cbn [forallb]. zdecide. reflexivity.
      * discriminate.
      * unfold value_of. cbn [fold_left]. arith.
      * intros k Hk _. cbn [List.length]. lia.
    + assert (Hq : 0 <= n / 10 < 2 ^ Z.of_nat (S f)).
      { rewrite (Nat2Z.inj_succ (S f)), Z.pow_succ_r in Hn by lia. arith. }
      destruct (IH (n / 10) ((48 + n mod 10) :: acc) Hq)
        as (ds & Eds & Hdig & Hne & Hval & Hlen).
      exists (ds ++ [48 + n mod 10]). repeat split.
      * rewrite Eds, <- app_assoc. reflexivity.
      * apply forallb_app_true; [exact Hdig|].
        unfold is_digit. cbn [forallb]. zdecide. reflexivity.
      * intros E. apply app_eq_nil in E as [_ E]. discriminate.
      * rewrite value_of_app, Hval. unfold value_of. cbn [fold_left]. arith.
      * intros k Hk Hnk. rewrite length_app. cbn [List.length].
        destruct k as [|k]; [lia|].
        destruct k as [|k]; [change (10 ^ Z.of_nat 1) with 10 in Hnk; lia|].
        assert ((List.length ds <= S k)%nat); [|lia].
        apply Hlen; [lia|].
        rewrite (Nat2Z.inj_succ (S k)), Z.pow_succ_r in Hnk by lia. arith.
Qed.

(** [decimal n] is a non-empty run of digits that denotes [n], and has at
    most [k] digits when [n < 10 ^ k]. *)
Lemma decimal_spec (n : Z) :
  0 <= n ->
  forallb is_digit (decimal n) = true
  /\ decimal n <> []
  /\ value_of (decimal n) 0 = n
  /\ forall k, (0 < k)%nat -> n < 10 ^ Z.of_nat k ->
               (List.length (decimal n) <= k)%nat.
Proof.
  intros Hn. unfold decimal.
  assert (Hb : 0 <= n < 2 ^ Z.of_nat (S (Z.to_nat (Z.log2 n)))).
  { split; [exact Hn|].
    rewrite Nat2Z.inj_succ, Z2Nat.id by apply Z.log2_nonneg.
    destruct (Z.eq_dec n 0) as [-> | Hnz]; [reflexivity|].
    apply Z.log2_spec. lia. }
  destruct (digits_fuel_spec _ n [] Hb) as (ds & Eds & H1 & H2 & H3 & H4).
  rewrite Eds, app_nil_r. auto.
Qed.

(** A run of [k] digits denotes a number below [10 ^ k]. *)
Lemma value_of_bound (ds : str) :
  forallb is_digit ds = true ->
  forall acc, 0 <= acc ->
  0 <= value_of ds acc < (acc + 1) * 10 ^ Z.of_nat (List.length ds).
Proof.
  induction ds as [|c r IH]; cbn [forallb List.length]; intros H acc Hacc.
  - cbn. lia.
  - apply andb_true_iff in H as [Hc Hr].
    unfold is_digit in Hc. apply andb_true_iff in Hc as [H0 H1].
    apply Z.leb_le in H0. apply Z.leb_le in H1.
    change (value_of (c :: r) acc) with (value_of r (10 * acc + (c - 48))).
    specialize (IH Hr (10 * acc + (c - 48)) ltac:(lia)).
    rewrite Nat2Z.inj_succ, Z.pow_succ_r by lia.
    assert (0 < 10 ^ Z.of_nat (List.length r)) by (apply Z.pow_pos_nonneg; lia).
    nia.
Qed.

(** A number of at least [10 ^ k] has more than [k] digits. *)
Lemma decimal_length_lower (n : Z) (k : nat) :
  10 ^ Z.of_nat k <= n -> (k < List.length (decimal n))%nat.
Proof.
  intros Hn.
  assert (H0 : 0 <= n).
  { assert (0 < 10 ^ Z.of_nat k) by (apply Z.pow_pos_nonneg; lia). lia. }
  destruct (decimal_spec n H0) as (Hd & _ & Hv & _).
  pose proof (value_of_bound _ Hd 0 ltac:(lia)) as Hb. rewrite Hv in Hb.
  destruct (Nat.lt_ge_cases k (List.length (decimal n))) as [|Hle]; [assumption|].
  assert (10 ^ Z.of_nat (List.length (decimal n)) <= 10 ^ Z.of_nat k)
    by (apply Z.pow_le_mono_r; lia).
  lia.
Qed.

(** ** ASCII text *)

Lemma is_digit_ascii (c : Z) : is_digit c = true -> is_ascii c = true.
Proof. unfold is_digit, is_ascii. zsplit; intros; congruence. Qed.

Lemma forallb_impl {A : Type} (f g : A -> bool) (l : list A) :
  (forall x, f x = true -> g x = true) ->
  forallb f l = true -> forallb g l = true.
Proof.
  intros Hfg. rewrite !forallb_forall. auto.
Qed.

Lemma utf8_encode_ascii (s : str) :
  forallb is_ascii s = true -> utf8_encode s = Some (map z2b s).
Proof.
  induction s as [|c s IH]; cbn [forallb utf8_encode map]; [reflexivity|].
  intros H. apply andb_true_iff in H as [Hc Hs]. rewrite (IH Hs).
  unfold utf8_encode_char. unfold is_ascii in Hc.
  apply andb_true_iff in Hc as [H0 H1].
  apply Z.leb_le in H0. apply Z.ltb_lt in H1.
  zdecide. reflexivity.
Qed.

Lemma utf8_decode_ascii (s : str) :
  forallb is_ascii s = true -> utf8_decode (map z2b s) = Some s.
Proof.
  intros H. apply utf8_decode_encode, utf8_encode_ascii, H.
Qed.

(** ** [zfill] and [strip] on digits *)

Lemma zfill_digits (width : nat) (ds : str) :
  forallb is_digit ds = true ->
  zfill width ds = repeat 48 (width - List.length ds) ++ ds.
Proof.
  unfold zfill. destruct ds as [|c r]; [rewrite app_nil_r; reflexivity|].
  cbn [forallb]. intros H. apply andb_true_iff in H as [Hc _].
  unfold is_digit in Hc. apply andb_true_iff in Hc as [H0 H1].
  apply Z.leb_le in H0. apply Z.leb_le in H1.
  zdecide. reflexivity.
Qed.

Lemma forallb_repeat {A : Type} (f : A -> bool) (x : A) (k : nat) :
  f x = true -> forallb f (repeat x k) = true.
Proof.
  intros H. induction k as [|k IH]; cbn [repeat forallb];
    [reflexivity | rewrite H, IH; reflexivity].
Qed.

Lemma is_digit_not_space (c : Z) : is_digit c = true -> isspace c = false.
Proof.
  unfold is_digit, isspace. intros H. apply andb_true_iff in H as [H0 H1].
  apply Z.leb_le in H0. apply Z.leb_le in H1. zdecide. reflexivity.
Qed.

Lemma lstrip_head (c : Z) (r : str) :
  isspace c = false -> lstrip (c :: r) = c :: r.
Proof. intros H. cbn [lstrip]. rewrite H. reflexivity. Qed.

(** Text that neither starts nor ends with white space is left
    untouched. *)
Lemma strip_id (s : str) :
  (forall c r, s = c :: r -> isspace c = false) ->
  (forall c r, rev s = c :: r -> isspace c = false) ->
  strip s = s.
Proof.
  intros Hhead Hlast. unfold strip, rstrip.
  assert (E : lstrip s = s).
  { destruct s as [|c r]; [reflexivity|].
    apply lstrip_head, (Hhead c r eq_refl). }
  rewrite E.
  destruct (rev s) as [|c r] eqn:Er.
  - cbn [lstrip rev]. apply (f_equal (@rev Z)) in Er.
    rewrite rev_involutive in Er. exact (eq_sym Er).
  - rewrite lstrip_head by apply (Hlast c r eq_refl).
    rewrite <- Er. apply rev_involutive.
Qed.

Lemma strip_digits (ds : str) : forallb is_digit ds = true -> strip ds = ds.
Proof.
  intros H. rewrite forallb_forall in H.
  apply strip_id; intros c r E; apply is_digit_not_space, H.
  - rewrite E. left. reflexivity.
  - apply in_rev. rewrite E. left. reflexivity.
Qed.

(** ** [int] on digits *)

Lemma transform_char_ascii (c : Z) :
  is_ascii c = true -> c <> 127 -> transform_char c = c.
Proof.
  unfold is_ascii, transform_char. intros H Hc.
  apply andb_true_iff in H as [H0 H1].
  apply Z.leb_le in H0. apply Z.ltb_lt in H1. zdecide. reflexivity.
Qed.

Lemma transform_digits (ds : str) :
  forallb is_digit ds = true -> map transform_char ds = ds.
Proof.
  induction ds as [|c r IH]; cbn [forallb map]; [reflexivity|].
  intros H. apply andb_true_iff in H as [Hc Hr]. rewrite (IH Hr).
  rewrite transform_char_ascii; [reflexivity | apply is_digit_ascii, Hc |].
  unfold is_digit in Hc. apply andb_true_iff in Hc as [H0 H1].
  apply Z.leb_le in H1. lia.
Qed.

Lemma scan_digits_digits (ds : str) :
  forallb is_digit ds = true ->
  forall acc nd,
    scan_digits ds acc nd false
    = Some (value_of ds acc, nd + Z.of_nat (List.length ds), []).
Proof.
  induction ds as [|c r IH]; cbn [forallb]; intros H acc nd.
  - cbn. rewrite Z.add_0_r. reflexivity.
  - apply andb_true_iff in H as [Hc Hr].
    cbn [scan_digits]. unfold ascii_digit. fold (is_digit c). rewrite Hc.
    rewrite (IH Hr). cbn [List.length value_of fold_left].
    unfold value_of. do 3 f_equal. lia.
Qed.

(** [int] reads a non-empty run of at most 4300 ASCII digits as the
    number it denotes. *)
Lemma int_of_ascii_digits (ds : str) :
  forallb is_digit ds = true -> ds <> [] ->
  Z.of_nat (List.length ds) <= int_max_str_digits ->
  int_of_ascii ds = Ok (value_of ds 0).
Proof.
  intros Hd Hne Hlen. unfold int_of_ascii.
  destruct ds as [|c r]; [congruence|].
  pose proof Hd as Hd'. cbn [forallb] in Hd'.
  apply andb_true_iff in Hd' as [Hc _].
  assert (Hc' : 48 <= c <= 57).
  { unfold is_digit in Hc. apply andb_true_iff in Hc as [H0 H1].
    apply Z.leb_le in H0. apply Z.leb_le in H1. lia. }
  assert (Es : skip_space (c :: r) = c :: r).
  { cbn [skip_space]. unfold ascii_isspace. zdecide. reflexivity. }
  rewrite Es. unfold split_sign.
  replace (c =? 43) with false by (symmetry; apply Z.eqb_neq; lia).
  replace (c =? 45) with false by (symmetry; apply Z.eqb_neq; lia).
  unfold int_of_digits.
  replace (c =? 95) with false by (symmetry; apply Z.eqb_neq; lia).
  rewrite (scan_digits_digits _ Hd). cbn [List.length] in *.
  replace (0 + Z.of_nat (S (List.length r)) =? 0) with false
    by (symmetry; apply Z.eqb_neq; lia).
  replace (int_max_str_digits <? 0 + Z.of_nat (S (List.length r))) with false
    by (symmetry; apply Z.ltb_ge; lia).
  reflexivity.
Qed.

Lemma int_of_str_digits (ds : str) :
  forallb is_digit ds = true -> ds <> [] ->
  Z.of_nat (List.length ds) <= int_max_str_digits ->
  int_of_str ds = Ok (value_of ds 0).
Proof.
  intros Hd Hne Hlen. unfold int_of_str. rewrite (transform_digits _ Hd).
  apply int_of_ascii_digits; assumption.
Qed.

Lemma pow10_le_limit (k : Z) :
  0 <= k <= int_max_str_digits -> 10 ^ k <= 10 ^ int_max_str_digits.
Proof. intros H. apply Z.pow_le_mono_r; lia. Qed.

Lemma str_of_int_nonneg (n : Z) :
  0 <= n < 10 ^ int_max_str_digits -> str_of_int n = Ok (decimal n).
Proof.
  intros H. unfold str_of_int.
  replace (10 ^ int_max_str_digits <=? Z.abs n) with false
    by (symmetry; apply Z.leb_gt; lia).
  replace (n <? 0) with false by (symmetry; apply Z.ltb_ge; lia).
  reflexivity.
Qed.

(** [int(str(n)) == n] for the non-negative numbers [str] accepts. *)
Lemma int_of_str_decimal (n : Z) :
  0 <= n < 10 ^ int_max_str_digits -> int_of_str (decimal n) = Ok n.
Proof.
  intros [H0 H1]. destruct (decimal_spec n H0) as (Hd & Hne & Hv & Hlen).
  rewrite int_of_str_digits, Hv; [reflexivity | exact Hd | exact Hne |].
  assert (Hk : (List.length (decimal n) <= Z.to_nat int_max_str_digits)%nat).
  { apply Hlen; [unfold int_max_str_digits; lia|].
    rewrite Z2Nat.id by (unfold int_max_str_digits; lia). exact H1. }
  unfold int_max_str_digits in *. lia.
Qed.

(** ** The size of what [int] returns *)

Lemma scan_digits_bound (t : str) :
  forall acc nd prev v nd' rest,
  scan_digits t acc nd prev = Some (v, nd', rest) ->
  0 <= nd -> 0 <= acc < 10 ^ nd ->
  0 <= v < 10 ^ nd' /\ nd <= nd'.
Proof.
  induction t as [|c r IH]; intros acc nd prev v nd' rest.
  - cbn [scan_digits]. destruct prev; [discriminate|].
    intros [= <- <- <-]. lia.
  - cbn [scan_digits]. unfold ascii_digit.
    destruct ((48 <=? c) && (c <=? 57)) eqn:Hc.
    + intros E Hnd Hacc. apply andb_true_iff in Hc as [H0 H1].
      apply Z.leb_le in H0. apply Z.leb_le in H1.
      apply IH in E; [lia | lia |].
      rewrite Z.pow_add_r, Z.pow_1_r by lia. lia.
    + destruct (c =? 95).
      * destruct prev; [discriminate|]. intros E Hnd Hacc.
        apply IH in E; assumption.
      * destruct prev; [discriminate|]. intros [= <- <- <-]. lia.
Qed.

(** [int] never returns a number of more than 4300 digits. *)
Lemma int_of_ascii_bound (t : str) (z : Z) :
  int_of_ascii t = Ok z -> Z.abs z < 10 ^ int_max_str_digits.
Proof.
  unfold int_of_ascii.
  destruct (split_sign (skip_space t)) as [negative s2].
  unfold int_of_digits.
  destruct s2 as [|c r]; [discriminate|].
  destruct (c =? 95); [discriminate|].
  destruct (scan_digits (c :: r) 0 0 false) as [[[v nd] rest]|] eqn:Escan;
    [|discriminate].
  destruct (nd =? 0); [discriminate|].
  destruct (Z.ltb_spec int_max_str_digits nd) as [|Hnd]; [discriminate|].
  destruct (skip_space rest); [|discriminate].
  intros [= <-].
  apply scan_digits_bound in Escan; [|lia|cbn; lia].
  assert (10 ^ nd <= 10 ^ int_max_str_digits)
    by (apply Z.pow_le_mono_r; lia).
  destruct negative; lia.
Qed.

Lemma is_ascii_zfill (width : nat) (s : str) :
  forallb is_ascii s = true -> forallb is_ascii (zfill width s) = true.
Proof.
  intros H. unfold zfill.
  assert (Hpad : forall k, forallb is_ascii (repeat 48 k) = true)
    by (intros k; apply forallb_repeat; reflexivity).
  destruct s as [|c r]; [apply Hpad|].
  destruct ((c =? 43) || (c =? 45)).
  - cbn [forallb] in *. apply andb_true_iff in H as [Hc Hr].
    rewrite Hc. cbn [andb]. apply forallb_app_true; [apply Hpad | exact Hr].
  - apply forallb_app_true; [apply Hpad | exact H].
Qed.

(** [str(n)] is ASCII text. *)
Lemma str_of_int_ascii (n : Z) :
  Z.abs n < 10 ^ int_max_str_digits ->
  exists s, str_of_int n = Ok s /\ forallb is_ascii s = true.
Proof.
  intros Hn. unfold str_of_int.
  replace (10 ^ int_max_str_digits <=? Z.abs n) with false
    by (symmetry; apply Z.leb_gt; exact Hn).
  eexists. split; [reflexivity|].
  destruct (Z.ltb_spec n 0).
  - destruct (decimal_spec (- n) ltac:(lia)) as (Hd & _).
    cbn [forallb]. change (is_ascii 45) with true. cbn [andb].
    revert Hd. apply forallb_impl, is_digit_ascii.
  - destruct (decimal_spec n ltac:(lia)) as (Hd & _).
    revert Hd. apply forallb_impl, is_digit_ascii.
Qed.

(** ** Floats *)






(** A float above zero is not equal to zero, so the division guarded by
    [t > 0] never raises [ZeroDivisionError]. *)
Lemma float_gt0_nonzero (t : float) :
  float_gt0 t = true -> PrimFloat.eqb t PrimFloat.zero = false.
Proof.
  unfold float_gt0. rewrite ltb_spec, eqb_spec.
  change (Prim2SF PrimFloat.zero) with (S754_zero false).
  unfold SFltb, SFeqb.
  destruct (Prim2SF t) as [s|s| |s m e]; try destruct s; cbn; intros;
    try discriminate; reflexivity.
Qed.

(** [rate] in full: the float quotient when time has passed, the [int]
    zero otherwise. [x] is [float(total)]. *)
Lemma rate_spec (total : Z) (t x : float) :
  float_of_int total = Ok x ->
  rate total t = Ok (if float_gt0 t then Float (PrimFloat.div x t) else Int 0).
Proof.
  intros Hx. unfold rate, int_truediv.
  destruct (float_gt0 t) eqn:Ht; [|reflexivity].
  rewrite Hx. cbn [bind]. rewrite (float_gt0_nonzero t Ht). reflexivity.
Qed.



(** ** Sums *)

Lemma fold_add_acc (l : list Z) (a : Z) :
  fold_left Z.add l a = a + fold_left Z.add l 0.
Proof.
  revert a. induction l as [|x l IH]; intros a; cbn [fold_left]; [lia|].
  rewrite (IH (a + x)), (IH (0 + x)). lia.
Qed.

Lemma sum_cons (x : Z) (l : list Z) : sum (x :: l) = x + sum l.
Proof. unfold sum. cbn [fold_left]. rewrite fold_add_acc. lia. Qed.

Lemma sum_app (l1 l2 : list Z) : sum (l1 ++ l2) = sum l1 + sum l2.
Proof.
  induction l1 as [|x l1 IH]; [reflexivity|].
  cbn [app]. rewrite !sum_cons, IH. lia.
Qed.

End PyFacts.

(* ================================================================== *)
(** * Integer literals *)
(* ================================================================== *)

Module IntFacts.
Import Py Text PyFacts.

Lemma digit_run_head (digit : Z -> bool) (s : str) :
  digit_run digit s -> exists c r, s = c :: r /\ digit c = true.
Proof. intros H. destruct H; eauto. Qed.

(** ** The table of decimal digits *)

Lemma to_decimal_range (c d : Z) :
  to_decimal c = Some d ->
  0 <= d <= 9 /\ In (c - d) decimal_zeros.
Proof.
  unfold to_decimal.
  destruct (find (fun z => (z <=? c) && (c <? z + 10)) decimal_zeros)
    as [z|] eqn:E; [|discriminate].
  intros [= <-]. apply find_some in E as [Hin Hz].
  apply andb_true_iff in Hz as [H0 H1].
  apply Z.leb_le in H0. apply Z.ltb_lt in H1.
  replace (c - (c - z)) with z by lia. split; [lia | exact Hin].
Qed.

Lemma decimal_zeros_clean : forallb run_is_clean decimal_zeros = true.
Proof. vm_compute. reflexivity. Qed.

Lemma to_decimal_clean (c d : Z) :
  to_decimal c = Some d ->
  isspace c = false /\ (c < 127 -> is_digit c = true).
Proof.
  intros H. apply to_decimal_range in H as [Hd Hin].
  pose proof decimal_zeros_clean as Hall.
  rewrite forallb_forall in Hall. specialize (Hall _ Hin).
  unfold run_is_clean in Hall. apply andb_true_iff in Hall as [Hsp Hz].
  rewrite forallb_forall in Hsp.
  assert (Hk : In d [0; 1; 2; 3; 4; 5; 6; 7; 8; 9]).
  { cbn [In]. lia. }
  specialize (Hsp d Hk). replace (c - d + d) with c in Hsp by lia.
  apply negb_true_iff in Hsp. split; [exact Hsp|].
  intros Hc. apply orb_true_iff in Hz as [Hz|Hz].
  - apply Z.eqb_eq in Hz. unfold is_digit.
    apply andb_true_iff. split; [apply Z.leb_le | apply Z.leb_le]; lia.
  - apply Z.leb_le in Hz. lia.
Qed.

Lemma to_decimal_ascii (c : Z) :
  is_digit c = true -> to_decimal c = Some (c - 48).
Proof.
  unfold is_digit. intros H. apply andb_true_iff in H as [H0 H1].
  apply Z.leb_le in H0. apply Z.leb_le in H1.
  unfold to_decimal, decimal_zeros. cbn [find].
  replace (0x30 <=? c) with true by (symmetry; apply Z.leb_le; lia).
  replace (c <? 0x30 + 10) with true by (symmetry; apply Z.ltb_lt; lia).
  reflexivity.
Qed.

(** ** What [int] makes of each code point *)

Lemma transform_char_digit (c : Z) :
  is_digit (transform_char c) = is_decimal c.
Proof.
  unfold transform_char, is_decimal.
  destruct (Z.ltb_spec c 127) as [Hc|Hc].
  - destruct (is_digit c) eqn:Hd.
    + rewrite (to_decimal_ascii c Hd). reflexivity.
    + destruct (to_decimal c) as [d|] eqn:E; [|reflexivity].
      apply to_decimal_clean in E as [_ E]. rewrite (E Hc) in Hd.
      discriminate.
  - destruct (to_decimal c) as [d|] eqn:E.
    + pose proof (to_decimal_clean c d E) as [Hsp _]. rewrite Hsp.
      apply to_decimal_range in E as [Hd _].
      unfold is_digit. apply andb_true_iff.
      split; apply Z.leb_le; lia.
    + destruct (isspace c); reflexivity.
Qed.

Lemma transform_char_cases (c : Z) :
  transform_char c = c
  \/ (127 <= c /\ isspace c = true /\ transform_char c = 32)
  \/ (127 <= c /\ 48 <= transform_char c <= 57)
  \/ (127 <= c /\ transform_char c = 63).
Proof.
  unfold transform_char.
  destruct (Z.ltb_spec c 127) as [Hc|Hc]; [left; reflexivity|].
  destruct (isspace c) eqn:Hsp; [right; left; auto|].
  destruct (to_decimal c) as [d|] eqn:E.
  - apply to_decimal_range in E as [Hd _]. right; right; left. lia.
  - right; right; right. auto.
Qed.

(** A code point [int] reads as white space is white space for
    [str.strip]. *)
Lemma transform_char_space (c : Z) :
  ascii_isspace (transform_char c) = true -> isspace c = true.
Proof.
  destruct (transform_char_cases c) as [E|[(Hc & Hsp & E)|[(Hc & E)|(Hc & E)]]].
  - rewrite E. unfold ascii_isspace, isspace. zsplit; intros; congruence.
  - intros _. exact Hsp.
  - unfold ascii_isspace. zsplit; intros; congruence.
  - rewrite E. cbn. discriminate.
Qed.

(** Signs and underscores are only read where they are written. *)
Lemma transform_char_mark (c x : Z) :
  x = 43 \/ x = 45 \/ x = 95 -> transform_char c = x -> c = x.
Proof.
  intros Hx E.
  destruct (transform_char_cases c) as [E1|[(Hc & _ & E1)|[(Hc & E1)|(Hc & E1)]]];
    lia.
Qed.

Lemma transform_char_of_mark (x : Z) :
  x = 43 \/ x = 45 \/ x = 95 -> transform_char x = x.
Proof. intros [-> | [-> | ->]]; reflexivity. Qed.

(** ** What [int] accepts is a literal between white space *)

Lemma skip_space_split (t : str) :
  exists ws, t = ws ++ skip_space t /\ forallb ascii_isspace ws = true.
Proof.
  induction t as [|c r (ws & E & Hws)]; cbn [skip_space].
  - exists []. auto.
  - destruct (ascii_isspace c) eqn:Hc.
    + exists (c :: ws). cbn [app forallb]. rewrite Hc, Hws.
      split; [congruence | reflexivity].
    + exists []. auto.
Qed.

Lemma skip_space_nil (t : str) :
  skip_space t = [] -> forallb ascii_isspace t = true.
Proof.
  intros H. destruct (skip_space_split t) as (ws & E & Hws).
  rewrite H, app_nil_r in E. subst ws. exact Hws.
Qed.

Lemma skip_space_head (c : Z) (r : str) :
  ascii_isspace c = false -> skip_space (c :: r) = c :: r.
Proof. intros H. cbn [skip_space]. rewrite H. reflexivity. Qed.

Lemma split_sign_spec (s s2 : str) (negative : bool) :
  split_sign s = (negative, s2) ->
  exists sign, is_sign sign /\ s = sign ++ s2.
Proof.
  unfold split_sign, is_sign. destruct s as [|c r].
  - intros [= _ <-]. exists []. auto.
  - destruct (Z.eqb_spec c 43) as [-> | _].
    + intros [= _ <-]. exists [43]. auto.
    + destruct (Z.eqb_spec c 45) as [-> | _]; intros [= _ <-].
      * exists [45]. auto.
      * exists []. auto.
Qed.

Lemma ascii_digit_is_digit (c : Z) :
  ascii_digit c = if is_digit c then Some (c - 48) else None.
Proof. reflexivity. Qed.

(** The text the digit loop consumes. *)
Lemma scan_digits_sound (t : str) :
  forall acc nd prev v nd' rest,
  scan_digits t acc nd prev = Some (v, nd', rest) ->
  exists body,
    t = body ++ rest
    /\ if prev then digit_run is_digit body
       else (body = [] /\ nd' = nd)
            \/ digit_run is_digit body
            \/ exists r, body = 95 :: r /\ digit_run is_digit r.
Proof.
  induction t as [|c r IH]; intros acc nd prev v nd' rest; cbn [scan_digits].
  - destruct prev; [discriminate|]. intros [= <- <- <-].
    exists []. auto.
  - rewrite ascii_digit_is_digit. destruct (is_digit c) eqn:Hc.
    + intros E. apply IH in E as (body & -> & Hb). cbn iota in Hb.
      assert (Hrun : digit_run is_digit (c :: body)).
      { destruct Hb as [[-> _]|[Hb|(r' & -> & Hb)]].
        - apply run_one, Hc.
        - apply run_next; assumption.
        - apply run_underscore; assumption. }
      exists (c :: body). split; [reflexivity|].
      destruct prev; auto.
    + destruct (Z.eqb_spec c 95) as [-> | Hus].
      * destruct prev; [discriminate|]. intros E.
        apply IH in E as (body & -> & Hb). cbn iota in Hb.
        exists (95 :: body). split; [reflexivity|]. right; right. eauto.
      * destruct prev; [discriminate|]. intros [= <- <- <-].
        exists []. auto.
Qed.

Lemma int_of_ascii_sound (t : str) (z : Z) :
  int_of_ascii t = Ok z ->
  exists ws1 sign body ws2,
    t = ws1 ++ sign ++ body ++ ws2
    /\ forallb ascii_isspace ws1 = true
    /\ forallb ascii_isspace ws2 = true
    /\ is_sign sign
    /\ digit_run is_digit body.
Proof.
  unfold int_of_ascii.
  destruct (skip_space_split t) as (ws1 & Et & Hws1).
  destruct (split_sign (skip_space t)) as [negative s2] eqn:Esign.
  apply split_sign_spec in Esign as (sign & Hsign & Es1).
  unfold int_of_digits.
  destruct s2 as [|c r]; [discriminate|].
  destruct (Z.eqb_spec c 95) as [|Hc]; [discriminate|].
  destruct (scan_digits (c :: r) 0 0 false) as [[[v nd] rest]|] eqn:Escan;
    [|discriminate].
  destruct (Z.eqb_spec nd 0) as [|Hnd]; [discriminate|].
  destruct (int_max_str_digits <? nd); [discriminate|].
  destruct (skip_space rest) eqn:Erest; [|discriminate].
  intros _. apply skip_space_nil in Erest.
  apply scan_digits_sound in Escan as (body & Eb & Hb).
  exists ws1, sign, body, rest.
  rewrite Et at 1. rewrite Es1, Eb.
  repeat split; try assumption.
  destruct Hb as [[_ Hn]|[Hb|(r' & -> & _)]]; [congruence | exact Hb |].
  cbn [app] in Eb. congruence.
Qed.

(** ** The same for a [str], through the rewriting to ASCII *)

Lemma digit_run_lift (t : str) :
  digit_run is_digit t ->
  forall body, t = map transform_char body -> digit_run is_decimal body.
Proof.
  induction 1 as [c Hc|c r Hc Hr IH|c r Hc Hr IH]; intros body E.
  - destruct body as [|c' [|? ?]]; try discriminate. injection E as ->.
    apply run_one. rewrite <- transform_char_digit. exact Hc.
  - destruct body as [|c' r']; [discriminate|]. injection E as -> ->.
    apply run_next; [|apply IH; reflexivity].
    rewrite <- transform_char_digit. exact Hc.
  - destruct body as [|c' [|u r']]; try discriminate.
    injection E as -> Hu ->. symmetry in Hu.
    apply transform_char_mark in Hu; [|auto]. subst u.
    apply run_underscore; [|apply IH; reflexivity].
    rewrite <- transform_char_digit. exact Hc.
Qed.

Lemma digit_run_map (body : str) :
  digit_run is_decimal body -> digit_run is_digit (map transform_char body).
Proof.
  induction 1 as [c Hc|c r Hc Hr IH|c r Hc Hr IH]; cbn [map].
  - apply run_one. rewrite transform_char_digit. exact Hc.
  - apply run_next; [|exact IH]. rewrite transform_char_digit. exact Hc.
  - change (transform_char 95) with 95.
    apply run_underscore; [|exact IH].
    rewrite transform_char_digit. exact Hc.
Qed.

Lemma forallb_space_lift (ws : str) :
  forallb ascii_isspace (map transform_char ws) = true ->
  forallb isspace ws = true.
Proof.
  induction ws as [|c r IH]; cbn [map forallb]; [reflexivity|].
  intros H. apply andb_true_iff in H as [Hc Hr].
  rewrite (transform_char_space c Hc), (IH Hr). reflexivity.
Qed.

Lemma is_sign_lift (sign : str) :
  is_sign (map transform_char sign) -> is_sign sign.
Proof.
  unfold is_sign. destruct sign as [|c [|? ?]]; cbn [map].
  - auto.
  - intros [H|[H|H]]; try discriminate; injection H as H;
      apply transform_char_mark in H; auto; subst c; auto.
  - intros [H|[H|H]]; discriminate.
Qed.

Lemma is_sign_map (sign : str) :
  is_sign sign -> map transform_char sign = sign.
Proof. intros [-> | [-> | ->]]; reflexivity. Qed.

Lemma int_of_str_sound (s : str) (z : Z) :
  int_of_str s = Ok z ->
  exists ws1 sign body ws2,
    s = ws1 ++ sign ++ body ++ ws2
    /\ forallb isspace ws1 = true
    /\ forallb isspace ws2 = true
    /\ is_sign sign
    /\ digit_run is_decimal body.
Proof.
  unfold int_of_str. intros H.
  apply int_of_ascii_sound in H
    as (ws1 & sign & body & ws2 & E & Hws1 & Hws2 & Hsign & Hbody).
  apply map_eq_app in E as (ws1' & s1 & -> & <- & E).
  apply map_eq_app in E as (sign' & s2 & -> & <- & E).
  apply map_eq_app in E as (body' & ws2' & -> & <- & <-).
  exists ws1', sign', body', ws2'. split; [reflexivity|].
  split; [apply forallb_space_lift, Hws1|].
  split; [apply forallb_space_lift, Hws2|].
  split; [apply is_sign_lift, Hsign|].
  apply (digit_run_lift _ Hbody). reflexivity.
Qed.

(** ** Stripped text *)

Lemma lstrip_split (s : str) :
  exists ws, s = ws ++ lstrip s /\ forallb isspace ws = true.
Proof.
  induction s as [|c r (ws & E & Hws)]; cbn [lstrip].
  - exists []. auto.
  - destruct (isspace c) eqn:Hc.
    + exists (c :: ws). cbn [app forallb]. rewrite Hc, Hws.
      split; [congruence | reflexivity].
    + exists []. auto.
Qed.

Lemma lstrip_first (s : str) (c : Z) (r : str) :
  lstrip s = c :: r -> isspace c = false.
Proof.
  induction s as [|x s IH]; cbn [lstrip]; [discriminate|].
  destruct (isspace x) eqn:Hx; [exact IH|]. intros [= <- _]. exact Hx.
Qed.

(** [strip] leaves no white space at either end. *)
Lemma strip_last (h : str) (c : Z) (r : str) :
  rev (strip h) = c :: r -> isspace c = false.
Proof.
  unfold strip, rstrip. rewrite rev_involutive. apply lstrip_first.
Qed.

Lemma strip_first (h : str) (c : Z) (r : str) :
  strip h = c :: r -> isspace c = false.
Proof.
  unfold strip, rstrip. intros E.
  destruct (lstrip_split (rev (lstrip h))) as (ws & Ews & _).
  apply (f_equal (@rev Z)) in Ews. rewrite rev_involutive, rev_app_distr in Ews.
  rewrite E in Ews. cbn [app] in Ews.
  apply (lstrip_first h c _ Ews).
Qed.

Lemma strip_length (h : str) : (List.length (strip h) <= List.length h)%nat.
Proof.
  assert (Hl : forall s, (List.length (lstrip s) <= List.length s)%nat).
  { intros s. destruct (lstrip_split s) as (ws & E & _).
    rewrite E at 2. rewrite length_app. lia. }
  unfold strip, rstrip. rewrite length_rev.
  etransitivity; [apply Hl|]. rewrite length_rev. apply Hl.
Qed.

(** On text without white space at its ends, [int] accepts only
    literals. *)
Lemma int_of_str_literal (s : str) (z : Z) :
  (forall c r, s = c :: r -> isspace c = false) ->
  (forall c r, rev s = c :: r -> isspace c = false) ->
  int_of_str s = Ok z -> int_literal s.
Proof.
  intros Hfirst Hlast H.
  apply int_of_str_sound in H
    as (ws1 & sign & body & ws2 & E & Hws1 & Hws2 & Hsign & Hbody).
  destruct ws1 as [|c ws1].
  2:{ cbn [forallb] in Hws1. apply andb_true_iff in Hws1 as [Hc _].
      rewrite (Hfirst c _ E) in Hc. discriminate. }
  destruct (rev ws2) as [|c r] eqn:Er.
  2:{ assert (Hc : isspace c = true).
      { rewrite forallb_forall in Hws2. apply Hws2, in_rev.
        rewrite Er. left. reflexivity. }
      rewrite E in Hlast. rewrite !rev_app_distr, Er in Hlast.
      cbn [app] in Hlast. rewrite (Hlast c _ eq_refl) in Hc. discriminate. }
  apply (f_equal (@rev Z)) in Er. rewrite rev_involutive in Er.
  cbn [rev] in Er. subst ws2. rewrite app_nil_r in E. cbn [app] in E.
  exists sign, body. auto.
Qed.

(** ** Every literal is accepted *)

Lemma digit_run_scan (b : str) :
  digit_run is_digit b ->
  forall acc nd prev,
  exists v nd',
    scan_digits b acc nd prev = Some (v, nd', [])
    /\ nd < nd' <= nd + Z.of_nat (List.length b).
Proof.
  induction 1 as [c Hc|c r Hc Hr IH|c r Hc Hr IH]; intros acc nd prev;
    cbn [scan_digits]; rewrite ascii_digit_is_digit, Hc.
  - eexists. eexists. split; [reflexivity|]. cbn [List.length]. lia.
  - destruct (IH (10 * acc + (c - 48)) (nd + 1) false) as (v & nd' & E & Hn).
    exists v, nd'. split; [exact E|]. cbn [List.length]. lia.
  - cbn [scan_digits]. change (ascii_digit 95) with (@None Z).
    change (95 =? 95) with true. cbv iota.
    destruct (IH (10 * acc + (c - 48)) (nd + 1) true) as (v & nd' & E & Hn).
    exists v, nd'. split; [exact E|]. cbn [List.length]. lia.
Qed.

Lemma is_digit_marks (c : Z) :
  is_digit c = true ->
  ascii_isspace c = false /\ (c =? 43) = false /\ (c =? 45) = false
  /\ (c =? 95) = false.
Proof.
  unfold is_digit, ascii_isspace. intros H.
  apply andb_true_iff in H as [H0 H1].
  apply Z.leb_le in H0. apply Z.leb_le in H1.
  repeat split; zdecide; reflexivity.
Qed.

Lemma int_of_ascii_complete (sign body : str) :
  is_sign sign -> digit_run is_digit body ->
  Z.of_nat (List.length body) <= int_max_str_digits ->
  exists z, int_of_ascii (sign ++ body) = Ok z.
Proof.
  intros Hsign Hbody Hlen.
  destruct (digit_run_head _ _ Hbody) as (c & r & Eb & Hc).
  destruct (is_digit_marks c Hc) as (Hsp & H43 & H45 & H95).
  destruct (digit_run_scan body Hbody 0 0 false) as (v & nd & Escan & Hnd).
  assert (Ebody : forall negative : bool,
    int_of_digits negative body = Ok (if negative then - v else v)).
  { intros negative. unfold int_of_digits. rewrite Escan.
    subst body. rewrite H95.
    replace (nd =? 0) with false by (symmetry; apply Z.eqb_neq; lia).
    replace (int_max_str_digits <? nd) with false
      by (symmetry; apply Z.ltb_ge; lia).
    reflexivity. }
  unfold int_of_ascii.
  destruct Hsign as [-> | [-> | ->]]; cbn [app].
  - assert (Es : split_sign (skip_space body) = (false, body)).
    { subst body. rewrite (skip_space_head c r Hsp).
      unfold split_sign. rewrite H43, H45. reflexivity. }
    rewrite Es. eexists. apply (Ebody false).
  - cbn [skip_space]. change (ascii_isspace 43) with false. cbv iota.
    cbn [split_sign]. change (43 =? 43) with true. cbv iota.
    eexists. apply (Ebody false).
  - cbn [skip_space]. change (ascii_isspace 45) with false. cbv iota.
    cbn [split_sign]. change (45 =? 43) with false.
    change (45 =? 45) with true. cbv iota.
    eexists. apply (Ebody true).
Qed.

Lemma digit_run_length (digit : Z -> bool) (b : str) :
  digit_run digit b -> (0 < List.length b)%nat.
Proof. intros H. destruct H; cbn [List.length]; lia. Qed.

Lemma int_of_str_complete (s : str) :
  int_literal s -> Z.of_nat (List.length s) <= int_max_str_digits ->
  exists z, int_of_str s = Ok z.
Proof.
  intros (sign & body & Hsign & Hbody & ->) Hlen. unfold int_of_str.
  rewrite map_app, (is_sign_map sign Hsign).
  apply int_of_ascii_complete; [exact Hsign | apply digit_run_map, Hbody |].
  rewrite length_map. rewrite length_app in Hlen. lia.
Qed.

End IntFacts.

(* ================================================================== *)
(** * The packet codec *)
(* ================================================================== *)

Module CodecFacts.
Import Py Text PyFacts IntFacts QUIC_API Codec.

Lemma header_text_spec (n : Z) :
  0 <= n <= 99999999 ->
  forallb is_digit (header_text n) = true
  /\ List.length (header_text n) = 8%nat
  /\ value_of (header_text n) 0 = n.
Proof.
  intros Hn. unfold header_text.
  destruct (decimal_spec n (proj1 Hn)) as (Hd & Hne & Hv & Hlen).
  assert (H8 : (List.length (decimal n) <= 8)%nat).
  { apply Hlen; [lia|]. change (10 ^ Z.of_nat 8) with 100000000. lia. }
  repeat split.
  - apply forallb_app_true; [apply forallb_repeat; reflexivity | exact Hd].
  - rewrite length_app, repeat_length. lia.
  - rewrite value_of_app, value_of_zeros. exact Hv.
Qed.

Lemma seq_below_limit (n : Z) :
  0 <= n <= 99999999 -> 0 <= n < 10 ^ int_max_str_digits.
Proof.
  intros Hn. split; [lia|].
  apply Z.lt_le_trans with (10 ^ 8); [change (10 ^ 8) with 100000000; lia|].
  apply pow10_le_limit. unfold int_max_str_digits. lia.
Qed.

Lemma header_length (n : Z) :
  0 <= n <= 99999999 -> List.length (header n) = 8%nat.
Proof.
  intros Hn. unfold header. rewrite length_map.
  apply (header_text_spec n Hn).
Qed.

(** [create_packet] with a sequence number in range: the eight digit
    header, then the payload's text in UTF-8. *)
Lemma create_packet_header (n : Z) (data : value) :
  0 <= n <= 99999999 ->
  create_packet n data =
  bind (to_str data) (fun data_str =>
  bind (encode data_str) (fun data_encoded =>
  Ok (header n ++ data_encoded))).
Proof.
  intros Hn. unfold create_packet.
  rewrite (str_of_int_nonneg n (seq_below_limit n Hn)). cbn [bind].
  destruct (decimal_spec n (proj1 Hn)) as (Hd & _).
  rewrite (zfill_digits 8 _ Hd). fold (header_text n).
  destruct (header_text_spec n Hn) as (Hh & _).
  unfold encode at 1.
  rewrite (utf8_encode_ascii (header_text n))
    by (revert Hh; apply forallb_impl, is_digit_ascii).
  reflexivity.
Qed.

Lemma firstn_exact {A : Type} (l r : list A) (k : nat) :
  List.length l = k -> firstn k (l ++ r) = l.
Proof.
  intros <-. rewrite firstn_app, firstn_all, Nat.sub_diag, firstn_O.
  apply app_nil_r.
Qed.

Lemma skipn_exact {A : Type} (l r : list A) (k : nat) :
  List.length l = k -> skipn k (l ++ r) = r.
Proof.
  intros <-. rewrite skipn_app, skipn_all, Nat.sub_diag. reflexivity.
Qed.

(** [parse_packet] on such a header followed by any payload bytes. *)
Lemma parse_packet_header (n : Z) (payload : bytes) :
  0 <= n <= 99999999 ->
  parse_packet (header n ++ payload) =
  Ok (n, match utf8_decode payload with
         | Some text => VStr text
         | None => VBytes payload
         end).
Proof.
  intros Hn. unfold parse_packet, header_size.
  rewrite (firstn_exact _ _ _ (header_length n Hn)).
  rewrite (skipn_exact _ _ _ (header_length n Hn)).
  destruct (header_text_spec n Hn) as (Hh & Hl & Hv).
  unfold decode at 1. unfold header.
  rewrite (utf8_decode_ascii (header_text n))
    by (revert Hh; apply forallb_impl, is_digit_ascii).
  cbn [bind]. rewrite (strip_digits _ Hh).
  rewrite int_of_str_digits, Hv; cbn [bind].
  - unfold decode. destruct (utf8_decode payload); reflexivity.
  - exact Hh.
  - intros E. rewrite E in Hl. discriminate.
  - rewrite Hl. unfold int_max_str_digits. lia.
Qed.

(** C1, as amended: for every sequence number [n] in [0, 99999999] and
    every text payload [p] made of Unicode scalar values,
    [create_packet n p] returns a packet and [parse_packet] of that packet
    returns exactly [(n, p)]. *)
Theorem parse_create_packet_text (n : Z) (p : str) :
  0 <= n <= 99999999 ->
  forallb is_scalar p = true ->
  exists packet,
    create_packet n (VStr p) = Ok packet
    /\ parse_packet packet = Ok (n, VStr p).
Proof.
  intros Hn Hp. destruct (utf8_encode_scalars p Hp) as [b Eb].
  exists (header n ++ b). split.
  - rewrite (create_packet_header n _ Hn). cbn [to_str bind].
    unfold encode. rewrite Eb. reflexivity.
  - rewrite (parse_packet_header n b Hn), (utf8_decode_encode p b Eb).
    reflexivity.
Qed.

Lemma parse_create_packet_text_witness :
  exists packet,
    create_packet 42 (VStr (lit "data_chunk")) = Ok packet
    /\ parse_packet packet = Ok (42, VStr (lit "data_chunk")).
Proof.
  apply (parse_create_packet_text 42 (lit "data_chunk")).
  - lia.
  - reflexivity.
Defined.

(** C1 fails for byte payloads: [create_packet] sends [str(data)], so the
    bytes [b'abc'] travel as the text of their [repr] and come back as the
    string ["b'abc'"], which is not the payload that was given. *)
Lemma parse_create_packet_bytes_counterexample :
  bind (create_packet 1 (VBytes (blit "abc"))) parse_packet
  = Ok (1, VStr (lit "b'abc'"))
  /\ Ok (1, VStr (lit "b'abc'")) <> Ok (1, VBytes (blit "abc")).
Proof.
  split; [vm_compute; reflexivity | discriminate].
Qed.




(** [create_packet] returns whenever the sequence number has at most 4300
    digits and the payload is text that UTF-8 can encode. *)
Lemma create_packet_returns (n : Z) (p : str) (payload : bytes) :
  Z.abs n < 10 ^ int_max_str_digits ->
  utf8_encode p = Some payload ->
  exists head, create_packet n (VStr p) = Ok (head ++ payload).
Proof.
  intros Hn Hp. unfold create_packet.
  destruct (str_of_int_ascii n Hn) as (s & -> & Hs). cbn [bind].
  unfold encode. rewrite (utf8_encode_ascii _ (is_ascii_zfill 8 s Hs)).
  cbn [bind to_str]. rewrite Hp. eexists. reflexivity.
Qed.

(** The sequence number [parse_packet] returns can always be sent back in
    an acknowledgment. *)
Lemma parse_packet_number_bound (packet : bytes) (n : Z) (d : value) :
  parse_packet packet = Ok (n, d) -> Z.abs n < 10 ^ int_max_str_digits.
Proof.
  unfold parse_packet.
  destruct (decode (firstn header_size packet)) as [h|]; [|discriminate].
  cbn [bind].
  destruct (int_of_str (strip h)) as [k|] eqn:Ek; [|discriminate].
  cbn [bind]. intros E.
  assert (k = n) as <-.
  { destruct (decode (skipn header_size packet)); congruence. }
  exact (int_of_ascii_bound _ _ Ek).
Qed.

Lemma create_ack_returns (packet : bytes) (n : Z) (d : value) :
  parse_packet packet = Ok (n, d) -> exists ack, create_ack n = Ok ack.
Proof.
  intros H. apply parse_packet_number_bound in H.
  destruct (create_packet_returns n [] [] H eq_refl) as [head E].
  exists (head ++ []). exact E.
Qed.

(** The payload [parse_packet] returns is a [str] or a [bytes]. *)
Lemma parse_packet_payload (packet : bytes) (n : Z) (d : value) :
  parse_packet packet = Ok (n, d) -> exists m, len d = Ok m /\ 0 <= m.
Proof.
  unfold parse_packet.
  destruct (decode (firstn header_size packet)) as [h|]; [|discriminate].
  cbn [bind]. destruct (int_of_str (strip h)); [|discriminate]. cbn [bind].
  destruct (decode (skipn header_size packet)); intros [= _ <-];
    cbn [len]; eexists; (split; [reflexivity | lia]).
Qed.

(** ** Malformed headers *)

Ltac split_if :=
  match goal with
  | |- (if ?c then _ else _) = _ -> _ => destruct c
  end.

(** Decoding never yields more code points than there are bytes. *)
Lemma utf8_decode_length_below (n : nat) :
  forall b s, (List.length b <= n)%nat -> utf8_decode b = Some s ->
  (List.length s <= List.length b)%nat.
Proof.
  induction n as [|n IH]; intros b s Hn.
  - destruct b; [|cbn in Hn; lia]. intros E. apply Some_inj in E. subst s.
    cbn. lia.
  - destruct b as [|b0 r0].
    { intros E. apply Some_inj in E. subst s. cbn. lia. }
    cbn [List.length] in Hn.
    assert (Hstep : forall c r, (List.length r <= n)%nat ->
              option_map (cons c) (utf8_decode r) = Some s ->
              (List.length s <= S (List.length r))%nat).
    { intros c r Hr E. destruct (utf8_decode r) as [s'|] eqn:Er;
        [|discriminate].
      apply Some_inj in E. subst s. cbn [List.length].
      apply IH in Er; lia. }
    rewrite utf8_decode_cons. cbv zeta. split_if.
    { intros E. apply Hstep in E; cbn [List.length]; lia. }
    split_if.
    { destruct r0 as [|b1 r1]; [discriminate|]. split_if; [|discriminate].
      intros E. cbn [List.length] in *. apply Hstep in E; lia. }
    split_if.
    { destruct r0 as [|b1 [|b2 r2]]; try discriminate.
      split_if; [|discriminate].
      intros E. cbn [List.length] in *. apply Hstep in E; lia. }
    split_if; [|discriminate].
    destruct r0 as [|b1 [|b2 [|b3 r3]]]; try discriminate.
    split_if; [|discriminate].
    intros E. cbn [List.length] in *. apply Hstep in E; lia.
Qed.

Lemma utf8_decode_length (b : bytes) (s : str) :
  utf8_decode b = Some s -> (List.length s <= List.length b)%nat.
Proof. apply (utf8_decode_length_below (List.length b)). lia. Qed.

(** [int] raises nothing but [ValueError]. *)
Lemma int_of_str_raises (s : str) (e : exn) :
  int_of_str s = Raise e -> e = ValueError.
Proof.
  unfold int_of_str, int_of_ascii.
  destruct (split_sign (skip_space (map transform_char s)))
    as [negative s2].
  unfold int_of_digits.
  destruct s2 as [|c r]; [congruence|].
  destruct (c =? 95); [congruence|].
  destruct (scan_digits (c :: r) 0 0 false) as [[[v nd] rest]|];
    [|congruence].
  destruct (nd =? 0); [congruence|].
  destruct (int_max_str_digits <? nd); [congruence|].
  destruct (skip_space rest); [discriminate | congruence].
Qed.

(** [parse_packet] raises nothing but these two. *)
Lemma parse_packet_raises_kind (packet : bytes) (e : exn) :
  parse_packet packet = Raise e -> e = ValueError \/ e = UnicodeDecodeError.
Proof.
  unfold parse_packet, decode.
  destruct (utf8_decode (firstn header_size packet)) as [h|]; cbn [bind].
  - destruct (int_of_str (strip h)) as [z|e'] eqn:E; cbn [bind].
    + destruct (utf8_decode (skipn header_size packet)); discriminate.
    + intros [= <-]. left. exact (int_of_str_raises _ _ E).
  - intros [= <-]. right. reflexivity.
Qed.

(** [parse_packet] raises on every malformed header. *)
Lemma parse_packet_raises (packet : bytes) :
  header_malformed packet ->
  parse_packet packet = Raise ValueError
  \/ parse_packet packet = Raise UnicodeDecodeError.
Proof.
  unfold header_malformed, parse_packet, decode.
  destruct (utf8_decode (firstn header_size packet)) as [h|];
    [|right; reflexivity].
  intros Hbad. left. cbn [bind].
  destruct (int_of_str (strip h)) as [z|e] eqn:E.
  - exfalso. apply Hbad.
    apply (int_of_str_literal (strip h) z);
      [apply strip_first | apply strip_last | exact E].
  - cbn [bind]. rewrite (int_of_str_raises _ _ E). reflexivity.
Qed.

(** And it returns on every other header. *)
Lemma parse_packet_accepts (packet : bytes) :
  header_well_formed packet -> exists n d, parse_packet packet = Ok (n, d).
Proof.
  intros (h & Eh & Hlit). unfold parse_packet, decode at 1.
  rewrite Eh. cbn [bind].
  assert (Hlen : Z.of_nat (List.length (strip h)) <= int_max_str_digits).
  { pose proof (strip_length h). apply utf8_decode_length in Eh.
    pose proof (firstn_le_length header_size packet).
    unfold header_size, int_max_str_digits in *. lia. }
  destruct (int_of_str_complete (strip h) Hlit Hlen) as [z ->].
  cbn [bind]. destruct (decode (skipn header_size packet)); eauto.
Qed.

(** C4, as amended: [parse_packet] fails, with a [ValueError] raised to
    the caller ([UnicodeDecodeError], one of its subclasses, when the
    bytes are not UTF-8), on every packet whose first eight bytes are not,
    after trimming white space, a decimal integer literal with an optional
    sign. A negative literal is such a literal: the header [b"-0000001"]
    is accepted and read as the sequence number -1. *)
Theorem parse_packet_malformed_header (packet : bytes) :
  header_malformed packet ->
  (parse_packet packet = Raise ValueError
   \/ parse_packet packet = Raise UnicodeDecodeError)
  /\ header_well_formed (blit "-0000001")
  /\ parse_packet (blit "-0000001") = Ok (-1, VStr []).
Proof.
  intros H. split; [apply parse_packet_raises, H|].
  split; [|vm_compute; reflexivity].
  exists (lit "-0000001"). split; [vm_compute; reflexivity|].
  change (strip (lit "-0000001")) with ([45] ++ lit "0000001").
  exists [45], (lit "0000001"). split; [right; right; reflexivity|].
  split; [|reflexivity].
  change (lit "0000001") with [48; 48; 48; 48; 48; 48; 49].
  do 6 (apply run_next; [reflexivity|]). apply run_one. reflexivity.
Qed.

Lemma invalid_header_malformed : header_malformed (blit "invalid_packet").
Proof.
  unfold header_malformed.
  replace (utf8_decode (firstn header_size (blit "invalid_packet")))
    with (Some (lit "invalid_")) by (vm_compute; reflexivity).
  intros H. apply int_of_str_complete in H as [z Hz].
  - vm_compute in Hz. discriminate Hz.
  - vm_compute. discriminate.
Qed.

Lemma parse_packet_malformed_header_witness :
  (parse_packet (blit "invalid_packet") = Raise ValueError
   \/ parse_packet (blit "invalid_packet") = Raise UnicodeDecodeError)
  /\ header_well_formed (blit "-0000001")
  /\ parse_packet (blit "-0000001") = Ok (-1, VStr []).
Proof.
  apply (parse_packet_malformed_header (blit "invalid_packet")).
  exact invalid_header_malformed.
Defined.

(** C4 fails on the header it names: [parse_packet] does not fail on
    [b"-0000001"], it returns the sequence number -1. *)
Lemma parse_packet_negative_counterexample :
  parse_packet (blit "-0000001") = Ok (-1, VStr []).
Proof. vm_compute. reflexivity. Qed.

End CodecFacts.

(* ================================================================== *)
(** * The channel sender *)
(* ================================================================== *)

Module StreamOutFacts.
Import Py QUIC_API CodecFacts Net StreamOut Sender.

Lemma send_packet_packet_num (data : str) (s s1 : t) :
  send_packet data s = Fine s1 -> packet_num s1 = packet_num s.
Proof.
  unfold send_packet, sendto.
  destruct (create_packet (packet_num s) (VStr data)); [|discriminate].
  destruct (client_address s); [|discriminate].
  intros [= <-]. reflexivity.
Qed.

Section StopAndWait.

Variable packet_data : str.
Variable k : Z.
Variable packet : bytes.
Hypothesis Hpacket : create_packet k (VStr packet_data) = Ok packet.

(** A receive timeout: the chunk is sent again, unchanged, to the current
    client address, and the sender goes on waiting at sequence [k]. *)
Lemma wait_timeout (rest : script) (s : t) (a : address) :
  packet_num s = k -> client_address s = Some a ->
  exists s1,
    wait_for_ack_with_retry packet_data (Raises socket_timeout :: rest) s
    = wait_for_ack_with_retry packet_data rest s1
    /\ sent s1 = sent s ++ [(packet, a)]
    /\ packet_num s1 = k
    /\ client_address s1 = Some a
    /\ log_file s1 = log_file s ++
         [LogTimedOut k;
          LogSentPacket k (Z.of_nat (List.length packet_data)) (Some a)].
Proof.
  intros Hk Ha. destruct s as [h p i ds ca pn snt tmo lg cl].
  cbn [packet_num client_address] in Hk, Ha. subst pn ca.
  cbn [wait_for_ack_with_retry exn_eqb]. unfold send_packet, sendto.
  cbn [packet_num client_address settimeout log host port index data_size
       sent timeout log_file closed].
  rewrite Hpacket. eexists. split; [reflexivity|].
  cbn [sent packet_num client_address log_file log].
  rewrite <- app_assoc. repeat split; reflexivity.
Qed.

(** An acknowledgment of another sequence number: it is logged, nothing
    is sent, and the sender goes on waiting at sequence [k]. *)
Lemma wait_other_ack (ack : bytes) (source : address) (n : Z) (d : value)
    (rest : script) (s : t) :
  packet_num s = k -> parse_packet ack = Ok (n, d) -> n <> k ->
  exists s1,
    wait_for_ack_with_retry packet_data (Datagram ack source :: rest) s
    = wait_for_ack_with_retry packet_data rest s1
    /\ sent s1 = sent s
    /\ packet_num s1 = k
    /\ client_address s1 = Some source
    /\ log_file s1 = log_file s ++ [LogUnexpectedAck k n].
Proof.
  intros Hk Hparse Hn. destruct s as [h p i ds ca pn snt tmo lg cl].
  cbn [packet_num] in Hk. subst pn.
  cbn [wait_for_ack_with_retry]. rewrite Hparse.
  cbn [packet_num set_client_address settimeout].
  replace (n =? k) with false by (symmetry; apply Z.eqb_neq; exact Hn).
  eexists. split; [reflexivity|]. repeat split; reflexivity.
Qed.

(** The acknowledgment of [k]: the counter advances and the call
    returns. *)
Lemma wait_matching_ack (ack : bytes) (source : address) (d : value)
    (rest : script) (s : t) :
  packet_num s = k -> parse_packet ack = Ok (k, d) ->
  exists s1,
    wait_for_ack_with_retry packet_data (Datagram ack source :: rest) s
    = Returned tt s1 rest
    /\ sent s1 = sent s
    /\ packet_num s1 = k + 1
    /\ log_file s1 = log_file s ++ [LogReceivedAck k].
Proof.
  intros Hk Hparse. destruct s as [h p i ds ca pn snt tmo lg cl].
  cbn [packet_num] in Hk. subst pn.
  cbn [wait_for_ack_with_retry]. rewrite Hparse.
  cbn [packet_num set_client_address settimeout]. rewrite Z.eqb_refl.
  eexists. split; [reflexivity|]. repeat split; reflexivity.
Qed.

(** As long as no acknowledgment of [k] arrives the call does not return:
    it has resent the same packet once per timeout and nothing else. *)
Lemma wait_blocks (evs : script) :
  waiting k evs = true ->
  forall (s : t) (a : address),
  packet_num s = k -> client_address s = Some a ->
  exists s1,
    wait_for_ack_with_retry packet_data evs s = Blocked s1
    /\ packet_num s1 = k
    /\ map fst (sent s1) = map fst (sent s) ++ repeat packet (timeouts evs).
Proof.
  induction evs as [|ev evs IH]; intros Hw s a Hk Ha.
  - exists (settimeout 1 s). cbn [wait_for_ack_with_retry]. repeat split.
    + exact Hk.
    + cbn [timeouts filter List.length repeat]. rewrite app_nil_r.
      reflexivity.
  - unfold waiting in Hw. cbn [forallb] in Hw.
    apply andb_true_iff in Hw as [Hev Hw]. fold (waiting k evs) in Hw.
    destruct ev as [ack source|e].
    + cbn [is_timeout is_other_ack orb] in Hev.
      destruct (parse_packet ack) as [[n d]|] eqn:Hparse; [|discriminate].
      apply negb_true_iff, Z.eqb_neq in Hev.
      destruct (wait_other_ack ack source n d evs s Hk Hparse Hev)
        as (s1 & E & Hs & Hk1 & Ha1 & _).
      destruct (IH Hw s1 source Hk1 Ha1) as (s2 & E2 & Hk2 & Hs2).
      exists s2. rewrite E, E2. repeat split; [exact Hk2|].
      rewrite Hs2, Hs. reflexivity.
    + cbn [is_timeout is_other_ack] in Hev. rewrite orb_false_r in Hev.
      destruct e; try discriminate.
      destruct (wait_timeout evs s a Hk Ha) as (s1 & E & Hs & Hk1 & Ha1 & _).
      destruct (IH Hw s1 a Hk1 Ha1) as (s2 & E2 & Hk2 & Hs2).
      exists s2. rewrite E, E2. repeat split; [exact Hk2|].
      rewrite Hs2, Hs, map_app, <- app_assoc.
      unfold timeouts. cbn [filter is_timeout exn_eqb List.length map fst].
      reflexivity.
Qed.

(** The call returns only once an acknowledgment of [k] has been
    received, and then the counter is [k + 1]. *)
Lemma wait_returns_only_on_ack (evs : script) :
  forall (s s1 : t) (rest : script),
  packet_num s = k ->
  wait_for_ack_with_retry packet_data evs s = Returned tt s1 rest ->
  packet_num s1 = k + 1
  /\ exists before ack source d,
       evs = before ++ Datagram ack source :: rest
       /\ parse_packet ack = Ok (k, d)
       /\ waiting k before = true.
Proof.
  induction evs as [|ev evs IH]; intros s s1 rest Hk.
  - cbn [wait_for_ack_with_retry]. discriminate.
  - destruct ev as [ack source|e]; cbn [wait_for_ack_with_retry].
    + destruct (parse_packet ack) as [[n d]|e] eqn:Hparse.
      2:{ apply parse_packet_raises_kind in Hparse.
          destruct Hparse as [-> | ->]; cbn [exn_eqb]; discriminate. }
      cbn [packet_num set_client_address settimeout]. rewrite Hk.
      destruct (Z.eqb_spec n k) as [-> | Hn].
      * intros [= <- <-]. split; [cbn; lia|].
        exists [], ack, source, d. repeat split. exact Hparse.
      * intros E. apply IH in E; [|cbn; exact Hk].
        destruct E as (Hk1 & before & ack' & src' & d' & -> & Hp & Hw).
        split; [exact Hk1|].
        exists (Datagram ack source :: before), ack', src', d'.
        repeat split; [exact Hp|].
        unfold waiting. cbn [forallb is_timeout is_other_ack orb].
        rewrite Hparse. replace (n =? k) with false
          by (symmetry; apply Z.eqb_neq; exact Hn).
        exact Hw.
    + destruct (exn_eqb e socket_timeout) eqn:He; [|discriminate].
      destruct (send_packet packet_data
                  (log (LogTimedOut (packet_num (settimeout 1 s)))
                       (settimeout 1 s))) as [s2|e2 s2] eqn:Hsend;
        [|discriminate].
      apply send_packet_packet_num in Hsend. cbn in Hsend.
      intros E. apply IH in E; [|congruence].
      destruct E as (Hk1 & before & ack' & src' & d' & -> & Hp & Hw).
      split; [exact Hk1|].
      exists (Raises e :: before), ack', src', d'.
      repeat split; [exact Hp|].
      unfold waiting. cbn [forallb is_timeout orb]. rewrite He. exact Hw.
Qed.

(** Timeouts and other acknowledgments, then the acknowledgment of [k]:
    the call returns with the counter advanced, having resent the same
    packet once per timeout. *)
Lemma wait_until_ack (evs : script) :
  waiting k evs = true ->
  forall (s : t) (a : address) (ack : bytes) (source : address) (d : value)
         (rest : script),
  packet_num s = k -> client_address s = Some a ->
  parse_packet ack = Ok (k, d) ->
  exists s1,
    wait_for_ack_with_retry packet_data (evs ++ Datagram ack source :: rest) s
    = Returned tt s1 rest
    /\ packet_num s1 = k + 1
    /\ map fst (sent s1) = map fst (sent s) ++ repeat packet (timeouts evs).
Proof.
  induction evs as [|ev evs IH]; intros Hw s a ack source d rest Hk Ha Hack.
  - destruct (wait_matching_ack ack source d rest s Hk Hack)
      as (s1 & E & Hs & Hk1 & _).
    exists s1. cbn [app]. rewrite E. repeat split; [exact Hk1|].
    rewrite Hs. cbn [timeouts filter List.length repeat].
    rewrite app_nil_r. reflexivity.
  - unfold waiting in Hw. cbn [forallb] in Hw.
    apply andb_true_iff in Hw as [Hev Hw]. fold (waiting k evs) in Hw.
    rewrite <- app_comm_cons.
    destruct ev as [ack0 source0|e].
    + cbn [is_timeout is_other_ack orb] in Hev.
      destruct (parse_packet ack0) as [[n d0]|] eqn:Hparse; [|discriminate].
      apply negb_true_iff, Z.eqb_neq in Hev.
      destruct (wait_other_ack ack0 source0 n d0
                  (evs ++ Datagram ack source :: rest) s Hk Hparse Hev)
        as (s1 & E & Hs & Hk1 & Ha1 & _).
      destruct (IH Hw s1 source0 ack source d rest Hk1 Ha1 Hack)
        as (s2 & E2 & Hk2 & Hs2).
      exists s2. rewrite E, E2. repeat split; [exact Hk2|].
      rewrite Hs2, Hs. reflexivity.
    + cbn [is_timeout is_other_ack] in Hev. rewrite orb_false_r in Hev.
      destruct e; try discriminate.
      destruct (wait_timeout (evs ++ Datagram ack source :: rest) s a Hk Ha)
        as (s1 & E & Hs & Hk1 & Ha1 & _).
      destruct (IH Hw s1 a ack source d rest Hk1 Ha1 Hack)
        as (s2 & E2 & Hk2 & Hs2).
      exists s2. rewrite E, E2. repeat split; [exact Hk2|].
      rewrite Hs2, Hs, map_app, <- app_assoc.
      unfold timeouts. cbn [filter is_timeout exn_eqb List.length map fst].
      reflexivity.
Qed.

End StopAndWait.

(** C3: stop-and-wait retransmission. With a chunk in flight at sequence
    [k], [wait_for_ack_with_retry] does not return and keeps the counter at
    [k] while no acknowledgment of [k] has been received; every receive
    timeout resends the byte-identical packet; an acknowledgment of another
    number is logged and nothing is sent; only the acknowledgment of [k]
    makes it add one to the counter and return. *)
Theorem stop_and_wait_retransmission (packet_data : str) (k : Z)
    (packet : bytes) (s : t) (a : address) :
  create_packet k (VStr packet_data) = Ok packet ->
  packet_num s = k ->
  client_address s = Some a ->
  stop_and_wait packet_data k packet s a.
Proof.
  intros Hpacket Hk Ha. unfold stop_and_wait. repeat apply conj.
  - intros evs Hw. exact (wait_blocks packet_data k packet Hpacket evs Hw s a Hk Ha).
  - intros rest.
    destruct (wait_timeout packet_data k packet Hpacket rest s a Hk Ha)
      as (s1 & E & Hs & Hk1 & _).
    exists s1. auto.
  - intros ack source n d rest Hparse Hn.
    destruct (wait_other_ack packet_data k ack source n d rest s Hk Hparse Hn)
      as (s1 & E & Hs & Hk1 & _ & Hl).
    exists s1. auto.
  - intros evs ack source d rest Hw Hack.
    exact (wait_until_ack packet_data k packet Hpacket evs Hw s a ack source
             d rest Hk Ha Hack).
  - intros evs s1 rest E.
    exact (wait_returns_only_on_ack packet_data k evs s s1 rest Hk E).
Qed.

Lemma stop_and_wait_retransmission_witness :
  stop_and_wait (lit "test data") 0 (blit "00000000test data") test_sender
                (localhost, 5000).
Proof.
  apply (stop_and_wait_retransmission (lit "test data") 0
           (blit "00000000test data") test_sender (localhost, 5000)).
  - vm_compute. reflexivity.
  - reflexivity.
  - reflexivity.
Defined.

(** ** Sending the file *)

Lemma file_read_shorter (size : Z) (content packet_data remaining : str) :
  file_read size content = (packet_data, remaining) ->
  packet_data <> [] ->
  (List.length remaining < List.length content)%nat.
Proof.
  unfold file_read. destruct (size <? 0).
  - intros [= <- <-] Hne. destruct content; [congruence | cbn; lia].
  - intros [= <- <-] Hne. rewrite length_skipn.
    destruct (Z.to_nat size); [cbn in Hne; congruence|].
    destruct content; [cbn in Hne; congruence | cbn; lia].
Qed.

(** The loop of [send_data_from_file] does not depend on its fuel, as
    long as there is more of it than characters in the file. *)
Lemma send_chunks_fuel (fuel1 : nat) :
  forall (fuel2 : nat) (content : str) (inbox : script) (s : t),
  (List.length content < fuel1)%nat -> (List.length content < fuel2)%nat ->
  send_chunks fuel1 content inbox s = send_chunks fuel2 content inbox s.
Proof.
  induction fuel1 as [|fuel1 IH]; intros fuel2 content inbox s H1 H2; [lia|].
  destruct fuel2 as [|fuel2]; [lia|]. cbn [send_chunks].
  destruct (file_read (data_size s) content) as [packet_data remaining] eqn:E.
  destruct packet_data as [|c r]; [reflexivity|].
  apply file_read_shorter in E; [|discriminate].
  destruct (send_packet (c :: r) s) as [s1|e s1]; [|reflexivity].
  destruct (wait_for_ack_with_retry (c :: r) inbox s1) as [u s2 rest| |];
    try reflexivity.
  apply IH; lia.
Qed.

(** ** The channel handshake *)

(** C10, as amended: [wait_for_client_syn] takes the source of the first
    datagram as the client's address, whatever the datagram is. When its
    first eight bytes parse as a packet number, the payload only decides
    whether a line is logged: no error is raised, whether or not the payload
    is "Syn", and [start] goes on to send the stream size to that address.
    When they do not, [parse_packet] raises [ValueError] (or its subclass
    [UnicodeDecodeError]) inside [wait_for_client_syn], after the address
    was stored; [start] logs the error, closes, and has sent nothing.
    [size_packet] is the packet [send_stream_size] builds and [file] the
    stream's file. *)
Theorem wait_for_client_syn_any_payload (packet : bytes) (source : address)
    (size_packet : bytes) (file : option str) (rest : script) (s : t) :
  create_packet (packet_num s) (VInt (data_size s)) = Ok size_packet ->
  match parse_packet packet with
  | Ok (_, data) =>
      let s1 :=
        if eq_str data (lit "Syn")
        then log (LogOpenConnection source) (set_client_address source s)
        else set_client_address source s in
      wait_for_client_syn (Datagram packet source :: rest) s
      = Returned tt s1 rest
      /\ client_address s1 = Some source
      /\ (exists s2,
            send_stream_size s1 = Fine s2
            /\ sent s2 = sent s ++ [(size_packet, source)])
      /\ (exists s3,
            start file [Datagram packet source] s = Blocked s3
            /\ sent s3 = sent s ++ [(size_packet, source)]
            /\ client_address s3 = Some source
            /\ closed s3 = closed s)
  | Raise e =>
      (e = ValueError \/ e = UnicodeDecodeError)
      /\ wait_for_client_syn (Datagram packet source :: rest) s
         = Raised e (set_client_address source s) rest
      /\ (exists s3,
            start file (Datagram packet source :: rest) s
            = Returned tt s3 rest
            /\ sent s3 = sent s
            /\ client_address s3 = Some source
            /\ closed s3 = true
            /\ In (LogStreamError (port s) e) (log_file s3))
  end.
Proof.
  intros Hsize.
  destruct (parse_packet packet) as [[n data]|e] eqn:Hparse.
  - intros s1. destruct s as [h p i ds ca pn snt tmo lg cl].
    cbn [packet_num data_size] in Hsize.
    unfold start. cbn [wait_for_client_syn host port log]. rewrite Hparse.
    subst s1. destruct (eq_str data (lit "Syn"));
      unfold send_stream_size, sendto;
      cbn [log set_client_address packet_num data_size client_address host
           port index sent timeout log_file closed];
      rewrite Hsize;
      (split; [reflexivity|]); (split; [reflexivity|]);
      (split; [eexists; split; reflexivity|]);
      cbn [wait_for_ack]; eexists; repeat split; reflexivity.
  - split; [exact (parse_packet_raises_kind packet e Hparse)|].
    destruct s as [h p i ds ca pn snt tmo lg cl].
    unfold start. cbn [wait_for_client_syn host port log]. rewrite Hparse.
    split; [reflexivity|].
    eexists. split; [reflexivity|].
    cbn [fail close_resources log set_client_address packet_num data_size
         client_address host port index sent timeout log_file closed].
    repeat split. rewrite in_app_iff. right. left. reflexivity.
Qed.

Lemma wait_for_client_syn_any_payload_witness :
  let s1 := set_client_address (localhost, 5000) (init localhost 9000 2048 1) in
  wait_for_client_syn [Datagram (blit "00000000hello") (localhost, 5000)]
    (init localhost 9000 2048 1)
  = Returned tt s1 []
  /\ client_address s1 = Some (localhost, 5000)
  /\ (exists s2,
        send_stream_size s1 = Fine s2
        /\ sent s2 = [(blit "000000002040", (localhost, 5000))])
  /\ (exists s3,
        start None [Datagram (blit "00000000hello") (localhost, 5000)]
          (init localhost 9000 2048 1) = Blocked s3
        /\ sent s3 = [(blit "000000002040", (localhost, 5000))]
        /\ client_address s3 = Some (localhost, 5000)
        /\ closed s3 = false).
Proof.
  pose proof (wait_for_client_syn_any_payload (blit "00000000hello")
                (localhost, 5000) (blit "000000002040") None []
                (init localhost 9000 2048 1)) as W.
  change (parse_packet (blit "00000000hello"))
    with (@Ok (Z * value) (0, VStr (lit "hello"))) in W.
  apply W. vm_compute. reflexivity.
Defined.

(** C10 fails on a first datagram that is no packet: on the bare text
    [b"Syn"], whose first eight bytes are no number, [wait_for_client_syn]
    raises [ValueError], and [start] returns with its resources closed and
    nothing sent. *)
Lemma wait_for_client_syn_bare_syn_counterexample :
  wait_for_client_syn [Datagram (blit "Syn") (localhost, 5000)]
    (init localhost 9000 2048 1)
  = Raised ValueError
      (set_client_address (localhost, 5000) (init localhost 9000 2048 1)) []
  /\ exists s3,
       start None [Datagram (blit "Syn") (localhost, 5000)]
         (init localhost 9000 2048 1)
       = Returned tt s3 []
       /\ sent s3 = []
       /\ closed s3 = true.
Proof.
  split; [vm_compute; reflexivity|].
  eexists. split; [vm_compute; reflexivity|]. split; reflexivity.
Qed.

End StreamOutFacts.

(* ================================================================== *)
(** * The channel receiver *)
(* ================================================================== *)

Module StreamInFacts.
Import Py Text PyFacts QUIC_API Codec CodecFacts Net StreamIn Receiver.

Section Receiver.

Variable clock : nat -> float.
Variable A : Type.
Variable add_stream_data : float -> Z -> Z -> A -> A.





(** ** Statistics *)

Lemma handle_received_data_keeps (n : Z) (d : value) (s : t) (a : A) :
  match handle_received_data clock A add_stream_data n d (s, a) with
  | Fine (s1, _) => same_channel s s1
  | Fail _ (s1, _) => same_channel s s1
  end.
Proof.
  unfold handle_received_data, same_channel.
  destruct (len d); [|cbn; auto].
  unfold send_ack. destruct (create_ack n); cbn; auto.
Qed.

(** Receiving changes neither the declared size nor the stream's index
    nor its start time. *)
Lemma receive_data_keeps (inbox : script) :
  forall (s : t) (a : A),
  same_channel s
    (fst (state_of (receive_data clock A add_stream_data inbox (s, a)))).
Proof.
  induction inbox as [|ev inbox IH]; intros s a; cbn [receive_data].
  - cbn. unfold same_channel. auto.
  - assert (Hexcept : forall e s1 a1, same_channel s s1 ->
      same_channel s
        (fst (state_of
                (if exn_eqb e socket_timeout
                 then receive_data clock A add_stream_data inbox
                        (log1 A LogTimeout (s1, a1))
                 else Returned tt (log1 A (LogReceiveError e) (s1, a1))
                        inbox)))).
    { intros e s1 a1 (H1 & H2 & H3).
      destruct (exn_eqb e socket_timeout).
      - destruct (IH (log LogTimeout s1) a1) as (K1 & K2 & K3).
        unfold log1. cbn [fst snd]. unfold same_channel.
        rewrite K1, K2, K3. cbn. auto.
      - cbn. unfold same_channel. auto. }
    assert (Hs : same_channel s s) by (unfold same_channel; auto).
    destruct ev as [packet src|e]; [|apply Hexcept, Hs].
    destruct (parse_packet packet) as [[n d]|e]; [|apply Hexcept, Hs].
    destruct (eq_str d (lit "EOF")); [cbn; exact Hs|].
    pose proof (handle_received_data_keeps n d s a) as Hh.
    destruct (handle_received_data clock A add_stream_data n d (s, a))
      as [[s1 a1]|e [s1 a1]].
    + destruct (IH s1 a1) as (K1 & K2 & K3). destruct Hh as (H1 & H2 & H3).
      unfold same_channel. rewrite K1, K2, K3. auto.
    + apply Hexcept, Hh.
Qed.

(** The size exchange stores the declared size plus the header size. *)
Lemma receive_stream_size_data_size (packet : bytes) (source : address)
    (k : Z) (payload : value) (size : Z) (rest rest' : script) (s s1 : t) :
  parse_packet packet = Ok (k, payload) ->
  to_int payload = Ok size ->
  receive_stream_size (Datagram packet source :: rest) s
  = Returned tt s1 rest' ->
  data_size s1 = Some (size + 8) /\ index s1 = index s
  /\ global_start_time s1 = global_start_time s.
Proof.
  intros Hparse Hsize. cbn [receive_stream_size]. rewrite Hparse, Hsize.
  unfold send_ack. destruct (create_ack k); [|discriminate].
  intros [= <- _]. cbn. auto.
Qed.

(** C7, as amended: for every receiver state reached after the size
    exchange, [get_stats] returns the elapsed time, the totals of bytes
    and packets, the two rates (total divided by elapsed time, and the
    [int] zero when no time has passed), and as [data_size] the size the
    sender declared plus 8, the header size. [xd] and [xp] are the totals
    as floats. *)
Theorem get_stats_after_size_exchange (packet : bytes) (source : address)
    (k : Z) (payload : value) (size : Z) (rest rest' inbox : script)
    (s s1 s2 : t) (a : A) (xd xp : float) :
  parse_packet packet = Ok (k, payload) ->
  to_int payload = Ok size ->
  receive_stream_size (Datagram packet source :: rest) s
  = Returned tt s1 rest' ->
  s2 = fst (state_of (receive_data clock A add_stream_data inbox (s1, a))) ->
  float_of_int (total_data_received s2) = Ok xd ->
  float_of_int (total_packets_received s2) = Ok xp ->
  let elapsed_time :=
    PrimFloat.sub (clock (clock_reads s2)) (global_start_time s) in
  get_stats clock s2
  = Ok {| total_time := elapsed_time;
          stream_index := index s;
          stats_total_data_received := total_data_received s2;
          stats_total_packets_received := total_packets_received s2;
          stats_data_size := Some (size + 8);
          bytes_per_second :=
            if float_gt0 elapsed_time
            then Float (PrimFloat.div xd elapsed_time) else Int 0;
          packets_per_second :=
            if float_gt0 elapsed_time
            then Float (PrimFloat.div xp elapsed_time) else Int 0 |}.
Proof.
  intros Hparse Hsize Hrecv Hs2 Hxd Hxp elapsed_time.
  destruct (receive_stream_size_data_size packet source k payload size rest
              rest' s s1 Hparse Hsize Hrecv) as (D1 & I1 & G1).
  destruct (receive_data_keeps inbox s1 a) as (D2 & I2 & G2).
  rewrite <- Hs2 in D2, I2, G2.
  unfold get_stats. rewrite G2, G1. fold elapsed_time.
  rewrite (rate_spec _ elapsed_time xd Hxd). cbn [bind].
  rewrite (rate_spec _ elapsed_time xp Hxp). cbn [bind].
  rewrite D2, D1, I2, I1. reflexivity.
Qed.

End Receiver.


Lemma get_stats_after_size_exchange_witness :
  get_stats test_clock after_size_1024
  = Ok {| total_time := 2%float;
          stream_index := 1;
          stats_total_data_received := 0;
          stats_total_packets_received := 0;
          stats_data_size := Some (1024 + 8);
          bytes_per_second := Float 0%float;
          packets_per_second := Float 0%float |}.
Proof.
  apply (get_stats_after_size_exchange test_clock unit no_callback
           (blit "000000001024") test_server 0 (VStr (lit "1024")) 1024
           [] [] [] test_receiver after_size_1024 after_size_1024 tt
           0%float 0%float).
  - vm_compute. reflexivity.
  - vm_compute. reflexivity.
  - vm_compute. reflexivity.
  - vm_compute. reflexivity.
  - vm_compute. reflexivity.
  - vm_compute. reflexivity.
Defined.

(** C7 fails on the declared size: after the sender has declared 1024
    bytes, [get_stats] reports a [data_size] of 1032. *)
Lemma get_stats_data_size_counterexample :
  receive_stream_size [Datagram (blit "000000001024") test_server]
    test_receiver
  = Returned tt after_size_1024 []
  /\ parse_packet (blit "000000001024") = Ok (0, VStr (lit "1024"))
  /\ (exists st,
        get_stats test_clock after_size_1024 = Ok st
        /\ stats_data_size st = Some 1032)
  /\ Some 1032 <> Some 1024.
Proof.
  split; [vm_compute; reflexivity|].
  split; [vm_compute; reflexivity|].
  split; [|discriminate].
  eexists. split; [vm_compute; reflexivity | reflexivity].
Qed.

End StreamInFacts.

(* ================================================================== *)
(** * The initiator *)
(* ================================================================== *)

Module QuicClientFacts.
Import Py Text PyFacts QUIC_API Codec CodecFacts Net QuicClient Client.

(** ** The handshake *)

Lemma setup_stream_spec (i : Z) (packet : bytes) (source : address)
    (seq stream_port : Z) (ack : bytes) (rest : script) (c : t) :
  announces packet seq stream_port ->
  create_ack seq = Ok ack ->
  setup_stream i (Datagram packet source :: rest) c
  = Returned stream_port
      (print (PrintSentAck seq)
         (sendto ack (print (PrintStreamPort (i + 1) stream_port) c)))
      rest.
Proof.
  intros (d & Hparse & Hint) Hack. cbn [setup_stream].
  rewrite Hparse, Hint. unfold send_ack_message. rewrite Hack. reflexivity.
Qed.

Lemma handshake_spec (packet : bytes) (source : address) (seq n : Z)
    (rest : script) (c : t) :
  announces packet seq n ->
  handshake_with_server (Datagram packet source :: rest) c
  = Returned n
      (print (PrintSentAck 0)
         (sendto (blit "00000000")
            (print (PrintNumberOfStreams n)
               (print (PrintSentSyn (server_host c) (server_port c))
                  (sendto (blit "00000000Syn") c)))))
      rest.
Proof.
  intros (d & Hparse & Hint). cbn [handshake_with_server].
  change (send_syn_message c)
    with (Fine (print (PrintSentSyn (server_host c) (server_port c))
                  (sendto (blit "00000000Syn") c))).
  cbn [receive_number_of_streams]. rewrite Hparse, Hint. reflexivity.
Qed.

(** C8: handshake determinism. When the responder announces four
    channels and then four ports, tagged with the sequence numbers 1 to
    4, [initialize_streams] launches exactly four receiver tasks, the
    [i]-th with index [i] and bound to the [i]-th announced port, and
    acknowledges each announcement with its packet number; the whole
    connection phase ([handshake_with_server], then [initialize_streams])
    sends "Syn", the acknowledgment 0 and these four acknowledgments. *)
Theorem initialize_four_streams (host : str) (port : Z) (now : float)
    (p0 p1 p2 p3 p4 : bytes) (n0 port1 port2 port3 port4 : Z)
    (src0 src1 src2 src3 src4 : address) (c : t) :
  announces p0 n0 4 ->
  announces p1 1 port1 ->
  announces p2 2 port2 ->
  announces p3 3 port3 ->
  announces p4 4 port4 ->
  let ports :=
    [Datagram p1 src1; Datagram p2 src2; Datagram p3 src3; Datagram p4 src4]
  in
  (exists c',
     initialize_streams 4 ports c = Returned tt c' []
     /\ threads c'
        = threads c ++
          [mk_task (server_host c) port1 1 (global_start_time c);
           mk_task (server_host c) port2 2 (global_start_time c);
           mk_task (server_host c) port3 3 (global_start_time c);
           mk_task (server_host c) port4 4 (global_start_time c)]
     /\ sent c'
        = sent c ++
          [(blit "00000001", (server_host c, server_port c));
           (blit "00000002", (server_host c, server_port c));
           (blit "00000003", (server_host c, server_port c));
           (blit "00000004", (server_host c, server_port c))])
  /\ (exists c',
        connect now (Datagram p0 src0 :: ports) (init host port)
        = Returned tt c' []
        /\ threads c'
           = [mk_task host port1 1 (Some now);
              mk_task host port2 2 (Some now);
              mk_task host port3 3 (Some now);
              mk_task host port4 4 (Some now)]
        /\ sent c'
           = [(blit "00000000Syn", (host, port));
              (blit "00000000", (host, port));
              (blit "00000001", (host, port));
              (blit "00000002", (host, port));
              (blit "00000003", (host, port));
              (blit "00000004", (host, port))]).
Proof.
  intros H0 H1 H2 H3 H4 ports.
  assert (Hinit : forall c0 : t,
    exists c',
      initialize_streams 4 ports c0 = Returned tt c' []
      /\ threads c'
         = threads c0 ++
           [mk_task (server_host c0) port1 1 (global_start_time c0);
            mk_task (server_host c0) port2 2 (global_start_time c0);
            mk_task (server_host c0) port3 3 (global_start_time c0);
            mk_task (server_host c0) port4 4 (global_start_time c0)]
      /\ sent c'
         = sent c0 ++
           [(blit "00000001", (server_host c0, server_port c0));
            (blit "00000002", (server_host c0, server_port c0));
            (blit "00000003", (server_host c0, server_port c0));
            (blit "00000004", (server_host c0, server_port c0))]).
  { intros c0. unfold initialize_streams, ports.
    change (Z.to_nat 4) with 4%nat. cbn [initialize_streams_from].
    rewrite (setup_stream_spec 0 p1 src1 1 port1 (blit "00000001") _ _ H1 eq_refl).
    change (0 + 1) with 1.
    rewrite (setup_stream_spec 1 p2 src2 2 port2 (blit "00000002") _ _ H2 eq_refl).
    change (1 + 1) with 2.
    rewrite (setup_stream_spec 2 p3 src3 3 port3 (blit "00000003") _ _ H3 eq_refl).
    change (2 + 1) with 3.
    rewrite (setup_stream_spec 3 p4 src4 4 port4 (blit "00000004") _ _ H4 eq_refl).
    change (3 + 1) with 4.
    eexists. split; [reflexivity|].
    destruct c0. cbn. rewrite <- !app_assoc. split; reflexivity. }
  split; [apply Hinit|].
  unfold connect. rewrite (handshake_spec p0 src0 n0 4 _ _ H0).
  match goal with
  | |- context [initialize_streams 4 ports ?c0] => destruct (Hinit c0) as (c' & E & Ht & Hs)
  end.
  exists c'. split; [exact E|]. split; [exact Ht | exact Hs].
Qed.

Lemma announces_example (packet : bytes) (seq n : Z) (d : value) :
  parse_packet packet = Ok (seq, d) -> to_int d = Ok n ->
  announces packet seq n.
Proof. intros H1 H2. exists d. auto. Qed.

Lemma initialize_four_streams_witness :
  let ports :=
    [Datagram (blit "000000018001") server;
     Datagram (blit "000000028002") server;
     Datagram (blit "000000038003") server;
     Datagram (blit "000000048004") server] in
  (exists c',
     initialize_streams 4 ports (init localhost 8000) = Returned tt c' []
     /\ threads c'
        = [mk_task localhost 8001 1 None; mk_task localhost 8002 2 None;
           mk_task localhost 8003 3 None; mk_task localhost 8004 4 None]
     /\ sent c'
        = [(blit "00000001", server); (blit "00000002", server);
           (blit "00000003", server); (blit "00000004", server)])
  /\ (exists c',
        connect 100%float (Datagram (blit "000000004") server :: ports)
          (init localhost 8000)
        = Returned tt c' []
        /\ threads c'
           = [mk_task localhost 8001 1 (Some 100%float);
              mk_task localhost 8002 2 (Some 100%float);
              mk_task localhost 8003 3 (Some 100%float);
              mk_task localhost 8004 4 (Some 100%float)]
        /\ sent c'
           = [(blit "00000000Syn", server); (blit "00000000", server);
              (blit "00000001", server); (blit "00000002", server);
              (blit "00000003", server); (blit "00000004", server)]).
Proof.
  apply (initialize_four_streams localhost 8000 100%float
           (blit "000000004") (blit "000000018001") (blit "000000028002")
           (blit "000000038003") (blit "000000048004")
           0 8001 8002 8003 8004 server server server server server
           (init localhost 8000)).
  - apply (announces_example _ _ _ (VStr (lit "4"))); vm_compute; reflexivity.
  - apply (announces_example _ _ _ (VStr (lit "8001"))); vm_compute; reflexivity.
  - apply (announces_example _ _ _ (VStr (lit "8002"))); vm_compute; reflexivity.
  - apply (announces_example _ _ _ (VStr (lit "8003"))); vm_compute; reflexivity.
  - apply (announces_example _ _ _ (VStr (lit "8004"))); vm_compute; reflexivity.
Defined.

(** ** Statistics *)

Section DictFacts.
Variables K V : Type.
Variable key_eqb : K -> K -> bool.



End DictFacts.










(** Before any report there is no elapsed time to take the maximum of:
    [max] raises [ValueError]. *)
Lemma calculate_rates_no_report :
  time_elapsed_per_stream (init localhost 8000) = []
  /\ calculate_rates (init localhost 8000) = Raise ValueError.
Proof. split; reflexivity. Qed.

End QuicClientFacts.

(* ================================================================== *)
(** * More about the codec *)
(* ================================================================== *)

Module CodecLaws.
Import Py Text PyFacts IntFacts QUIC_API Codec CodecFacts.

(** ** The range of the numbers [int] reads *)

Lemma scan_digits_count (t : str) :
  forall acc nd prev v nd' rest,
  scan_digits t acc nd prev = Some (v, nd', rest) ->
  nd' - nd <= Z.of_nat (List.length t) - Z.of_nat (List.length rest)
  /\ (List.length rest <= List.length t)%nat.
Proof.
  induction t as [|c r IH]; intros acc nd prev v nd' rest; cbn [scan_digits].
  - destruct prev; [discriminate|]. intros [= <- <- <-]. cbn. lia.
  - destruct (ascii_digit c) as [d|].
    + intros H. apply IH in H. cbn [List.length]. lia.
    + destruct (c =? 95).
      * destruct prev; [discriminate|]. intros H. apply IH in H.
        cbn [List.length]. lia.
      * destruct prev; [discriminate|]. intros [= <- <- <-]. lia.
Qed.

Lemma skip_space_length (t : str) :
  (List.length (skip_space t) <= List.length t)%nat.
Proof.
  induction t as [|c r IH]; cbn [skip_space]; [lia|].
  destruct (ascii_isspace c); cbn [List.length]; lia.
Qed.

(** A text of at most [k] characters denotes a number of at most [k]
    digits, of at most [k - 1] when it is negative. *)
Lemma int_of_ascii_range (t : str) (z : Z) (k : nat) :
  int_of_ascii t = Ok z -> (List.length t <= k)%nat -> (0 < k)%nat ->
  - 10 ^ Z.of_nat (k - 1) < z < 10 ^ Z.of_nat k.
Proof.
  unfold int_of_ascii. intros H Hlen Hk.
  pose proof (skip_space_length t) as Hs.
  destruct (split_sign (skip_space t)) as [negative s2] eqn:Es.
  assert (Hs2 : (List.length s2 <= k)%nat
                /\ (negative = true -> (List.length s2 <= k - 1)%nat)).
  { unfold split_sign in Es. destruct (skip_space t) as [|c r] eqn:Et.
    - injection Es as <- <-. cbn. split; [lia | discriminate].
    - cbn [List.length] in Hs.
      destruct (c =? 43); [|destruct (c =? 45)]; injection Es as <- <-;
        cbn [List.length]; (split; [lia | try discriminate; intros _; lia]). }
  destruct Hs2 as [Hs2 Hneg].
  unfold int_of_digits in H. destruct s2 as [|c r] eqn:E2; [discriminate|].
  destruct (c =? 95); [discriminate|].
  destruct (scan_digits (c :: r) 0 0 false) as [[[v nd] rest]|] eqn:Escan;
    [|discriminate].
  destruct (nd =? 0); [discriminate|].
  destruct (int_max_str_digits <? nd); [discriminate|].
  destruct (skip_space rest); [|discriminate]. injection H as <-.
  destruct (scan_digits_bound _ _ _ _ _ _ _ Escan ltac:(lia) ltac:(cbn; lia))
    as [Hv Hnd].
  destruct (scan_digits_count _ _ _ _ _ _ _ Escan) as [Hc _].
  assert (Hpow : forall a b, 0 <= a <= b -> 10 ^ a <= 10 ^ b)
    by (intros; apply Z.pow_le_mono_r; lia).
  assert (H0 : 0 < 10 ^ Z.of_nat (k - 1)) by (apply Z.pow_pos_nonneg; lia).
  destruct negative.
  - specialize (Hneg eq_refl).
    assert (10 ^ nd <= 10 ^ Z.of_nat (k - 1)) by (apply Hpow; lia).
    assert (10 ^ Z.of_nat (k - 1) <= 10 ^ Z.of_nat k) by (apply Hpow; lia).
    lia.
  - assert (10 ^ nd <= 10 ^ Z.of_nat k) by (apply Hpow; lia). lia.
Qed.

Lemma parse_packet_number (packet : bytes) (n : Z) (d : value) :
  parse_packet packet = Ok (n, d) ->
  exists h, utf8_decode (firstn header_size packet) = Some h
            /\ int_of_str (strip h) = Ok n.
Proof.
  unfold parse_packet, decode.
  destruct (utf8_decode (firstn header_size packet)) as [h|]; [|discriminate].
  cbn [bind].
  destruct (int_of_str (strip h)) as [k|] eqn:Ek; [|discriminate].
  cbn [bind]. intros E. exists h. split; [reflexivity|].
  destruct (utf8_decode (skipn header_size packet)); cbn in E; congruence.
Qed.

(** X1: the number [parse_packet] returns is read from at most eight
    characters, one of which is the sign of a negative number: it lies
    between -9999999 and 99999999. *)
Theorem parse_packet_number_range (packet : bytes) (n : Z) (d : value) :
  parse_packet packet = Ok (n, d) -> -9999999 <= n <= 99999999.
Proof.
  intros H. destruct (parse_packet_number _ _ _ H) as (h & Eh & En).
  assert (Hlen : (List.length (map transform_char (strip h)) <= 8)%nat).
  { rewrite length_map. pose proof (strip_length h).
    pose proof (utf8_decode_length _ _ Eh).
    pose proof (firstn_le_length header_size packet).
    unfold header_size in *. lia. }
  pose proof (int_of_ascii_range _ _ 8 En Hlen ltac:(lia)) as R.
  change (10 ^ Z.of_nat (8 - 1)) with 10000000 in R.
  change (10 ^ Z.of_nat 8) with 100000000 in R. lia.
Qed.

Lemma parse_packet_number_range_witness :
  parse_packet (blit "  +1_2  payload") = Ok (12, VStr (lit "payload"))
  /\ -9999999 <= 12 <= 99999999.
Proof.
  split; [vm_compute; reflexivity|].
  apply (parse_packet_number_range (blit "  +1_2  payload") 12
           (VStr (lit "payload"))).
  vm_compute. reflexivity.
Defined.

(** ** Well-formed headers *)

(** X2: a packet whose first eight bytes hold an integer literal is
    accepted whatever follows them: the payload comes back as text when it
    is UTF-8 and as the raw bytes when it is not. *)
Theorem parse_packet_well_formed (packet : bytes) :
  header_well_formed packet ->
  exists n,
    parse_packet packet
    = Ok (n, match utf8_decode (skipn header_size packet) with
             | Some text => VStr text
             | None => VBytes (skipn header_size packet)
             end).
Proof.
  intros (h & Eh & Hlit). unfold parse_packet, decode at 1.
  rewrite Eh. cbn [bind].
  assert (Hlen : Z.of_nat (List.length (strip h)) <= int_max_str_digits).
  { pose proof (strip_length h). apply utf8_decode_length in Eh.
    pose proof (firstn_le_length header_size packet).
    unfold header_size, int_max_str_digits in *. lia. }
  destruct (int_of_str_complete (strip h) Hlit Hlen) as [z ->].
  cbn [bind]. exists z. unfold decode.
  destruct (utf8_decode (skipn header_size packet)); reflexivity.
Qed.

Lemma binary_header_well_formed :
  header_well_formed (blit "00000007" ++ [xff; xfe]).
Proof.
  exists (lit "00000007"). split; [reflexivity|].
  exists [], (lit "00000007"). split; [left; reflexivity|].
  split; [|reflexivity].
  do 7 (apply run_next; [reflexivity|]). apply run_one. reflexivity.
Qed.

Lemma parse_packet_well_formed_witness :
  exists n,
    parse_packet (blit "00000007" ++ [xff; xfe])
    = Ok (n, match utf8_decode (skipn header_size
                                  (blit "00000007" ++ [xff; xfe])) with
             | Some text => VStr text
             | None => VBytes (skipn header_size
                                 (blit "00000007" ++ [xff; xfe]))
             end).
Proof.
  apply (parse_packet_well_formed (blit "00000007" ++ [xff; xfe])).
  exact binary_header_well_formed.
Defined.

(** ** Signed numbers *)

Lemma int_of_ascii_minus (ds : str) :
  forallb is_digit ds = true -> ds <> [] ->
  Z.of_nat (List.length ds) <= int_max_str_digits ->
  int_of_ascii (45 :: ds) = Ok (- value_of ds 0).
Proof.
  intros Hd Hne Hlen. unfold int_of_ascii.
  change (skip_space (45 :: ds)) with (45 :: ds).
  change (split_sign (45 :: ds)) with (true, ds).
  destruct ds as [|c r]; [congruence|].
  pose proof Hd as Hd'. cbn [forallb] in Hd'.
  apply andb_true_iff in Hd' as [Hc _].
  destruct (is_digit_marks c Hc) as (_ & _ & _ & H95).
  unfold int_of_digits. rewrite H95.
  rewrite (scan_digits_digits _ Hd). cbn [List.length] in *.
  replace (0 + Z.of_nat (S (List.length r)) =? 0) with false
    by (symmetry; apply Z.eqb_neq; lia).
  replace (int_max_str_digits <? 0 + Z.of_nat (S (List.length r))) with false
    by (symmetry; apply Z.ltb_ge; lia).
  reflexivity.
Qed.

Lemma int_of_str_minus (ds : str) :
  forallb is_digit ds = true -> ds <> [] ->
  Z.of_nat (List.length ds) <= int_max_str_digits ->
  int_of_str (45 :: ds) = Ok (- value_of ds 0).
Proof.
  intros Hd Hne Hlen. unfold int_of_str. cbn [map].
  rewrite (transform_digits _ Hd).
  change (transform_char 45) with 45.
  apply int_of_ascii_minus; assumption.
Qed.

Lemma decimal_length_limit (n : Z) :
  0 <= n < 10 ^ int_max_str_digits ->
  Z.of_nat (List.length (decimal n)) <= int_max_str_digits.
Proof.
  intros [H0 H1]. destruct (decimal_spec n H0) as (_ & _ & _ & Hlen).
  assert (Hk : (List.length (decimal n) <= Z.to_nat int_max_str_digits)%nat).
  { apply Hlen; [unfold int_max_str_digits; lia|].
    rewrite Z2Nat.id by (unfold int_max_str_digits; lia). exact H1. }
  unfold int_max_str_digits in *. lia.
Qed.

(** [int(str(m))] is [m]. *)
Lemma int_of_str_of_int (m : Z) :
  Z.abs m < 10 ^ int_max_str_digits ->
  exists s,
    str_of_int m = Ok s /\ forallb is_ascii s = true
    /\ int_of_str s = Ok m.
Proof.
  intros Hm. destruct (str_of_int_ascii m Hm) as (s & Es & Hs).
  exists s. split; [exact Es|]. split; [exact Hs|].
  unfold str_of_int in Es.
  replace (10 ^ int_max_str_digits <=? Z.abs m) with false in Es
    by (symmetry; apply Z.leb_gt; exact Hm).
  injection Es as <-. destruct (Z.ltb_spec m 0).
  - destruct (decimal_spec (- m) ltac:(lia)) as (Hd & Hne & Hv & _).
    rewrite int_of_str_minus, Hv; [f_equal; lia | exact Hd | exact Hne |].
    apply decimal_length_limit. lia.
  - apply int_of_str_decimal. lia.
Qed.

(** ** Negative sequence numbers *)

Lemma is_digit_In (ds : str) (c : Z) :
  forallb is_digit ds = true -> In c ds -> is_digit c = true.
Proof.
  intros H. rewrite forallb_forall in H. apply H.
Qed.

(** A minus sign followed by digits has no white space to strip. *)
Lemma strip_minus_digits (ds : str) :
  forallb is_digit ds = true -> ds <> [] -> strip (45 :: ds) = 45 :: ds.
Proof.
  intros Hd Hne. apply strip_id.
  - intros c r [= <- _]. reflexivity.
  - intros c r E. cbn [rev] in E.
    destruct (rev ds) as [|x xs] eqn:Er.
    + apply (f_equal (@List.length Z)) in Er.
      rewrite length_rev in Er. destruct ds; [congruence | discriminate].
    + cbn [app] in E. injection E as <- _.
      apply is_digit_not_space, (is_digit_In ds); [exact Hd|].
      apply in_rev. rewrite Er. left. reflexivity.
Qed.

(** What [create_packet] writes for a negative number of at most seven
    digits, and what [parse_packet] reads from it. *)
Lemma negative_header (n : Z) :
  -9999999 <= n < 0 ->
  exists h,
    str_of_int n = Ok (45 :: decimal (- n))
    /\ zfill 8 (45 :: decimal (- n)) = h
    /\ List.length h = 8%nat
    /\ forallb is_ascii h = true
    /\ int_of_str (strip h) = Ok n.
Proof.
  intros Hn. destruct (decimal_spec (- n) ltac:(lia)) as (Hd & Hne & Hv & Hlen).
  assert (H7 : (List.length (decimal (- n)) <= 7)%nat).
  { apply Hlen; [lia|]. change (10 ^ Z.of_nat 7) with 10000000. lia. }
  set (ds := decimal (- n)) in *.
  set (body := repeat 48 (8 - S (List.length ds)) ++ ds).
  assert (Hbody : forallb is_digit body = true).
  { apply forallb_app_true; [apply forallb_repeat; reflexivity | exact Hd]. }
  assert (Hbne : body <> []).
  { unfold body. intros E. apply app_eq_nil in E as [_ E]. contradiction. }
  exists (45 :: body). split; [|split; [|split; [|split]]].
  - unfold str_of_int.
    replace (10 ^ int_max_str_digits <=? Z.abs n) with false.
    + replace (n <? 0) with true by (symmetry; apply Z.ltb_lt; lia).
      reflexivity.
    + symmetry. apply Z.leb_gt.
      apply Z.lt_le_trans with (10 ^ 8);
        [change (10 ^ 8) with 100000000; lia|].
      apply pow10_le_limit. unfold int_max_str_digits. lia.
  - reflexivity.
  - unfold body. cbn [List.length]. rewrite length_app, repeat_length. lia.
  - cbn [forallb]. change (is_ascii 45) with true.
    revert Hbody. apply forallb_impl, is_digit_ascii.
  - rewrite (strip_minus_digits body Hbody Hbne).
    rewrite (int_of_str_minus body Hbody Hbne).
    + unfold body. rewrite value_of_app, value_of_zeros. fold ds in Hv.
      rewrite Hv. f_equal. lia.
    + unfold body. rewrite length_app, repeat_length.
      unfold int_max_str_digits. lia.
Qed.

(** X3: the round trip of the codec extends to the negative numbers of at
    most seven digits: [zfill] pads after the sign, and [int] reads it. *)
Theorem parse_create_packet_negative (n : Z) (p : str) :
  -9999999 <= n < 0 ->
  forallb is_scalar p = true ->
  exists packet,
    create_packet n (VStr p) = Ok packet
    /\ parse_packet packet = Ok (n, VStr p).
Proof.
  intros Hn Hp. destruct (utf8_encode_scalars p Hp) as [b Eb].
  destruct (negative_header n Hn) as (h & Es & Ez & Hl & Ha & Ei).
  exists (map z2b h ++ b). split.
  - unfold create_packet. rewrite Es. cbn [bind]. rewrite Ez.
    unfold encode. rewrite (utf8_encode_ascii h Ha). cbn [bind to_str].
    rewrite Eb. reflexivity.
  - unfold parse_packet, header_size.
    rewrite (firstn_exact (map z2b h) b 8) by (rewrite length_map; exact Hl).
    rewrite (skipn_exact (map z2b h) b 8) by (rewrite length_map; exact Hl).
    unfold decode. rewrite (utf8_decode_ascii h Ha). cbn [bind].
    rewrite Ei. cbn [bind]. rewrite (utf8_decode_encode p b Eb). reflexivity.
Qed.

Lemma parse_create_packet_negative_witness :
  exists packet,
    create_packet (-42) (VStr (lit "data")) = Ok packet
    /\ parse_packet packet = Ok (-42, VStr (lit "data")).
Proof.
  apply (parse_create_packet_negative (-42) (lit "data")).
  - lia.
  - reflexivity.
Defined.

(** ** Payloads *)

Lemma utf8_encode_not_scalar (p : str) :
  forallb is_scalar p = false -> utf8_encode p = None.
Proof.
  induction p as [|c r IH]; cbn [forallb utf8_encode]; [discriminate|].
  intros H. apply andb_false_iff in H as [Hc | Hr].
  - destruct (utf8_encode_char c) as [b|] eqn:E; [|reflexivity].
    assert (is_scalar c = true)
      by (apply utf8_encode_char_scalar; congruence).
    congruence.
  - rewrite (IH Hr). destruct (utf8_encode_char c); reflexivity.
Qed.

(** X4: a text with a code point that is not a Unicode scalar value (a
    lone surrogate) cannot be sent: [create_packet] raises
    [UnicodeEncodeError]. *)
Theorem create_packet_unencodable (n : Z) (p : str) :
  Z.abs n < 10 ^ int_max_str_digits ->
  forallb is_scalar p = false ->
  create_packet n (VStr p) = Raise UnicodeEncodeError.
Proof.
  intros Hn Hp. unfold create_packet.
  destruct (str_of_int_ascii n Hn) as (s & -> & Hs). cbn [bind].
  unfold encode. rewrite (utf8_encode_ascii _ (is_ascii_zfill 8 s Hs)).
  cbn [bind to_str]. rewrite (utf8_encode_not_scalar p Hp). reflexivity.
Qed.

Lemma create_packet_unencodable_witness :
  create_packet 1 (VStr [97; 0xD800]) = Raise UnicodeEncodeError.
Proof.
  apply (create_packet_unencodable 1 [97; 0xD800]).
  - apply Z.lt_le_trans with (10 ^ 1); [cbn; lia|].
    apply pow10_le_limit. unfold int_max_str_digits. lia.
  - reflexivity.
Defined.

Lemma utf8_encode_char_width (c : Z) (b : bytes) :
  utf8_encode_char c = Some b -> List.length b = utf8_width c.
Proof.
  unfold utf8_encode_char, utf8_width.
  repeat match goal with
         | |- (if ?x then _ else _) = _ -> _ => destruct x
         end; try discriminate; intros [= <-]; reflexivity.
Qed.

Lemma utf8_encode_length (p : str) :
  forall b, utf8_encode p = Some b ->
  List.length b = list_sum (map utf8_width p).
Proof.
  induction p as [|c r IH]; cbn [utf8_encode]; intros b.
  - intros [= <-]. reflexivity.
  - destruct (utf8_encode_char c) as [bc|] eqn:Ec; [|discriminate].
    destruct (utf8_encode r) as [br|]; [|discriminate].
    intros [= <-]. apply utf8_encode_char_width in Ec.
    rewrite length_app, Ec, (IH br eq_refl). reflexivity.
Qed.

Lemma ascii_width (p : str) :
  forallb is_ascii p = true -> list_sum (map utf8_width p) = List.length p.
Proof.
  induction p as [|c r IH]; cbn [forallb map List.length]; [reflexivity|].
  intros H. apply andb_true_iff in H as [Hc Hr].
  change (list_sum (utf8_width c :: map utf8_width r))
    with (utf8_width c + list_sum (map utf8_width r))%nat.
  rewrite (IH Hr). unfold is_ascii in Hc.
  apply andb_true_iff in Hc as [_ Hc].
  unfold utf8_width. rewrite Hc. reflexivity.
Qed.

(** X5: the size of a packet whose number is in range: eight bytes of
    header, and for each character of the payload the one to four bytes
    UTF-8 gives it. *)
Theorem create_packet_length (n : Z) (p : str) (packet : bytes) :
  0 <= n <= 99999999 ->
  create_packet n (VStr p) = Ok packet ->
  List.length packet = (8 + list_sum (map utf8_width p))%nat.
Proof.
  intros Hn. rewrite (create_packet_header n _ Hn). cbn [to_str bind].
  unfold encode. destruct (utf8_encode p) as [b|] eqn:Eb; [|discriminate].
  cbn [bind]. intros [= <-]. rewrite length_app, (header_length n Hn).
  rewrite (utf8_encode_length p b Eb). reflexivity.
Qed.

Lemma create_packet_length_witness :
  create_packet 1 (VStr [97; 233; 0x20AC; 0x1F600])
  = Ok (blit "00000001a" ++ [xc3; xa9; xe2; x82; xac; xf0; x9f; x98; x80])
  /\ List.length
       (blit "00000001a" ++ [xc3; xa9; xe2; x82; xac; xf0; x9f; x98; x80])
     = (8 + list_sum (map utf8_width [97; 233; 0x20AC; 0x1F600]%Z))%nat.
Proof.
  split; [vm_compute; reflexivity|].
  apply (create_packet_length 1 [97; 233; 0x20AC; 0x1F600]).
  - lia.
  - vm_compute. reflexivity.
Defined.

(** ** Numbers of more than eight digits *)

Lemma value_of_shift (ds : str) :
  forall acc,
  value_of ds acc = acc * 10 ^ Z.of_nat (List.length ds) + value_of ds 0.
Proof.
  unfold value_of.
  induction ds as [|c r IH]; intros acc; cbn [fold_left List.length].
  - cbn. lia.
  - rewrite (IH (10 * acc + (c - 48))), (IH (10 * 0 + (c - 48))).
    rewrite Nat2Z.inj_succ, Z.pow_succ_r by lia. lia.
Qed.

Lemma forallb_firstn {A : Type} (f : A -> bool) (k : nat) (l : list A) :
  forallb f l = true -> forallb f (firstn k l) = true.
Proof.
  revert k. induction l as [|x r IH]; intros [|k]; cbn [firstn forallb];
    try reflexivity.
  intros H. apply andb_true_iff in H as [Hx Hr]. rewrite Hx, (IH k Hr).
  reflexivity.
Qed.

Lemma forallb_skipn {A : Type} (f : A -> bool) (k : nat) (l : list A) :
  forallb f l = true -> forallb f (skipn k l) = true.
Proof.
  revert k. induction l as [|x r IH]; intros [|k]; cbn [skipn forallb];
    try reflexivity; try (intros H; exact H).
  intros H. apply andb_true_iff in H as [_ Hr]. exact (IH k Hr).
Qed.

Lemma utf8_encode_app (a c : str) (x y : bytes) :
  utf8_encode a = Some x -> utf8_encode c = Some y ->
  utf8_encode (a ++ c) = Some (x ++ y).
Proof.
  revert x. induction a as [|h r IH]; cbn [utf8_encode app]; intros x.
  - intros [= <-] Hc. exact Hc.
  - destruct (utf8_encode_char h) as [bh|]; [|discriminate].
    destruct (utf8_encode r) as [br|]; [|discriminate].
    intros [= <-] Hc. rewrite (IH br eq_refl Hc), app_assoc. reflexivity.
Qed.

(** The first eight digits of a longer number are the number without its
    last digits. *)
Lemma leading_digits (m : Z) :
  0 <= m -> (8 <= List.length (decimal m))%nat ->
  value_of (firstn 8 (decimal m)) 0
  = m / 10 ^ (Z.of_nat (List.length (decimal m)) - 8).
Proof.
  intros Hm Hlen. destruct (decimal_spec m Hm) as (Hd & _ & Hv & _).
  set (ds := decimal m) in *.
  rewrite <- (firstn_skipn 8 ds), value_of_app, value_of_shift in Hv.
  assert (Hk : Z.of_nat (List.length (skipn 8 ds))
               = Z.of_nat (List.length ds) - 8)
    by (rewrite length_skipn; lia).
  rewrite Hk in Hv.
  pose proof (value_of_bound (skipn 8 ds) (forallb_skipn _ 8 ds Hd) 0
                ltac:(lia)) as Hb.
  rewrite Hk in Hb.
  apply Z.div_unique with (value_of (skipn 8 ds) 0); lia.
Qed.

(** X6: a number of more than eight digits does not survive the round
    trip: [parse_packet] reads its first eight digits as the number and
    hands the other digits over as the beginning of the payload. *)
Theorem parse_create_packet_overflow (m : Z) (p : str) :
  99999999 < m < 10 ^ int_max_str_digits ->
  forallb is_scalar p = true ->
  exists packet,
    create_packet m (VStr p) = Ok packet
    /\ parse_packet packet
       = Ok (m / 10 ^ (Z.of_nat (List.length (decimal m)) - 8),
             VStr (skipn 8 (decimal m) ++ p)).
Proof.
  intros Hm Hp. destruct (utf8_encode_scalars p Hp) as [b Eb].
  destruct (decimal_spec m ltac:(lia)) as (Hd & _).
  assert (Hlen : (8 < List.length (decimal m))%nat).
  { apply decimal_length_lower. change (10 ^ Z.of_nat 8) with 100000000. lia. }
  assert (Ha : forallb is_ascii (decimal m) = true)
    by (revert Hd; apply forallb_impl, is_digit_ascii).
  exists (map z2b (decimal m) ++ b). split.
  - unfold create_packet. rewrite (str_of_int_nonneg m) by lia. cbn [bind].
    rewrite (zfill_digits 8 _ Hd).
    replace (8 - List.length (decimal m))%nat with 0%nat by lia.
    cbn [repeat app]. unfold encode. rewrite (utf8_encode_ascii _ Ha).
    cbn [bind to_str]. rewrite Eb. reflexivity.
  - unfold parse_packet, header_size.
    rewrite firstn_app, skipn_app, length_map.
    replace (8 - List.length (decimal m))%nat with 0%nat by lia.
    rewrite firstn_O, skipn_O, app_nil_r, firstn_map, skipn_map.
    assert (Hf : forallb is_digit (firstn 8 (decimal m)) = true)
      by (apply forallb_firstn; exact Hd).
    unfold decode at 1. rewrite utf8_decode_ascii
      by (revert Hf; apply forallb_impl, is_digit_ascii).
    cbn [bind]. rewrite (strip_digits _ Hf).
    rewrite int_of_str_digits; [| exact Hf | |].
    + cbn [bind]. rewrite leading_digits by lia.
      unfold decode.
      rewrite (utf8_decode_encode (skipn 8 (decimal m) ++ p)
                 (map z2b (skipn 8 (decimal m)) ++ b)); [reflexivity|].
      apply utf8_encode_app; [|exact Eb].
      apply utf8_encode_ascii, forallb_skipn. exact Ha.
    + intros E. apply (f_equal (@List.length Z)) in E.
      rewrite length_firstn in E. cbn [List.length] in E. lia.
    + rewrite length_firstn. unfold int_max_str_digits. lia.
Qed.

Lemma parse_create_packet_overflow_witness :
  exists packet,
    create_packet 123456789 (VStr (lit "x")) = Ok packet
    /\ parse_packet packet
       = Ok (123456789
             / 10 ^ (Z.of_nat (List.length (decimal 123456789)) - 8),
             VStr (skipn 8 (decimal 123456789) ++ lit "x")).
Proof.
  apply (parse_create_packet_overflow 123456789 (lit "x")).
  - split; [lia|]. apply Z.lt_le_trans with (10 ^ 9).
    + change (10 ^ 9) with 1000000000. lia.
    + apply pow10_le_limit. unfold int_max_str_digits. lia.
  - reflexivity.
Defined.

(** ** Numbers as payloads *)

(** X7: a number sent as a payload comes back as its decimal text, from
    which [int] reads it again: this is how the size of a stream, the
    number of streams and the ports travel. *)
Theorem create_packet_int_payload (k m : Z) :
  0 <= k <= 99999999 ->
  Z.abs m < 10 ^ int_max_str_digits ->
  exists packet text,
    create_packet k (VInt m) = Ok packet
    /\ parse_packet packet = Ok (k, VStr text)
    /\ to_int (VStr text) = Ok m.
Proof.
  intros Hk Hm. destruct (int_of_str_of_int m Hm) as (s & Es & Ha & Ei).
  exists (header k ++ map z2b s), s. split; [|split].
  - rewrite (create_packet_header k _ Hk). cbn [to_str]. rewrite Es.
    cbn [bind]. unfold encode. rewrite (utf8_encode_ascii s Ha). reflexivity.
  - rewrite (parse_packet_header k _ Hk), (utf8_decode_ascii s Ha).
    reflexivity.
  - exact Ei.
Qed.

Lemma create_packet_int_payload_witness :
  exists packet text,
    create_packet 0 (VInt (-2040)) = Ok packet
    /\ parse_packet packet = Ok (0, VStr text)
    /\ to_int (VStr text) = Ok (-2040).
Proof.
  apply (create_packet_int_payload 0 (-2040)).
  - lia.
  - apply Z.lt_le_trans with (10 ^ 4); [cbn; lia|].
    apply pow10_le_limit. unfold int_max_str_digits. lia.
Defined.

(** ** Random data *)

Lemma ascii_letters_are_letters : forallb is_letter ascii_letters = true.
Proof. reflexivity. Qed.

Lemma choice_letter (random : nat -> Z) (calls : nat) :
  is_letter (choice random calls ascii_letters) = true.
Proof.
  pose proof ascii_letters_are_letters as H. rewrite forallb_forall in H.
  apply H. unfold choice, randbelow. apply nth_In.
  change (Z.of_nat (List.length ascii_letters)) with 52.
  change (List.length ascii_letters) with 52%nat.
  pose proof (Z.mod_pos_bound (random calls) 52 ltac:(lia)). lia.
Qed.

Lemma create_data_spec (random : nat -> Z) (calls : nat) (size : Z) :
  List.length (create_data random calls size) = Z.to_nat size
  /\ forallb is_letter (create_data random calls size) = true.
Proof.
  unfold create_data. split.
  - rewrite length_map, length_seq. reflexivity.
  - apply forallb_forall. intros c Hc. apply in_map_iff in Hc as (i & <- & _).
    apply choice_letter.
Qed.

Lemma is_letter_ascii (c : Z) : is_letter c = true -> is_ascii c = true.
Proof.
  unfold is_letter, is_ascii. intros H.
  apply orb_true_iff in H as [H | H]; apply andb_true_iff in H as [H0 H1];
    apply Z.leb_le in H0; apply Z.leb_le in H1;
    apply andb_true_iff; split; [apply Z.leb_le | apply Z.ltb_lt
                                | apply Z.leb_le | apply Z.ltb_lt]; lia.
Qed.

(** X8: [create_data] returns as many characters as it is asked for (none
    for a negative size), each of them an ASCII letter, whatever the random
    numbers drawn; in a packet they take one byte each. *)
Theorem create_data_letters (random : nat -> Z) (calls : nat) (size : Z) :
  let data := create_data random calls size in
  List.length data = Z.to_nat size
  /\ forallb is_letter data = true
  /\ utf8_encode data = Some (map z2b data).
Proof.
  cbv zeta. destruct (create_data_spec random calls size) as [Hlen Hletters].
  split; [exact Hlen|]. split; [exact Hletters|].
  apply utf8_encode_ascii. revert Hletters.
  apply forallb_impl, is_letter_ascii.
Qed.

End CodecLaws.

(* ================================================================== *)
(** * The transfer of a file *)
(* ================================================================== *)

Module TransferFacts.
Import Py Text PyFacts IntFacts QUIC_API Codec CodecFacts CodecLaws.
Import Net StreamOut Sender StreamOutFacts Transfer.

(** ** Chunks *)

Lemma chunks_fuel_enough (size : nat) (fuel1 : nat) :
  (0 < size)%nat ->
  forall fuel2 content,
  (List.length content <= fuel1)%nat -> (List.length content <= fuel2)%nat ->
  chunks_fuel fuel1 size content = chunks_fuel fuel2 size content.
Proof.
  intros Hsize. induction fuel1 as [|fuel1 IH]; intros fuel2 content H1 H2.
  - destruct content; [destruct fuel2; reflexivity | cbn in H1; lia].
  - destruct content as [|c r]; [destruct fuel2; reflexivity|].
    destruct fuel2 as [|fuel2]; [cbn in H2; lia|].
    cbn [chunks_fuel]. f_equal.
    assert (Hs : (List.length (skipn size (c :: r)) <= List.length r)%nat).
    { rewrite length_skipn. cbn [List.length]. lia. }
    cbn [List.length] in H1, H2. apply IH; lia.
Qed.

Lemma chunks_cons (size : Z) (c : Z) (r : str) :
  0 < size ->
  chunks size (c :: r)
  = firstn (Z.to_nat size) (c :: r)
    :: chunks size (skipn (Z.to_nat size) (c :: r)).
Proof.
  intros Hsize. unfold chunks. cbn [List.length chunks_fuel]. f_equal.
  apply chunks_fuel_enough; [lia | | lia].
  rewrite length_skipn. cbn [List.length]. lia.
Qed.

Lemma concat_chunks (size : Z) :
  0 < size ->
  forall n content, (List.length content <= n)%nat ->
  List.concat (chunks size content) = content.
Proof.
  intros Hsize. induction n as [|n IH]; intros content Hlen.
  - destruct content; [reflexivity | cbn in Hlen; lia].
  - destruct content as [|c r]; [reflexivity|].
    rewrite (chunks_cons size c r Hsize). cbn [List.concat].
    rewrite IH; [apply firstn_skipn|].
    rewrite length_skipn. cbn [List.length] in *. lia.
Qed.

Lemma length_chunks (size : Z) :
  0 < size ->
  forall n content, (List.length content <= n)%nat ->
  (List.length (chunks size content) <= List.length content)%nat.
Proof.
  intros Hsize. induction n as [|n IH]; intros content Hlen.
  - destruct content; [cbn; lia | cbn in Hlen; lia].
  - destruct content as [|c r]; [cbn; lia|].
    rewrite (chunks_cons size c r Hsize). cbn [List.length].
    assert (Hs : (List.length (skipn (Z.to_nat size) (c :: r))
                  <= List.length r)%nat).
    { rewrite length_skipn. cbn [List.length]. lia. }
    specialize (IH (skipn (Z.to_nat size) (c :: r))).
    cbn [List.length] in Hlen. lia.
Qed.

(** ** One chunk *)

Ltac fields :=
  cbn [packet_num data_size client_address host port index sent timeout
       log_file closed set_client_address log next_packet settimeout
       close_resources fail].

Lemma send_packet_fine (text : str) (packet : bytes) (s : t) (a : address) :
  create_packet (packet_num s) (VStr text) = Ok packet ->
  client_address s = Some a ->
  exists s1,
    send_packet text s = Fine s1
    /\ sent s1 = sent s ++ [(packet, a)]
    /\ packet_num s1 = packet_num s
    /\ client_address s1 = Some a
    /\ data_size s1 = data_size s.
Proof.
  intros Hp Ha. unfold send_packet, sendto. rewrite Hp, Ha.
  eexists. split; [reflexivity|]. cbn. repeat split.
Qed.

Lemma wait_ack_state (text : str) (ack : bytes) (source : address)
    (d : value) (rest : script) (s : t) :
  parse_packet ack = Ok (packet_num s, d) ->
  exists s1,
    wait_for_ack_with_retry text (Datagram ack source :: rest) s
    = Returned tt s1 rest
    /\ sent s1 = sent s
    /\ packet_num s1 = packet_num s + 1
    /\ client_address s1 = Some source
    /\ data_size s1 = data_size s.
Proof.
  intros Hparse. cbn [wait_for_ack_with_retry]. rewrite Hparse.
  cbn [packet_num set_client_address settimeout]. rewrite Z.eqb_refl.
  eexists. split; [reflexivity|]. repeat split.
Qed.

Lemma create_packet_scalars (k : Z) (text : str) :
  0 <= k <= 99999999 -> forallb is_scalar text = true ->
  exists packet, create_packet k (VStr text) = Ok packet.
Proof.
  intros Hk Ht. destruct (utf8_encode_scalars text Ht) as [b Eb].
  exists (header k ++ b). rewrite (create_packet_header k _ Hk).
  cbn [to_str bind]. unfold encode. rewrite Eb. reflexivity.
Qed.

(** ** The whole file *)

Lemma send_chunks_transfer (a : address) (rest : script) (fuel : nat) :
  forall (content : str) (acks : list bytes) (s : t),
  (List.length content < fuel)%nat ->
  0 < data_size s ->
  client_address s = Some a ->
  forallb is_scalar content = true ->
  0 <= packet_num s ->
  packet_num s + Z.of_nat (List.length content) <= 99999999 ->
  List.length acks = List.length (chunks (data_size s) content) ->
  acknowledges (packet_num s) acks ->
  exists s' packets,
    send_chunks fuel content (received_from a acks ++ rest) s
    = Returned tt s' rest
    /\ numbered (packet_num s) (chunks (data_size s) content) packets
    /\ sent s' = sent s ++ sent_to a packets
    /\ packet_num s'
       = packet_num s
         + Z.of_nat (List.length (chunks (data_size s) content))
    /\ client_address s' = Some a
    /\ data_size s' = data_size s.
Proof.
  induction fuel as [|fuel IH];
    intros content acks s Hfuel Hsize Ha Hc Hk0 Hk1 Hlen Hacks; [lia|].
  cbn [send_chunks]. unfold file_read.
  replace (data_size s <? 0) with false by (symmetry; apply Z.ltb_ge; lia).
  destruct content as [|c r].
  - rewrite firstn_nil. destruct acks; [|discriminate].
    exists s, []. cbn. rewrite app_nil_r. repeat split; [lia | exact Ha].
  - rewrite (chunks_cons _ c r Hsize) in *.
    set (n := Z.to_nat (data_size s)) in *.
    destruct acks as [|ack acks]; [discriminate|].
    cbn [List.length] in Hlen. injection Hlen as Hlen.
    destruct Hacks as [[d Hparse] Hacks].
    assert (Hn : (0 < n)%nat) by (unfold n; lia).
    assert (Hchunk : forallb is_scalar (firstn n (c :: r)) = true)
      by (apply forallb_firstn; exact Hc).
    destruct (create_packet_scalars (packet_num s) (firstn n (c :: r))
                ltac:(cbn [List.length] in Hk1; lia) Hchunk)
      as [packet Hpacket].
    destruct (send_packet_fine _ _ s a Hpacket Ha)
      as (s1 & Hsend & Hsent1 & Hnum1 & Ha1 & Hsize1).
    destruct (firstn n (c :: r)) as [|x chunk] eqn:Echunk.
    { destruct n; [lia | discriminate]. }
    rewrite Hsend. cbn [received_from map app].
    rewrite <- Hnum1 in Hparse.
    destruct (wait_ack_state (x :: chunk) ack a d
                (received_from a acks ++ rest) s1 Hparse)
      as (s2 & Hwait & Hsent2 & Hnum2 & Ha2 & Hsize2).
    unfold received_from in Hwait. rewrite Hwait.
    assert (Hrem : (List.length (skipn n (c :: r)) <= List.length r)%nat).
    { rewrite length_skipn. cbn [List.length]. lia. }
    assert (Esize : data_size s2 = data_size s) by congruence.
    assert (Enum : packet_num s2 = packet_num s + 1) by congruence.
    destruct (IH (skipn n (c :: r)) acks s2)
      as (s' & packets & Hrun & Hnumbered & Hsent & Hnum & Ha' & Hsize').
    + cbn [List.length] in Hfuel. lia.
    + lia.
    + exact Ha2.
    + apply forallb_skipn. exact Hc.
    + lia.
    + cbn [List.length] in Hk1. lia.
    + rewrite Esize. exact Hlen.
    + rewrite Enum. exact Hacks.
    + exists s', (packet :: packets).
      unfold received_from in Hrun. rewrite Hrun.
      rewrite Esize, Enum in *. split; [reflexivity|].
      split; [split; assumption|]. split; [|split; [|split]].
      * rewrite Hsent, Hsent2, Hsent1. cbn [sent_to map].
        rewrite <- app_assoc. reflexivity.
      * rewrite Hnum. cbn [List.length]. lia.
      * exact Ha'.
      * exact Hsize'.
Qed.



(** ** Sizes that leave no room for data *)

(** X10: a sender built with the size 8 has chunks of no character:
    [file.read(0)] returns the empty text at once, so nothing of the file
    is sent, whatever the file holds, and no acknowledgment is read. *)
Theorem send_data_from_file_no_room (content : str) (a : address)
    (inbox : script) (s : t) :
  data_size s = 0 ->
  client_address s = Some a ->
  send_data_from_file (Some content) inbox s = Returned tt s inbox.
Proof.
  intros Hsize Ha. unfold send_data_from_file. rewrite Ha.
  cbn [send_chunks]. unfold file_read. rewrite Hsize. cbn [Z.ltb Z.compare].
  change (Z.to_nat 0) with 0%nat. rewrite firstn_O. reflexivity.
Qed.

Lemma send_data_from_file_no_room_witness :
  send_data_from_file (Some small_file) []
    (set_client_address (lit "127.0.0.1", 5000)
       (init (lit "127.0.0.1") 9000 8 1))
  = Returned tt
      (set_client_address (lit "127.0.0.1", 5000)
         (init (lit "127.0.0.1") 9000 8 1)) [].
Proof.
  apply (send_data_from_file_no_room small_file (lit "127.0.0.1", 5000)).
  - reflexivity.
  - reflexivity.
Defined.



(** ** The size of a data packet *)

(** X12: a chunk of an ASCII file goes into a packet of at most
    [data_size + 8] bytes, the size the sender was built with. *)
Theorem data_packet_fits (content chunk remaining : str) (packet : bytes)
    (s : t) :
  0 <= data_size s ->
  0 <= packet_num s <= 99999999 ->
  forallb is_ascii content = true ->
  file_read (data_size s) content = (chunk, remaining) ->
  create_packet (packet_num s) (VStr chunk) = Ok packet ->
  Z.of_nat (List.length packet) <= data_size s + 8.
Proof.
  intros Hsize Hk Hc Hread. unfold file_read in Hread.
  replace (data_size s <? 0) with false in Hread
    by (symmetry; apply Z.ltb_ge; lia).
  injection Hread as <- <-.
  rewrite (create_packet_header _ _ Hk). cbn [to_str bind]. unfold encode.
  rewrite (utf8_encode_ascii _ (forallb_firstn _ _ _ Hc)). cbn [bind].
  intros [= <-]. rewrite length_app, (header_length _ Hk), length_map.
  rewrite length_firstn. lia.
Qed.

Lemma data_packet_fits_witness :
  Z.of_nat (List.length (blit "00000001abcd")) <= data_size small_sender + 8.
Proof.
  apply (data_packet_fits small_file (lit "abcd") (lit "efghij")
           (blit "00000001abcd") small_sender).
  - cbn. lia.
  - cbn. lia.
  - reflexivity.
  - reflexivity.
  - vm_compute. reflexivity.
Defined.

(** ** Whom the sender talks to *)

(** X13: while it waits for an acknowledgment, the sender takes the source
    of every datagram it receives as its client: when the wait is over, the
    client is whoever sent the acknowledgment, and the next packet goes
    there. *)
Theorem wait_for_ack_with_retry_adopts_source (text : str) (inbox : script) :
  forall (s s1 : t) (rest : script),
  wait_for_ack_with_retry text inbox s = Returned tt s1 rest ->
  exists before ack source d,
    inbox = before ++ Datagram ack source :: rest
    /\ parse_packet ack = Ok (packet_num s, d)
    /\ client_address s1 = Some source.
Proof.
  induction inbox as [|ev evs IH]; intros s s1 rest.
  - cbn [wait_for_ack_with_retry]. discriminate.
  - destruct ev as [ack source|e]; cbn [wait_for_ack_with_retry].
    + destruct (parse_packet ack) as [[n d]|e] eqn:Hparse.
      2:{ apply parse_packet_raises_kind in Hparse.
          destruct Hparse as [-> | ->]; cbn [exn_eqb]; discriminate. }
      cbn [packet_num set_client_address settimeout].
      destruct (Z.eqb_spec n (packet_num s)) as [-> | Hn].
      * intros [= <- <-]. exists [], ack, source, d. repeat split.
        exact Hparse.
      * intros E. apply IH in E.
        destruct E as (before & ack' & src' & d' & -> & Hp & Hs).
        exists (Datagram ack source :: before), ack', src', d'.
        repeat split; assumption.
    + destruct (exn_eqb e socket_timeout); [|discriminate].
      destruct (send_packet text
                  (log (LogTimedOut (packet_num (settimeout 1 s)))
                       (settimeout 1 s))) as [s2|e2 s2] eqn:Hsend;
        [|discriminate].
      apply send_packet_packet_num in Hsend. cbn in Hsend.
      intros E. apply IH in E.
      destruct E as (before & ack' & src' & d' & -> & Hp & Hs).
      exists (Raises e :: before), ack', src', d'.
      repeat split; [congruence | exact Hs].
Qed.

Lemma wait_for_ack_with_retry_adopts_source_witness :
  exists before ack source d,
    [Raises socket_timeout; Datagram (blit "00000001") (lit "10.0.0.7", 6000)]
    = before ++ Datagram ack source :: []
    /\ parse_packet ack = Ok (packet_num small_sender, d)
    /\ client_address
         (Receiver.state_of (wait_for_ack_with_retry (lit "abcd")
            [Raises socket_timeout;
             Datagram (blit "00000001") (lit "10.0.0.7", 6000)]
            small_sender))
       = Some source.
Proof.
  apply (wait_for_ack_with_retry_adopts_source (lit "abcd")
           [Raises socket_timeout;
            Datagram (blit "00000001") (lit "10.0.0.7", 6000)]
           small_sender _ []).
  vm_compute. reflexivity.
Defined.

(** ** A datagram that is no packet *)

(** X14: one malformed datagram ends the transfer. When the sender waits
    for the acknowledgment of its first chunk and receives a datagram whose
    header is malformed, [send_data_from_file] logs the error and returns:
    only that chunk was sent, the rest of the file never is, the packet
    number is still the one of the chunk, and the source of the datagram
    has become the client. *)
Theorem send_data_from_file_malformed_ack (content : str)
    (junk packet : bytes) (source a : address) (rest : script) (s : t) :
  client_address s = Some a ->
  0 < data_size s ->
  content <> [] ->
  create_packet (packet_num s)
    (VStr (firstn (Z.to_nat (data_size s)) content)) = Ok packet ->
  header_malformed junk ->
  exists s' e,
    send_data_from_file (Some content) (Datagram junk source :: rest) s
    = Returned tt s' rest
    /\ sent s' = sent s ++ [(packet, a)]
    /\ packet_num s' = packet_num s
    /\ client_address s' = Some source
    /\ In (LogSendError e) (log_file s')
    /\ (e = ValueError \/ e = UnicodeDecodeError).
Proof.
  intros Ha Hsize Hcontent Hpacket Hjunk.
  destruct content as [|c r]; [congruence|].
  assert (Hraise : exists e, parse_packet junk = Raise e
                             /\ (e = ValueError \/ e = UnicodeDecodeError)).
  { destruct (parse_packet_raises junk Hjunk) as [E|E];
      [exists ValueError | exists UnicodeDecodeError]; split; auto. }
  destruct Hraise as (e & Hparse & He).
  assert (Hnot : exn_eqb e socket_timeout = false)
    by (destruct He as [-> | ->]; reflexivity).
  unfold send_data_from_file. rewrite Ha.
  cbn [List.length send_chunks]. unfold file_read.
  replace (data_size s <? 0) with false by (symmetry; apply Z.ltb_ge; lia).
  destruct (Z.to_nat (data_size s)) as [|n] eqn:En; [lia|].
  cbn [firstn skipn] in *.
  destruct (send_packet_fine _ packet s a Hpacket Ha)
    as (s1 & Hsend & Hsent1 & Hnum1 & Ha1 & Hsize1).
  rewrite Hsend. cbn [wait_for_ack_with_retry]. rewrite Hparse, Hnot.
  eexists. exists e. split; [reflexivity|]. fields.
  rewrite Hsent1, Hnum1.
  split; [reflexivity|]. split; [reflexivity|]. split; [reflexivity|].
  split; [|exact He]. rewrite in_app_iff. right. left. reflexivity.
Qed.

Lemma send_data_from_file_malformed_ack_witness :
  exists s' e,
    send_data_from_file (Some small_file)
      (Datagram (blit "invalid_packet") (lit "10.0.0.7", 4444) :: [])
      small_sender
    = Returned tt s' []
    /\ sent s'
       = sent small_sender ++ [(blit "00000001abcd", (lit "127.0.0.1", 5000))]
    /\ packet_num s' = packet_num small_sender
    /\ client_address s' = Some (lit "10.0.0.7", 4444)
    /\ In (LogSendError e) (log_file s')
    /\ (e = ValueError \/ e = UnicodeDecodeError).
Proof.
  apply (send_data_from_file_malformed_ack small_file
           (blit "invalid_packet") (blit "00000001abcd")
           (lit "10.0.0.7", 4444) (lit "127.0.0.1", 5000) [] small_sender).
  - reflexivity.
  - vm_compute. reflexivity.
  - discriminate.
  - vm_compute. reflexivity.
  - exact invalid_header_malformed.
Defined.

(** ** A stream without a file *)

(** X15: when the file of the stream does not exist, [start] still goes
    through the whole exchange: it announces the size to whoever sent the
    first packet, takes any datagram as the acknowledgment, logs that the
    file is missing, sends "EOF" with the number 1 and closes. *)
Theorem start_missing_file (syn ack size_packet eof_packet : bytes)
    (a b : address) (n : Z) (d : value) (rest : script) (s : t) :
  parse_packet syn = Ok (n, d) ->
  create_packet (packet_num s) (VInt (data_size s)) = Ok size_packet ->
  create_packet (packet_num s + 1) (VStr (lit "EOF")) = Ok eof_packet ->
  exists s',
    start None (Datagram syn a :: Datagram ack b :: rest) s
    = Returned tt s' rest
    /\ sent s' = sent s ++ [(size_packet, a); (eof_packet, a)]
    /\ packet_num s' = packet_num s + 1
    /\ closed s' = true
    /\ In LogFileNotFound (log_file s').
Proof.
  intros Hsyn Hsize Heof. destruct s as [h p i ds ca pn snt tmo lg cl].
  cbn [packet_num data_size] in Hsize, Heof.
  unfold start. cbn [wait_for_client_syn]. rewrite Hsyn.
  destruct (eq_str d (lit "Syn"));
    unfold send_stream_size, sendto; fields; rewrite Hsize;
    cbn [wait_for_ack]; fields;
    unfold send_data_from_file; fields;
    unfold send_eof, sendto; fields; rewrite Heof;
    (eexists; split; [reflexivity|]); fields;
    rewrite <- !app_assoc;
    (repeat split; try reflexivity);
    rewrite !in_app_iff; cbn [In]; tauto.
Qed.

Lemma start_missing_file_witness :
  exists s',
    start None
      [Datagram (blit "00000000Syn") (lit "127.0.0.1", 5000);
       Datagram (blit "whatever") (lit "127.0.0.1", 5000)]
      (init (lit "127.0.0.1") 9000 2048 1)
    = Returned tt s' []
    /\ sent s'
       = sent (init (lit "127.0.0.1") 9000 2048 1)
         ++ [(blit "000000002040", (lit "127.0.0.1", 5000));
             (blit "00000001EOF", (lit "127.0.0.1", 5000))]
    /\ packet_num s' = packet_num (init (lit "127.0.0.1") 9000 2048 1) + 1
    /\ closed s' = true
    /\ In LogFileNotFound (log_file s').
Proof.
  apply (start_missing_file (blit "00000000Syn") (blit "whatever")
           (blit "000000002040") (blit "00000001EOF")
           (lit "127.0.0.1", 5000) (lit "127.0.0.1", 5000) 0
           (VStr (lit "Syn")) [] (init (lit "127.0.0.1") 9000 2048 1)).
  - vm_compute. reflexivity.
  - vm_compute. reflexivity.
  - vm_compute. reflexivity.
Defined.

End TransferFacts.

(* ================================================================== *)
(** * More about the receiver *)
(* ================================================================== *)

Module ReceiverFacts.
Import Py Text PyFacts IntFacts QUIC_API Codec CodecFacts CodecLaws.
Import Net StreamIn Receiver StreamInFacts Transfer TransferFacts.

Ltac fields :=
  cbn [server_host server_port index data_size global_start_time
       total_data_received total_packets_received sent log_file clock_reads
       closed log sendto set_data_size count tick close_resources log1
       fst snd].

Section Receiver.

Variable clock : nat -> float.
Variable A : Type.
Variable add_stream_data : float -> Z -> Z -> A -> A.

(** ** One packet *)

Lemma handle_received_data_state (n m : Z) (d : value) (ack : bytes)
    (s : t) (a : A) :
  len d = Ok m -> create_ack n = Ok ack ->
  exists s' a',
    handle_received_data clock A add_stream_data n d (s, a) = Fine (s', a')
    /\ sent s' = sent s ++ [(ack, (server_host s, server_port s))]
    /\ total_packets_received s' = total_packets_received s + 1
    /\ total_data_received s' = total_data_received s + m
    /\ server_host s' = server_host s
    /\ server_port s' = server_port s.
Proof.
  intros Hlen Hack. unfold handle_received_data, send_ack.
  rewrite Hlen, Hack. eexists. eexists. split; [reflexivity|].
  fields. repeat split.
Qed.

(** ** Any script *)

(** X16: whatever arrives, [receive_data] acknowledges exactly the packets
    it counts: the packets sent go to the server, there is one for each
    packet counted, and the counters never go down. *)
Theorem receive_data_acknowledges_what_it_counts (inbox : script) :
  forall (s : t) (a : A),
  exists acks,
    let s' :=
      fst (state_of (receive_data clock A add_stream_data inbox (s, a))) in
    sent s' = sent s ++ sent_to (server_host s, server_port s) acks
    /\ Z.of_nat (List.length acks)
       = total_packets_received s' - total_packets_received s
    /\ total_data_received s <= total_data_received s'.
Proof.
  induction inbox as [|received rest IH]; intros s a.
  - exists []. cbn. rewrite app_nil_r. repeat split; lia.
  - assert (Hexcept : forall (e : exn) (m : log_entry),
      exists acks,
        let s' :=
          fst (state_of
                 (if exn_eqb e socket_timeout
                  then receive_data clock A add_stream_data rest
                         (log1 A LogTimeout (s, a))
                  else Returned tt (log1 A m (s, a)) rest)) in
        sent s' = sent s ++ sent_to (server_host s, server_port s) acks
        /\ Z.of_nat (List.length acks)
           = total_packets_received s' - total_packets_received s
        /\ total_data_received s <= total_data_received s').
    { intros e m. destruct (exn_eqb e socket_timeout).
      - destruct (IH (log LogTimeout s) a) as [acks H]. exists acks.
        exact H.
      - exists []. cbn. rewrite app_nil_r. repeat split; lia. }
    cbn [receive_data]. destruct received as [packet source|e].
    + destruct (parse_packet packet) as [[n d]|e] eqn:Hparse.
      2:{ apply Hexcept. }
      destruct (eq_str d (lit "EOF")).
      { exists []. cbn. rewrite app_nil_r. repeat split; lia. }
      destruct (parse_packet_payload _ _ _ Hparse) as (m & Hlen & Hm).
      destruct (create_ack_returns _ _ _ Hparse) as [ack Hack].
      destruct (handle_received_data_state n m d ack s a Hlen Hack)
        as (s1 & a1 & -> & Hsent & Hcount & Hdata & Hhost & Hport).
      destruct (IH s1 a1) as [acks H]. exists (ack :: acks).
      cbn zeta in *. destruct H as (H1 & H2 & H3).
      rewrite H1, Hsent, Hhost, Hport, <- app_assoc.
      cbn [sent_to map app List.length]. repeat split; lia.
    + apply Hexcept.
Qed.

(** ** The packets of a sender *)

Lemma parse_numbered (k : Z) (text : str) (packet : bytes) :
  0 <= k <= 99999999 ->
  create_packet k (VStr text) = Ok packet ->
  parse_packet packet = Ok (k, VStr text).
Proof.
  intros Hk. rewrite (create_packet_header k _ Hk). cbn [to_str bind].
  unfold encode. destruct (utf8_encode text) as [b|] eqn:Eb; [|discriminate].
  cbn [bind]. intros [= <-].
  rewrite (parse_packet_header k b Hk), (utf8_decode_encode text b Eb).
  reflexivity.
Qed.

Lemma header_ack (k : Z) :
  0 <= k <= 99999999 ->
  create_ack k = Ok (header k) /\ parse_packet (header k) = Ok (k, VStr []).
Proof.
  intros Hk. unfold create_ack. rewrite (create_packet_header k _ Hk).
  cbn [to_str bind encode utf8_encode]. rewrite app_nil_r.
  split; [reflexivity|].
  rewrite <- (app_nil_r (header k)) at 1.
  apply (parse_packet_header k [] Hk).
Qed.

Lemma acks_acknowledge (todo : nat) :
  forall k : Z,
  0 <= k -> k + Z.of_nat todo <= 100000000 ->
  acknowledges k (acks_from k todo).
Proof.
  induction todo as [|todo IH]; intros k H0 H1; [exact I|].
  cbn [acks_from acknowledges]. split; [|apply IH; lia].
  exists (VStr []). apply header_ack. lia.
Qed.

Lemma receive_numbered (eof : bytes) (source : address) (rest : script)
    (texts : list str) :
  forall (packets : list bytes) (k : Z) (s : t) (a : A),
  numbered k texts packets ->
  0 <= k -> k + Z.of_nat (List.length texts) <= 99999999 ->
  forallb (fun text => negb (str_eqb text (lit "EOF"))) texts = true ->
  is_eof_packet eof = true ->
  exists s' a',
    receive_data clock A add_stream_data
      (received_from source packets ++ Datagram eof source :: rest) (s, a)
    = Returned tt (s', a') rest
    /\ total_packets_received s'
       = total_packets_received s + Z.of_nat (List.length texts)
    /\ total_data_received s'
       = total_data_received s
         + Z.of_nat (List.length (List.concat texts))
    /\ sent s'
       = sent s
         ++ sent_to (server_host s, server_port s)
              (acks_from k (List.length texts))
    /\ data_size s' = data_size s
    /\ closed s' = closed s.
Proof.
  induction texts as [|text texts IH];
    intros packets k s a Hnum Hk0 Hk1 Hdata Heof.
  - destruct packets; [|contradiction].
    cbn [received_from map app receive_data].
    unfold is_eof_packet in Heof.
    destruct (parse_packet eof) as [[n d]|]; [|discriminate].
    rewrite Heof. exists (log LogReceivedEOF s), a.
    cbn. rewrite app_nil_r. repeat split; lia.
  - destruct packets as [|packet packets]; [contradiction|].
    destruct Hnum as [Hpacket Hnum].
    cbn [forallb] in Hdata. apply andb_true_iff in Hdata as [Htext Hdata].
    cbn [List.length] in Hk1.
    cbn [received_from map app receive_data].
    rewrite (parse_numbered k text packet ltac:(lia) Hpacket).
    cbn [eq_str]. apply negb_true_iff in Htext. rewrite Htext.
    destruct (header_ack k ltac:(lia)) as [Hack _].
    unfold handle_received_data, send_ack. cbn [len]. rewrite Hack.
    match goal with
    | |- context [receive_data _ _ _ _ (?s1, ?a1)] =>
        destruct (IH packets (k + 1) s1 a1 Hnum ltac:(lia) ltac:(lia)
                    Hdata Heof)
          as (s' & a' & Hrun & Hc & Hb & Hs & Hsize & Hclosed)
    end.
    unfold received_from in Hrun. rewrite Hrun.
    exists s', a'. split; [reflexivity|].
    revert Hc Hb Hs Hsize Hclosed. fields. intros -> -> -> -> ->.
    cbn [List.concat List.length sent_to map acks_from].
    rewrite length_app, <- app_assoc. repeat split; lia.
Qed.

(** X17: the receiver of what a sender sent: given the packets of some
    texts, numbered consecutively, none of them "EOF", and then the "EOF"
    packet, [receive_data] returns having counted one packet for each text
    and as many characters as the texts hold together, and having sent the
    acknowledgments, in order, that the sender waits for. *)
Theorem receive_data_from_sender (texts : list str) (packets : list bytes)
    (k : Z) (eof : bytes) (source : address) (rest : script) (s : t)
    (a : A) :
  numbered k texts packets ->
  0 <= k -> k + Z.of_nat (List.length texts) <= 99999999 ->
  forallb (fun text => negb (str_eqb text (lit "EOF"))) texts = true ->
  is_eof_packet eof = true ->
  exists s' a' acks,
    receive_data clock A add_stream_data
      (received_from source packets ++ Datagram eof source :: rest) (s, a)
    = Returned tt (s', a') rest
    /\ total_packets_received s'
       = total_packets_received s + Z.of_nat (List.length texts)
    /\ total_data_received s'
       = total_data_received s
         + Z.of_nat (List.length (List.concat texts))
    /\ sent s' = sent s ++ sent_to (server_host s, server_port s) acks
    /\ acknowledges k acks
    /\ List.length acks = List.length texts.
Proof.
  intros Hnum Hk0 Hk1 Hdata Heof.
  destruct (receive_numbered eof source rest texts packets k s a
              Hnum Hk0 Hk1 Hdata Heof)
    as (s' & a' & Hrun & Hc & Hb & Hs & _).
  exists s', a', (acks_from k (List.length texts)).
  split; [exact Hrun|]. split; [exact Hc|]. split; [exact Hb|].
  split; [exact Hs|]. split.
  - apply acks_acknowledge; lia.
  - clear. generalize k. induction (List.length texts) as [|n IH];
      intros k0; cbn [acks_from List.length]; [reflexivity|].
    rewrite IH. reflexivity.
Qed.

End Receiver.

Lemma receive_data_from_sender_witness :
  exists s' a' acks,
    receive_data test_clock unit no_callback
      (received_from test_server
         [blit "00000001abcd"; blit "00000002efgh"; blit "00000003ij"]
       ++ Datagram (blit "00000004EOF") test_server :: [])
      (test_receiver, tt)
    = Returned tt (s', a') []
    /\ total_packets_received s'
       = total_packets_received test_receiver
         + Z.of_nat (List.length [lit "abcd"; lit "efgh"; lit "ij"])
    /\ total_data_received s'
       = total_data_received test_receiver
         + Z.of_nat (List.length
                       (List.concat [lit "abcd"; lit "efgh"; lit "ij"]))
    /\ sent s'
       = sent test_receiver
         ++ sent_to (server_host test_receiver, server_port test_receiver)
              acks
    /\ acknowledges 1 acks
    /\ List.length acks = List.length [lit "abcd"; lit "efgh"; lit "ij"].
Proof.
  apply (receive_data_from_sender test_clock unit no_callback
           [lit "abcd"; lit "efgh"; lit "ij"]
           [blit "00000001abcd"; blit "00000002efgh"; blit "00000003ij"]
           1 (blit "00000004EOF") test_server [] test_receiver tt).
  - repeat split; vm_compute; reflexivity.
  - lia.
  - cbn. lia.
  - reflexivity.
  - vm_compute. reflexivity.
Defined.

End ReceiverFacts.

(* ================================================================== *)
(** * A whole stream, end to end *)
(* ================================================================== *)

Module SessionFacts.
Import Py Text PyFacts IntFacts QUIC_API Codec CodecFacts CodecLaws.
Import Net Transfer.

Lemma eof_packet (k : Z) :
  0 <= k <= 99999999 ->
  create_packet k (VStr (lit "EOF")) = Ok (header k ++ blit "EOF")
  /\ Receiver.is_eof_packet (header k ++ blit "EOF") = true.
Proof.
  intros Hk. split.
  - rewrite (create_packet_header k _ Hk). reflexivity.
  - unfold Receiver.is_eof_packet.
    rewrite (parse_packet_header k _ Hk). reflexivity.
Qed.

Lemma size_packet (n : Z) :
  Z.abs n < 10 ^ int_max_str_digits ->
  exists announcement text,
    create_packet 0 (VInt n) = Ok announcement
    /\ parse_packet announcement = Ok (0, VStr text)
    /\ int_of_str text = Ok n.
Proof.
  intros Hn.
  destruct (int_of_str_of_int n Hn) as (text & Etext & Ha & Eint).
  exists (header 0 ++ map z2b text), text. split; [|split].
  - rewrite (create_packet_header 0 _ ltac:(lia)). cbn [to_str].
    rewrite Etext. cbn [bind]. unfold encode.
    rewrite (utf8_encode_ascii text Ha). reflexivity.
  - rewrite (parse_packet_header 0 _ ltac:(lia)), (utf8_decode_ascii text Ha).
    reflexivity.
  - exact Eint.
Qed.

Lemma small_size_packet (n : Z) :
  0 <= n < 10 ^ 5 ->
  exists announcement text,
    create_packet 0 (VInt n) = Ok announcement
    /\ parse_packet announcement = Ok (0, VStr text)
    /\ int_of_str text = Ok n
    /\ (List.length announcement <= 13)%nat.
Proof.
  intros Hn.
  assert (Hlimit : 0 <= n < 10 ^ int_max_str_digits).
  { split; [lia|]. apply Z.lt_le_trans with (10 ^ 5); [lia|].
    apply pow10_le_limit. unfold int_max_str_digits. lia. }
  destruct (size_packet n ltac:(lia))
    as (announcement & text & Hcreate & Hparse & Hint).
  exists announcement, text. repeat split; try assumption.
  rewrite (create_packet_header 0 _ ltac:(lia)) in Hcreate.
  cbn [to_str] in Hcreate. rewrite (str_of_int_nonneg n Hlimit) in Hcreate.
  cbn [bind] in Hcreate. unfold encode in Hcreate.
  destruct (utf8_encode (decimal n)) as [b|] eqn:Eb; [|discriminate].
  cbn [bind] in Hcreate. injection Hcreate as <-.
  destruct (decimal_spec n ltac:(lia)) as (Hdigits & _ & _ & Hk).
  rewrite (utf8_encode_ascii (decimal n)) in Eb
    by (apply (forallb_impl is_digit is_ascii);
        [exact is_digit_ascii | exact Hdigits]).
  injection Eb as <-.
  cbn [List.length]. rewrite length_map.
  pose proof (Hk 5%nat ltac:(lia) ltac:(lia)). lia.
Qed.

Lemma numbered_fit (n : Z) (texts : list str) :
  forall (packets : list bytes) (k : Z),
  numbered k texts packets ->
  0 <= k -> k + Z.of_nat (List.length texts) <= 100000000 ->
  forallb (fun text => Z.of_nat (list_sum (map utf8_width text)) <=? n)
    texts = true ->
  fit (8 + n) packets.
Proof.
  induction texts as [|text texts IH]; intros packets k Hnum Hk0 Hk1 Hfit;
    destruct packets as [|packet packets]; try contradiction;
    [constructor|].
  destruct Hnum as [Hpacket Hnum]. cbn [List.length] in Hk1.
  cbn [forallb] in Hfit. apply andb_true_iff in Hfit as [Htext Hfit].
  apply Z.leb_le in Htext.
  constructor; [|apply (IH packets (k + 1) Hnum); [lia | lia | exact Hfit]].
  rewrite (create_packet_header k _ ltac:(lia)) in Hpacket.
  cbn [to_str bind] in Hpacket. unfold encode in Hpacket.
  destruct (utf8_encode text) as [b|] eqn:Eb; [|discriminate].
  cbn [bind] in Hpacket. injection Hpacket as <-.
  rewrite length_app, (header_length k ltac:(lia)),
    (utf8_encode_length text b Eb). lia.
Qed.

Lemma acks_fit (todo : nat) :
  forall k : Z,
  0 <= k -> k + Z.of_nat todo <= 100000000 -> fit 8 (acks_from k todo).
Proof.
  induction todo as [|todo IH]; intros k Hk0 Hk1; cbn [acks_from];
    constructor; [|apply IH; lia].
  rewrite (header_length k ltac:(lia)). lia.
Qed.

(** X18: a whole stream, end to end. The size is one that lets every
    datagram through whole: from 11 bytes, so that the "EOF" packet fits the
    receiver's buffer of [size] bytes, to the 65507 bytes a UDP datagram
    holds; and every chunk of the file takes at most [size - 8] bytes in
    UTF-8 (as every chunk of an ASCII file does). Then, when each end
    receives exactly what the other sent, in order, and no chunk of the file
    is the text "EOF", the sender's [start] and the receiver's [start] both
    return with their sockets closed and nothing left unread; every datagram
    fits the buffer of the [recvfrom] that reads it (1000 bytes for "Syn" and
    the first acknowledgment, 8 for the others, 1024 for the size and [size]
    for the data and "EOF"); the receiver has stored the size the sender was
    built with, counted one packet for each chunk and as many characters as
    the file holds. *)
Theorem stream_session (clock : nat -> float) (A : Type)
    (add_stream_data : float -> Z -> Z -> A -> A) (content : str)
    (size : Z) (host server_host : str) (port server_port index stream : Z)
    (start_time : float) (client source : address) (a : A) :
  11 <= size <= 65507 ->
  forallb is_scalar content = true ->
  Z.of_nat (List.length content) <= 99999998 ->
  forallb (fun text => negb (str_eqb text (lit "EOF")))
    (chunks (size - 8) content) = true ->
  forallb (fun text =>
             Z.of_nat (list_sum (map utf8_width text)) <=? size - 8)
    (chunks (size - 8) content) = true ->
  exists announcement packets eof acks s' r' a',
    StreamOut.start (Some content)
      (received_from client (blit "00000000Syn" :: header 0 :: acks))
      (StreamOut.init server_host server_port size stream)
    = Returned tt s' []
    /\ StreamIn.start clock A add_stream_data
         (received_from source (announcement :: packets ++ [eof]))
         (StreamIn.init host port index start_time, a)
       = Returned tt (r', a') []
    /\ StreamOut.sent s' = sent_to client (announcement :: packets ++ [eof])
    /\ StreamIn.sent r'
       = sent_to (host, port) (blit "00000000Syn" :: header 0 :: acks)
    /\ fit 1000 [blit "00000000Syn"; header 0]
    /\ fit 8 acks
    /\ fit 1024 [announcement]
    /\ fit size (packets ++ [eof])
    /\ StreamOut.closed s' = true
    /\ StreamIn.closed r' = true
    /\ StreamIn.data_size r' = Some size
    /\ StreamIn.total_data_received r' = Z.of_nat (List.length content)
    /\ StreamIn.total_packets_received r'
       = Z.of_nat (List.length (chunks (size - 8) content)).
Proof.
  intros Hsize Hscalar Hlen Hdata Hbytes_fit.
  set (texts := chunks (size - 8) content) in *.
  set (n := List.length texts).
  assert (Hn : (n <= List.length content)%nat).
  { apply (TransferFacts.length_chunks (size - 8) ltac:(lia)
             (List.length content)). lia. }
  assert (Hacks_len : forall k, List.length (acks_from k n) = n).
  { generalize n. induction n0 as [|m IH]; intros k;
      cbn [acks_from List.length]; [reflexivity | rewrite IH; reflexivity]. }
  destruct (small_size_packet (size - 8) ltac:(lia))
    as (announcement & text & Hcreate & Hparse & Hint & Hannouncement).
  destruct (eof_packet (0 + 1 + Z.of_nat n) ltac:(lia)) as [Heof_create Heof].
  assert (Heof_length :
    List.length (header (0 + 1 + Z.of_nat n) ++ blit "EOF") = 11%nat).
  { rewrite length_app, (header_length (0 + 1 + Z.of_nat n) ltac:(lia)).
    reflexivity. }
  set (eof := header (0 + 1 + Z.of_nat n) ++ blit "EOF") in *.
  (* the sender, once the size is acknowledged *)
  set (s3 :=
    StreamOut.next_packet
      (StreamOut.log (StreamOut.LogReceivedAck 0)
         (StreamOut.log
            (StreamOut.LogSentDataSize (size - 8) (Some client))
            (StreamOut.mk server_host server_port stream (size - 8)
               (Some client) 0 [(announcement, client)] None
               [StreamOut.LogWaiting server_host server_port;
                StreamOut.LogOpenConnection client] false)))).
  assert (Hs3size : 0 < StreamOut.data_size s3) by (cbn; lia).
  assert (Hs3num : StreamOut.packet_num s3 = 0 + 1) by reflexivity.
  destruct (TransferFacts.send_chunks_transfer client []
              (S (List.length content)) content (acks_from 1 n) s3
              ltac:(lia) Hs3size eq_refl Hscalar
              ltac:(rewrite Hs3num; lia) ltac:(rewrite Hs3num; lia)
              (Hacks_len 1)
              (ReceiverFacts.acks_acknowledge n 1 ltac:(lia) ltac:(lia)))
    as (s4 & packets & Hsend & Hnumbered & Hsent4 & Hnum4 & Ha4 & _).
  change (StreamOut.data_size s3) with (size - 8) in Hnumbered, Hnum4.
  change (StreamOut.packet_num s3) with (0 + 1) in Hnumbered, Hnum4.
  change (StreamOut.sent s3) with [(announcement, client)] in Hsent4.
  fold texts in Hnumbered, Hnum4. fold n in Hnum4.
  (* the receiver, once it has acknowledged the size *)
  set (r2 :=
    StreamIn.log (StreamIn.LogSentAck 0)
      (StreamIn.sendto (header 0)
         (StreamIn.log (StreamIn.LogDataSize (size - 8 + 8))
            (StreamIn.set_data_size (size - 8 + 8)
               (StreamIn.log (StreamIn.LogSentSyn host port)
                  (StreamIn.sendto (blit "00000000Syn")
                     (StreamIn.log (StreamIn.LogConnecting host port)
                        (StreamIn.init host port index start_time)))))))).
  destruct (ReceiverFacts.receive_numbered clock A add_stream_data eof
              source [] texts packets (0 + 1) r2 a Hnumbered ltac:(lia)
              ltac:(fold n; lia) Hdata Heof)
    as (r3 & a3 & Hreceive & Hcount & Hbytes & Hsent3 & Hsize3 & Hclosed3).
  fold n in Hsent3, Hcount.
  exists announcement, packets, eof, (acks_from 1 n),
         (StreamOut.close_resources
            (StreamOut.log StreamOut.LogSentEOF
               (StreamOut.mk (StreamOut.host s4) (StreamOut.port s4)
                  (StreamOut.index s4) (StreamOut.data_size s4)
                  (StreamOut.client_address s4) (StreamOut.packet_num s4)
                  (StreamOut.sent s4 ++ [(eof, client)])
                  (StreamOut.timeout s4) (StreamOut.log_file s4)
                  (StreamOut.closed s4)))),
         (StreamIn.close_resources
            (StreamIn.log StreamIn.LogCompleted r3)), a3.
  split; [|split; [|split; [|split; [|split; [|split; [|split; [|split;
    [|split; [|split; [|split; [|split]]]]]]]]]]].
  - unfold StreamOut.start, StreamOut.init.
    cbn [received_from map StreamOut.wait_for_client_syn].
    change (parse_packet (blit "00000000Syn"))
      with (Ok (0, VStr (lit "Syn"))).
    cbv beta iota.
    change (eq_str (VStr (lit "Syn")) (lit "Syn")) with true. cbv iota.
    unfold StreamOut.send_stream_size, StreamOut.sendto.
    cbn [StreamOut.packet_num StreamOut.data_size StreamOut.client_address
         StreamOut.log StreamOut.set_client_address StreamOut.host
         StreamOut.port StreamOut.index StreamOut.sent StreamOut.timeout
         StreamOut.log_file StreamOut.closed app].
    rewrite Hcreate. cbn [StreamOut.wait_for_ack].
    match goal with
    | |- context [StreamOut.send_data_from_file _ _ ?s] =>
        change s with s3
    end.
    unfold StreamOut.send_data_from_file.
    change (StreamOut.client_address s3) with (Some client). cbv iota.
    change (map (fun packet => Datagram packet client) (acks_from 1 n))
      with (received_from client (acks_from 1 n)).
    rewrite <- (app_nil_r (received_from client (acks_from 1 n))).
    rewrite Hsend. unfold StreamOut.send_eof, StreamOut.sendto.
    rewrite Hnum4, Ha4. rewrite Heof_create. reflexivity.
  - unfold StreamIn.start, StreamIn.initialize_connection, StreamIn.send_syn.
    change (create_packet 0 (VStr (lit "Syn")))
      with (Ok (blit "00000000Syn")). cbv iota.
    cbn [received_from map StreamIn.receive_stream_size].
    rewrite map_app. cbn [map].
    rewrite Hparse. cbn [to_int]. rewrite Hint.
    unfold StreamIn.send_ack.
    change (create_ack 0) with (Ok (header 0)). cbv iota.
    match goal with
    | |- context [StreamIn.receive_data _ _ _ _ (?s, _)] => change s with r2
    end.
    unfold received_from in Hreceive. rewrite Hreceive. reflexivity.
  - cbn [StreamOut.close_resources StreamOut.log StreamOut.sent].
    rewrite Hsent4. unfold sent_to. cbn [map]. rewrite map_app. reflexivity.
  - cbn [StreamIn.close_resources StreamIn.log StreamIn.sent].
    rewrite Hsent3. reflexivity.
  - repeat constructor; vm_compute; discriminate.
  - apply acks_fit; lia.
  - constructor; [lia | constructor].
  - apply Forall_app. split.
    + replace size with (8 + (size - 8)) by lia.
      apply (numbered_fit (size - 8) texts packets (0 + 1) Hnumbered);
        [lia | fold n; lia | exact Hbytes_fit].
    + constructor; [|constructor]. rewrite Heof_length. lia.
  - reflexivity.
  - reflexivity.
  - cbn [StreamIn.close_resources StreamIn.log StreamIn.data_size].
    rewrite Hsize3. cbn. f_equal. lia.
  - cbn [StreamIn.close_resources StreamIn.log StreamIn.total_data_received].
    rewrite Hbytes. unfold texts.
    rewrite (TransferFacts.concat_chunks (size - 8) ltac:(lia)
               (List.length content) content ltac:(lia)).
    cbn. lia.
  - cbn [StreamIn.close_resources StreamIn.log
         StreamIn.total_packets_received].
    rewrite Hcount. cbn. lia.
Qed.

Lemma stream_session_witness :
  exists announcement packets eof acks s' r' a',
    StreamOut.start (Some small_file)
      (received_from (lit "127.0.0.1", 5000)
         (blit "00000000Syn" :: header 0 :: acks))
      (StreamOut.init (lit "127.0.0.1") 9000 12 1)
    = Returned tt s' []
    /\ StreamIn.start Receiver.test_clock unit Receiver.no_callback
         (received_from (lit "127.0.0.1", 9000)
            (announcement :: packets ++ [eof]))
         (StreamIn.init (lit "127.0.0.1") 9000 1 3%float, tt)
       = Returned tt (r', a') []
    /\ StreamOut.sent s'
       = sent_to (lit "127.0.0.1", 5000) (announcement :: packets ++ [eof])
    /\ StreamIn.sent r'
       = sent_to (lit "127.0.0.1", 9000)
           (blit "00000000Syn" :: header 0 :: acks)
    /\ fit 1000 [blit "00000000Syn"; header 0]
    /\ fit 8 acks
    /\ fit 1024 [announcement]
    /\ fit 12 (packets ++ [eof])
    /\ StreamOut.closed s' = true
    /\ StreamIn.closed r' = true
    /\ StreamIn.data_size r' = Some 12
    /\ StreamIn.total_data_received r' = Z.of_nat (List.length small_file)
    /\ StreamIn.total_packets_received r'
       = Z.of_nat (List.length (chunks (12 - 8) small_file)).
Proof.
  apply (stream_session Receiver.test_clock unit Receiver.no_callback
           small_file 12 (lit "127.0.0.1") (lit "127.0.0.1") 9000 9000 1 1
           3%float (lit "127.0.0.1", 5000) (lit "127.0.0.1", 9000) tt).
  - lia.
  - vm_compute. reflexivity.
  - vm_compute. discriminate.
  - vm_compute. reflexivity.
  - vm_compute. reflexivity.
Defined.

End SessionFacts.

(* ================================================================== *)
(** * More about the initiator *)
(* ================================================================== *)

Module InitiatorFacts.
Import Py Text PyFacts IntFacts QUIC_API Codec CodecFacts CodecLaws.
Import Net QuicClient Client Receiver QuicClientFacts Transfer Streams.

Ltac fields :=
  cbn [server_host server_port sent threads global_start_time
       data_per_stream packets_per_stream time_elapsed_per_stream stdout
       print sendto append_thread set_global_start_time start_stream_thread].

(** ** The handshake *)

Lemma send_syn_message_fine (c : t) :
  send_syn_message c
  = Fine (print (PrintSentSyn (server_host c) (server_port c))
            (sendto (blit "00000000Syn") c)).
Proof. reflexivity. Qed.

(** X19: [handshake_with_server] tries again after every timeout: when the
    number of streams arrives after [k] timeouts, "Syn" has been sent
    [k + 1] times, then the acknowledgment 0, and the number announced is
    returned. *)
Theorem handshake_retries (k : nat) (packet : bytes) (source : address)
    (seq n : Z) (rest : script) :
  forall c : t,
  announces packet seq n ->
  exists c',
    handshake_with_server
      (repeat (Raises socket_timeout) k ++ Datagram packet source :: rest) c
    = Returned n c' rest
    /\ sent c'
       = sent c
         ++ sent_to (server_host c, server_port c)
              (repeat (blit "00000000Syn") (S k) ++ [blit "00000000"])
    /\ server_host c' = server_host c
    /\ server_port c' = server_port c.
Proof.
  induction k as [|k IH]; intros c Hann.
  - cbn [repeat app]. rewrite (handshake_spec _ _ _ _ _ _ Hann).
    eexists. split; [reflexivity|]. fields. rewrite <- app_assoc.
    repeat split.
  - cbn [repeat app handshake_with_server]. rewrite send_syn_message_fine.
    cbn [receive_number_of_streams exn_eqb].
    destruct (IH (print PrintTimeout
                    (print (PrintSentSyn (server_host c) (server_port c))
                       (sendto (blit "00000000Syn") c))) Hann)
      as (c' & -> & Hsent & Hhost & Hport).
    exists c'. split; [reflexivity|]. revert Hsent Hhost Hport. fields.
    intros -> -> ->. rewrite <- app_assoc. repeat split.
Qed.

Lemma handshake_retries_witness :
  exists c',
    handshake_with_server
      (repeat (Raises socket_timeout) 2
       ++ Datagram (blit "000000004") server :: [])
      (init localhost 8000)
    = Returned 4 c' []
    /\ sent c'
       = sent (init localhost 8000)
         ++ sent_to (server_host (init localhost 8000),
                     server_port (init localhost 8000))
              (repeat (blit "00000000Syn") 3 ++ [blit "00000000"])
    /\ server_host c' = server_host (init localhost 8000)
    /\ server_port c' = server_port (init localhost 8000).
Proof.
  apply (handshake_retries 2 (blit "000000004") server 0 4 []
           (init localhost 8000)).
  exists (VStr (lit "4")). split; vm_compute; reflexivity.
Defined.

(** ** Any number of streams *)

Lemma initialize_streams_from_spec (rest : script)
    (l : list (bytes * address)) :
  forall (seqs ports : list Z) (i : Z) (c : t),
  announced l seqs ports ->
  exists c' acks,
    initialize_streams_from i (List.length l) (datagrams l ++ rest) c
    = Returned tt c' rest
    /\ threads c'
       = threads c
         ++ tasks_from (server_host c) (global_start_time c) i ports
    /\ sent c' = sent c ++ sent_to (server_host c, server_port c) acks
    /\ acks_of seqs acks.
Proof.
  induction l as [|[packet source] l IH]; intros seqs ports i c Hann.
  - destruct seqs, ports; try contradiction.
    exists c, []. cbn. rewrite !app_nil_r. repeat split.
  - destruct seqs as [|seq seqs], ports as [|port ports]; try contradiction.
    destruct Hann as [Hann Hrest].
    assert (Hack : exists ack, create_ack seq = Ok ack).
    { destruct Hann as (d & Hparse & _).
      exact (create_ack_returns _ _ _ Hparse). }
    destruct Hack as [ack Hack].
    cbn [List.length datagrams map app initialize_streams_from fst snd].
    rewrite (setup_stream_spec i packet source seq port ack _ _ Hann Hack).
    destruct (IH seqs ports (i + 1)
                (start_stream_thread (i + 1) port
                   (print (PrintSentAck seq)
                      (sendto ack
                         (print (PrintStreamPort (i + 1) port) c)))) Hrest)
      as (c' & acks & Hrun & Hthreads & Hsent & Hacks).
    unfold datagrams in Hrun. rewrite Hrun.
    exists c', (ack :: acks). split; [reflexivity|].
    revert Hthreads Hsent. fields. intros -> ->.
    cbn [tasks_from sent_to map acks_of]. rewrite <- !app_assoc.
    repeat split; assumption.
Qed.

(** X20: [initialize_streams] for any number of streams: each announcement
    that arrives starts one receiver, on the announced port and with the
    index of its arrival, counted from 1, and is acknowledged with the
    number it carries. *)
Theorem initialize_streams_any_number (l : list (bytes * address))
    (seqs ports : list Z) (rest : script) (c : t) :
  announced l seqs ports ->
  exists c' acks,
    initialize_streams (Z.of_nat (List.length l)) (datagrams l ++ rest) c
    = Returned tt c' rest
    /\ threads c'
       = threads c
         ++ tasks_from (server_host c) (global_start_time c) 0 ports
    /\ sent c' = sent c ++ sent_to (server_host c, server_port c) acks
    /\ acks_of seqs acks.
Proof.
  intros Hann. unfold initialize_streams. rewrite Nat2Z.id.
  apply initialize_streams_from_spec. exact Hann.
Qed.

Lemma initialize_streams_any_number_witness :
  exists c' acks,
    initialize_streams
      (Z.of_nat (List.length [(blit "000000078001", server);
                              (blit "000000098002", server)]))
      (datagrams [(blit "000000078001", server);
                  (blit "000000098002", server)] ++ [])
      (init localhost 8000)
    = Returned tt c' []
    /\ threads c'
       = threads (init localhost 8000)
         ++ tasks_from (server_host (init localhost 8000))
              (global_start_time (init localhost 8000)) 0 [8001; 8002]
    /\ sent c'
       = sent (init localhost 8000)
         ++ sent_to (server_host (init localhost 8000),
                     server_port (init localhost 8000)) acks
    /\ acks_of [7; 9] acks.
Proof.
  apply (initialize_streams_any_number
           [(blit "000000078001", server); (blit "000000098002", server)]
           [7; 9] [8001; 8002] [] (init localhost 8000)).
  cbn [announced].
  split; [exists (VStr (lit "8001")); split; vm_compute; reflexivity|].
  split; [exists (VStr (lit "8002")); split; vm_compute; reflexivity|].
  exact I.
Defined.

(** ** Statistics before any report *)

Lemma handshake_keeps_statistics (inbox : script) :
  forall c : t,
  time_elapsed_per_stream (state_of (handshake_with_server inbox c))
  = time_elapsed_per_stream c.
Proof.
  induction inbox as [|received rest IH]; intros c.
  - reflexivity.
  - cbn [handshake_with_server]. rewrite send_syn_message_fine.
    cbn [receive_number_of_streams].
    assert (Hexcept : forall (e : exn) (c1 : t),
      time_elapsed_per_stream c1 = time_elapsed_per_stream c ->
      time_elapsed_per_stream
        (state_of (if exn_eqb e socket_timeout
                   then handshake_with_server rest (print PrintTimeout c1)
                   else Raised e c1 rest))
      = time_elapsed_per_stream c).
    { intros e c1 H1. destruct (exn_eqb e socket_timeout).
      - rewrite IH. exact H1.
      - exact H1. }
    destruct received as [packet source|e].
    + destruct (parse_packet packet) as [[seq d]|e]; [|apply Hexcept; reflexivity].
      destruct (to_int d) as [n|e]; [|apply Hexcept; reflexivity].
      unfold send_ack_message. destruct (create_ack 0) as [ack|e].
      * reflexivity.
      * apply Hexcept. reflexivity.
    + apply Hexcept. reflexivity.
Qed.

Lemma setup_stream_keeps_statistics (i : Z) (inbox : script) (c : t) :
  time_elapsed_per_stream (state_of (setup_stream i inbox c))
  = time_elapsed_per_stream c.
Proof.
  destruct inbox as [|[packet source|e] rest]; cbn [setup_stream];
    try reflexivity.
  destruct (parse_packet packet) as [[seq d]|e]; [|reflexivity].
  destruct (to_int d) as [port|e]; [|reflexivity].
  unfold send_ack_message. destruct (create_ack seq); reflexivity.
Qed.

Lemma initialize_streams_keeps_statistics (todo : nat) :
  forall (i : Z) (inbox : script) (c : t),
  time_elapsed_per_stream
    (state_of (initialize_streams_from i todo inbox c))
  = time_elapsed_per_stream c.
Proof.
  induction todo as [|todo IH]; intros i inbox c; [reflexivity|].
  cbn [initialize_streams_from].
  pose proof (setup_stream_keeps_statistics i inbox c) as H.
  destruct (setup_stream i inbox c) as [port c1 rest|e c1 rest|c1];
    cbn [state_of] in H; try exact H.
  rewrite IH. exact H.
Qed.

(** X21: the handshake and the set-up of the streams leave the statistics
    alone, so that [calculate_rates] on a client that has connected, and for
    which no stream has reported data yet, raises [ValueError]: there is no
    elapsed time to take the largest of. *)
Theorem calculate_rates_before_any_report (host : str) (port : Z)
    (now : float) (inbox : script) :
  calculate_rates (state_of (connect now inbox (init host port)))
  = Raise ValueError.
Proof.
  assert (H : time_elapsed_per_stream
                (state_of (connect now inbox (init host port))) = []).
  { unfold connect.
    pose proof (handshake_keeps_statistics inbox (init host port)) as H.
    destruct (handshake_with_server inbox (init host port))
      as [n c1 rest|e c1 rest|c1]; cbn [state_of] in H; try exact H.
    unfold initialize_streams. rewrite initialize_streams_keeps_statistics.
    exact H. }
  unfold calculate_rates. rewrite H. reflexivity.
Qed.

(** ** Reports of different streams *)

Lemma dict_get_set_other {V : Type} (d : dict Z V) (i j : Z) (v : V) :
  i <> j ->
  dict_get Z.eqb (dict_set Z.eqb d i v) j = dict_get Z.eqb d j.
Proof.
  intros Hij. induction d as [|[k w] d IH]; cbn [dict_set dict_get].
  - replace (i =? j) with false by (symmetry; apply Z.eqb_neq; exact Hij).
    reflexivity.
  - destruct (Z.eqb_spec k i) as [-> | Hki]; cbn [dict_get].
    + replace (i =? j) with false by (symmetry; apply Z.eqb_neq; exact Hij).
      reflexivity.
    + rewrite IH. reflexivity.
Qed.

Lemma bucket_add_other (m : dict Z (dict float Z)) (i j : Z)
    (t t' : float) (amount : Z) :
  i <> j -> bucket (bucket_add m i t amount) j t' = bucket m j t'.
Proof.
  intros Hij. unfold bucket, bucket_add, dict_get_default.
  rewrite (dict_get_set_other m i j _ Hij). reflexivity.
Qed.

(** X22: a report of one stream changes nothing of what is recorded for
    another: its buckets and its elapsed time stay as they were. *)
Theorem add_stream_data_other_stream (c : t) (i j : Z)
    (time_elapsed t' : float) (data_received packets_received : Z) :
  i <> j ->
  let c' := add_stream_data i time_elapsed data_received packets_received c in
  bucket (data_per_stream c') j t' = bucket (data_per_stream c) j t'
  /\ bucket (packets_per_stream c') j t' = bucket (packets_per_stream c) j t'
  /\ dict_get Z.eqb (time_elapsed_per_stream c') j
     = dict_get Z.eqb (time_elapsed_per_stream c) j.
Proof.
  intros Hij. cbn zeta. unfold add_stream_data.
  cbn [data_per_stream packets_per_stream time_elapsed_per_stream].
  rewrite !(bucket_add_other _ i j _ _ _ Hij).
  rewrite (dict_get_set_other _ i j _ Hij). repeat split.
Qed.

Lemma add_stream_data_other_stream_witness :
  let c' := add_stream_data 1 1%float 500 5 rates_client in
  bucket (data_per_stream c') 2 1%float
  = bucket (data_per_stream rates_client) 2 1%float
  /\ bucket (packets_per_stream c') 2 1%float
     = bucket (packets_per_stream rates_client) 2 1%float
  /\ dict_get Z.eqb (time_elapsed_per_stream c') 2
     = dict_get Z.eqb (time_elapsed_per_stream rates_client) 2.
Proof.
  apply (add_stream_data_other_stream rates_client 1 2 1%float 1%float 500 5).
  lia.
Defined.

End InitiatorFacts.

(* ================================================================== *)
(** * Facts about QuicServer.py *)
(* ================================================================== *)

Module ResponderFacts.
Import Py Text PyFacts IntFacts QUIC_API Codec CodecFacts CodecLaws.
Import Net Transfer Responder QuicServer.

Ltac fields :=
  cbn [host port streams ack_timeout is_test uniform_size sizes threads
       client_address sent timeout files draws stdout print append_size
       append_thread set_threads set_client_address settimeout drawn
       create_file].


(** ** Announcements *)

Lemma announcement_spec (seq value : Z) :
  0 <= seq <= 99999999 -> 0 <= value < 10 ^ int_max_str_digits ->
  bind (str_of_int value) (fun text => create_packet seq (VStr text))
  = Ok (announcement seq value)
  /\ parse_packet (announcement seq value) = Ok (seq, VStr (decimal value))
  /\ to_int (VStr (decimal value)) = Ok value.
Proof.
  intros Hseq Hvalue. rewrite (str_of_int_nonneg value Hvalue). cbn [bind].
  destruct (decimal_spec value ltac:(lia)) as (Hd & _).
  assert (Ha : forallb is_ascii (decimal value) = true)
    by (revert Hd; apply forallb_impl, is_digit_ascii).
  unfold announcement. split; [|split].
  - rewrite (create_packet_header seq _ Hseq). cbn [to_str bind].
    unfold encode. rewrite (utf8_encode_ascii _ Ha). reflexivity.
  - rewrite (parse_packet_header seq _ Hseq), (utf8_decode_ascii _ Ha).
    reflexivity.
  - cbn [to_int]. apply int_of_str_decimal. exact Hvalue.
Qed.

Lemma port_below_limit (p : Z) :
  0 <= p <= 65535 -> 0 <= p < 10 ^ int_max_str_digits.
Proof.
  intros Hp. split; [lia|].
  apply Z.lt_le_trans with (10 ^ 5); [change (10 ^ 5) with 100000; lia|].
  apply pow10_le_limit. unfold int_max_str_digits. lia.
Qed.

(** ** The first packet *)

(** X23: the server, unlike its stream senders, insists on "Syn": when
    the first datagram does not carry that text, or cannot be parsed at all,
    [start] gives up at once, having sent nothing and started no stream;
    the source of the datagram is recorded all the same. *)
Theorem start_refuses_other_than_syn (file_of : Z -> option str)
    (inbox_of : Z -> script) (packet : bytes) (source : address)
    (rest : script) (s : t) :
  is_syn packet = false ->
  exists s',
    start file_of inbox_of (Datagram packet source :: rest) s
    = Ends tt s' rest
    /\ sent s' = sent s
    /\ threads s' = threads s
    /\ client_address s' = Some source.
Proof.
  unfold is_syn. intros Hsyn. unfold start. cbn [wait_for_client_syn].
  destruct (parse_packet packet) as [[n d]|e].
  - rewrite Hsyn. eexists. split; [reflexivity|]. repeat split.
  - eexists. split; [reflexivity|]. repeat split.
Qed.

Lemma start_refuses_other_than_syn_witness :
  exists s',
    start (fun _ => None) (fun _ => [])
      (Datagram (blit "00000000Hello") (lit "127.0.0.1", 5000) :: [])
      (mk (lit "127.0.0.1") 8000 4 5 true None [2000; 2000; 2000; 2000] []
          None [] None [] 0 [])
    = Ends tt s' []
    /\ sent s' = []
    /\ threads s' = []
    /\ client_address s' = Some (lit "127.0.0.1", 5000).
Proof.
  apply (start_refuses_other_than_syn (fun _ => None) (fun _ => [])
           (blit "00000000Hello") (lit "127.0.0.1", 5000) []
           (mk (lit "127.0.0.1") 8000 4 5 true None [2000; 2000; 2000; 2000]
               [] None [] None [] 0 [])).
  vm_compute. reflexivity.
Defined.

(** ** The streams *)

Lemma wait_for_ack_answer (k : Z) (ev : recv_result) (rest : script)
    (s : t) :
  answers ev = true ->
  exists b m, wait_for_ack k (ev :: rest) s = Ends b (print m s) rest.
Proof.
  intros Hev. cbn [wait_for_ack]. destruct ev as [packet source|e];
    cbn [answers] in Hev.
  - destruct (parse_packet packet) as [[n d]|]; [|discriminate].
    destruct (n =? k); eexists; eexists; reflexivity.
  - rewrite Hev. eexists. eexists. reflexivity.
Qed.

Lemma list_index_middle {A : Type} (done remaining : list A) (x : A) :
  list_index (done ++ x :: remaining) (Z.of_nat (List.length done)) = Some x.
Proof.
  assert (H : (Z.of_nat (List.length done) <? 0) = false)
    by (apply Z.ltb_ge; lia).
  unfold list_index. rewrite H. cbv zeta. rewrite H.
  rewrite Nat2Z.id, nth_error_app2, Nat.sub_diag by lia. reflexivity.
Qed.

Lemma start_stream_threads_from_spec (a : address) (rest : script)
    (remaining : list Z) :
  forall (done : list Z) (evs : script) (s : t),
  sizes s = done ++ remaining ->
  client_address s = Some a ->
  0 <= port s ->
  port s + Z.of_nat (List.length (sizes s)) <= 65535 ->
  List.length evs = List.length remaining ->
  forallb answers evs = true ->
  exists s',
    start_stream_threads_from (Z.of_nat (List.length done))
      (List.length remaining) (evs ++ rest) s
    = Ends tt s' rest
    /\ threads s'
       = threads s
         ++ senders_from (host s) (port s) (Z.of_nat (List.length done))
              remaining
    /\ sent s'
       = sent s
         ++ sent_to a
              (port_announcements (port s) (Z.of_nat (List.length done))
                 (List.length remaining)).
Proof.
  induction remaining as [|size remaining IH];
    intros done evs s Hsizes Ha Hport Hmax Hlen Hevs.
  - destruct evs; [|discriminate]. exists s.
    cbn. rewrite !app_nil_r. repeat split.
  - destruct evs as [|ev evs]; [discriminate|].
    cbn [forallb] in Hevs. apply andb_true_iff in Hevs as [Hev Hevs].
    cbn [List.length] in Hlen. injection Hlen as Hlen.
    set (i := Z.of_nat (List.length done)) in *.
    assert (Hi : i + 1 <= Z.of_nat (List.length (sizes s))).
    { rewrite Hsizes, length_app. cbn [List.length]. unfold i. lia. }
    cbn [List.length start_stream_threads_from app].
    unfold start_stream_thread.
    replace (list_index (sizes s) i) with (Some size)
      by (rewrite Hsizes; symmetry; apply list_index_middle).
    unfold send_stream_port_to_client.
    assert (Hseq : 0 <= i + 1 <= 99999999) by (unfold i in *; lia).
    assert (Hp : 0 <= port s + i + 1 <= 65535) by (unfold i in *; lia).
    destruct (announcement_spec (i + 1) (port s + i + 1) Hseq
                (port_below_limit _ Hp)) as (Hcreate & _).
    fields. rewrite Hcreate. unfold sendto. fields. rewrite Ha.
    match goal with
    | |- context [wait_for_ack ?k (ev :: ?r) ?s2] =>
        destruct (wait_for_ack_answer k ev r s2 Hev) as (b & m & ->)
    end.
    match goal with
    | |- context [start_stream_threads_from _ _ _ ?s3] =>
        destruct (IH (done ++ [size]) evs s3) as (s' & Hrun & Hthreads & Hsent)
    end.
    + fields. rewrite Hsizes, <- app_assoc. reflexivity.
    + fields. reflexivity.
    + fields. exact Hport.
    + fields. exact Hmax.
    + exact Hlen.
    + exact Hevs.
    + rewrite length_app in Hrun, Hthreads, Hsent.
      cbn [List.length] in Hrun, Hthreads, Hsent.
      replace (Z.of_nat (List.length done + 1)) with (i + 1)
        in Hrun, Hthreads, Hsent by (unfold i; lia).
      exists s'. rewrite Hrun. split; [reflexivity|].
      revert Hthreads Hsent. fields. intros -> ->.
      cbn [senders_from port_announcements sent_to map].
      rewrite <- !app_assoc. split; reflexivity.
Qed.

(** X24: the server starts every stream whether or not its port is
    acknowledged: with one answer for each stream, be it a timeout or a
    packet with any number, [start_stream_threads] starts the sender of
    stream [i] on the port [port + i] with the [i]-th size, for [i] from 1
    to the number of streams, and announces these ports in order. *)
Theorem start_stream_threads_whatever_the_answers (a : address)
    (evs rest : script) (s : t) :
  streams s = Z.of_nat (List.length (sizes s)) ->
  client_address s = Some a ->
  0 <= port s ->
  port s + streams s <= 65535 ->
  List.length evs = List.length (sizes s) ->
  forallb answers evs = true ->
  exists s',
    start_stream_threads (evs ++ rest) s = Ends tt s' rest
    /\ threads s' = threads s ++ senders_from (host s) (port s) 0 (sizes s)
    /\ sent s'
       = sent s
         ++ sent_to a
              (port_announcements (port s) 0 (List.length (sizes s))).
Proof.
  intros Hstreams Ha Hport Hmax Hlen Hevs. unfold start_stream_threads.
  rewrite Hstreams, Nat2Z.id.
  apply (start_stream_threads_from_spec a rest (sizes s) [] evs s);
    try assumption; [reflexivity | lia].
Qed.

Lemma start_stream_threads_whatever_the_answers_witness :
  exists s',
    start_stream_threads
      ([Raises socket_timeout;
        Datagram (blit "00000099") (lit "127.0.0.1", 5000)] ++ [])
      small_server
    = Ends tt s' []
    /\ threads s'
       = threads small_server
         ++ senders_from (host small_server) (port small_server) 0
              (sizes small_server)
    /\ sent s'
       = sent small_server
         ++ sent_to (lit "127.0.0.1", 5000)
              (port_announcements (port small_server) 0
                 (List.length (sizes small_server))).
Proof.
  apply (start_stream_threads_whatever_the_answers (lit "127.0.0.1", 5000)
           [Raises socket_timeout;
            Datagram (blit "00000099") (lit "127.0.0.1", 5000)] []
           small_server).
  - reflexivity.
  - reflexivity.
  - cbn. lia.
  - cbn. lia.
  - reflexivity.
  - vm_compute. reflexivity.
Defined.

(** ** The two ends of the handshake *)















(** ** The constructor *)

Lemma randint_range (random : nat -> Z) (calls : nat) :
  1000 <= randint random calls 1000 2001 <= 2001.
Proof.
  unfold randint, randbelow.
  pose proof (Z.mod_pos_bound (random calls) (2001 - 1000 + 1) ltac:(lia)).
  lia.
Qed.

Section Construction.

Variable random : nat -> Z.
Variable total_size : number.

Lemma create_stream_data_files_from_spec (todo : nat) :
  forall (i : Z) (s s' : t),
  create_stream_data_files_from random i todo total_size s = Ok s' ->
  (exists new_sizes new_files,
     sizes s' = sizes s ++ new_sizes
     /\ List.length new_sizes = todo
     /\ Forall (chosen_size (is_test s) (uniform_size s)) new_sizes
     /\ files s' = files s ++ new_files
     /\ map fst new_files = numbers_from i todo
     /\ Forall (fun f => forallb is_letter (snd f) = true) new_files)
  /\ streams s' = streams s
  /\ threads s' = threads s
  /\ client_address s' = client_address s
  /\ sent s' = sent s.
Proof.
  induction todo as [|todo IH]; intros i s s'; cbn [create_stream_data_files_from].
  - intros [= <-]. split; [|repeat split].
    exists [], []. rewrite !app_nil_r. repeat split; constructor.
  - set (choice :=
           match is_test s, uniform_size s with
           | true, Some u =>
               if u =? 0 then (randint random (draws s) 1000 2001, drawn 1 s)
               else (u, s)
           | _, _ => (randint random (draws s) 1000 2001, drawn 1 s)
           end).
    assert (Hchoice : chosen_size (is_test s) (uniform_size s) (fst choice)
                      /\ (snd choice = s \/ snd choice = drawn 1 s)).
    { unfold choice, chosen_size.
      pose proof (randint_range random (draws s)) as R.
      destruct (is_test s); [destruct (uniform_size s) as [u|];
                             [destruct (u =? 0)|]|];
        cbn [fst snd]; auto. }
    destruct choice as [size s1]. cbn [fst snd] in Hchoice.
    destruct Hchoice as [Hsize Hs1].
    destruct (number_truediv total_size (streams s)) as [share|];
      [|discriminate]. cbn [bind].
    destruct (int_of_float (PrimFloat.mul 1048576 share)) as [length|];
      [|discriminate]. cbn [bind].
    intros Hrun. apply IH in Hrun.
    destruct Hrun as ((new_sizes & new_files & Es & Hl & Hf & Ef & Hn & Hletters)
                      & Hstreams & Hthreads & Ha & Hsent).
    assert (Hkeep : is_test s1 = is_test s /\ uniform_size s1 = uniform_size s
                    /\ sizes s1 = sizes s /\ files s1 = files s
                    /\ streams s1 = streams s /\ threads s1 = threads s
                    /\ client_address s1 = client_address s
                    /\ sent s1 = sent s).
    { destruct Hs1 as [-> | ->]; repeat split. }
    destruct Hkeep as (K1 & K2 & K3 & K4 & K5 & K6 & K7 & K8).
    revert Es Hf Ef Hstreams Hthreads Ha Hsent. fields.
    rewrite K1, K2, K3, K4, K5, K6, K7, K8.
    intros Es Hf Ef Hstreams Hthreads Ha Hsent.
    split; [|repeat split; assumption].
    exists (size :: new_sizes),
           ((i + 1, create_data random (draws s1) length) :: new_files).
    rewrite Es, Ef, <- !app_assoc. cbn [app List.length map fst numbers_from].
    rewrite Hl, Hn. repeat split.
    + constructor; assumption.
    + constructor; [|exact Hletters]. cbn [snd].
      apply (create_data_spec random).
Qed.

(** X27: what the constructor leaves behind, when it returns: one chunk
    size for each stream (the uniform size in test mode, a number from 1000
    to 2001 otherwise), and one file of letters for each stream, numbered
    from 1; no thread, no client and nothing sent. *)
Theorem init_prepares_every_stream (host : str) (port streams : Z)
    (ack_timeout : Z) (is_test : bool) (uniform_size : option Z) (s : t) :
  init random host port streams total_size ack_timeout is_test uniform_size
  = Ok s ->
  List.length (sizes s) = Z.to_nat streams
  /\ Forall (chosen_size is_test uniform_size) (sizes s)
  /\ map fst (files s) = numbers_from 0 (Z.to_nat streams)
  /\ Forall (fun f => forallb is_letter (snd f) = true) (files s)
  /\ QuicServer.streams s = streams
  /\ threads s = []
  /\ client_address s = None
  /\ sent s = [].
Proof.
  unfold init, create_stream_data_files. intros Hrun.
  apply create_stream_data_files_from_spec in Hrun. revert Hrun. fields.
  intros ((new_sizes & new_files & Es & Hl & Hf & Ef & Hn & Hletters)
          & Hstreams & Hthreads & Ha & Hsent).
  cbn [app] in Es, Ef. rewrite Es, Ef. repeat split; assumption.
Qed.

End Construction.

Lemma init_prepares_every_stream_witness :
  exists s,
    init (fun i => Z.of_nat i) (lit "127.0.0.1") 8000 2 (Float 0x1p-18)
      5 true (Some 2000)
    = Ok s
    /\ List.length (sizes s) = Z.to_nat 2
    /\ Forall (chosen_size true (Some 2000)) (sizes s)
    /\ map fst (files s) = numbers_from 0 (Z.to_nat 2)
    /\ Forall (fun f => forallb is_letter (snd f) = true) (files s)
    /\ streams s = 2
    /\ threads s = []
    /\ client_address s = None
    /\ sent s = [].
Proof.
  eexists. split; [vm_compute; reflexivity|].
  apply (init_prepares_every_stream (fun i => Z.of_nat i) (Float 0x1p-18)
           (lit "127.0.0.1") 8000 2 5 true (Some 2000)).
  vm_compute. reflexivity.
Defined.

End ResponderFacts.

(* ================================================================== *)
(** * Facts about the report *)
(* ================================================================== *)

Module ReportFacts.
Import Py PyFacts QUIC_API Net Report Reports.

Ltac fields :=
  cbn [client exp streams_stats stdout files print open write].

(** ** Streams that never reported *)

Lemma print_each_stream_unreported (items : list (Z * StreamIn.stats)) :
  forall (r : t) (index : Z) (stats : StreamIn.stats),
  In (index, stats) items ->
  dict_get Z.eqb (QuicClient.time_elapsed_per_stream (client r)) index
  = None ->
  exists e r', print_each_stream items r = Failed e r'.
Proof.
  induction items as [|[i st] items IH]; intros r index stats Hin Hnone;
    [contradiction|].
  cbn [print_each_stream].
  destruct (dict_get Z.eqb (QuicClient.time_elapsed_per_stream (client r)) i)
    as [time|] eqn:Etime; [|eauto].
  destruct (int_truediv (StreamIn.stats_total_data_received st) time);
    [|eauto].
  destruct (int_truediv (StreamIn.stats_total_packets_received st) time);
    [|eauto].
  destruct Hin as [[= -> ->] | Hin]; [congruence|].
  apply (IH _ index stats Hin). exact Hnone.
Qed.

(** X28: the report cannot be completed when a stream has been collected
    that never reported data (a stream whose file is empty, or whose
    receiver failed before its first packet): [print_stream_stats] raises,
    at the latest when it looks up the elapsed time of that stream. *)
Theorem print_stream_stats_unreported_stream (run_number : option Z)
    (r : t) (index : Z) :
  unreported r index ->
  exists e r', print_stream_stats run_number r = Failed e r'.
Proof.
  intros [[stats Hin] Hnone]. unfold print_stream_stats.
  destruct (int_int_truediv _ _) as [total_size_mb|]; [|eauto].
  destruct (max_float _) as [total_time|]; [|eauto].
  destruct (rate _ total_time) as [packet_rate_sec|]; [|eauto].
  destruct (if exp r then _ else _) as [run|]; [|eauto].
  apply (print_each_stream_unreported _ _ index stats Hin). exact Hnone.
Qed.

Lemma idle_stream_unreported : unreported idle_stream_report 3.
Proof.
  split; [exists (idle_stats 3); left; reflexivity | reflexivity].
Qed.

Lemma print_stream_stats_unreported_stream_witness :
  exists e r', print_stream_stats None idle_stream_report = Failed e r'.
Proof.
  apply (print_stream_stats_unreported_stream None idle_stream_report 3).
  exact idle_stream_unreported.
Defined.

(** ** The file and the screen *)

Lemma write_last (line : output) (r : t) (earlier : list (file_name * list output))
    (name : file_name) (text : list output) :
  files r = earlier ++ [(name, text)] ->
  files (write line r) = earlier ++ [(name, text ++ [line])].
Proof.
  intros H. unfold write. cbn [files]. rewrite H, rev_app_distr.
  cbn [rev app]. rewrite rev_involutive. reflexivity.
Qed.

Lemma print_each_stream_mirror (items : list (Z * StreamIn.stats)) :
  forall (r : t) (earlier : list (file_name * list output))
         (name : file_name) (text : list output),
  files r = earlier ++ [(name, text)] ->
  exists lines,
    let r' := match print_each_stream items r with
              | Done r' => r'
              | Failed _ r' => r'
              end in
    files r' = earlier ++ [(name, text ++ lines)]
    /\ stdout r' = stdout r ++ lines
    /\ match print_each_stream items r with
       | Done _ => List.length lines = List.length items
       | Failed _ _ => (List.length lines < List.length items)%nat
       end.
Proof.
  induction items as [|[i st] items IH]; intros r earlier name text Hfiles.
  - exists []. cbn. rewrite !app_nil_r. auto.
  - cbn [print_each_stream].
    assert (Hstop :
      exists lines : list output,
        files r = earlier ++ [(name, text ++ lines)]
        /\ stdout r = stdout r ++ lines
        /\ (List.length lines < List.length ((i, st) :: items))%nat).
    { exists []. cbn [List.length]. rewrite !app_nil_r.
      split; [exact Hfiles|]. split; [reflexivity | lia]. }
    destruct (dict_get Z.eqb (QuicClient.time_elapsed_per_stream (client r)) i)
      as [time|]; [|exact Hstop].
    destruct (int_truediv (StreamIn.stats_total_data_received st) time)
      as [bps|]; [|exact Hstop].
    destruct (int_truediv (StreamIn.stats_total_packets_received st) time)
      as [pps|]; [|exact Hstop].
    set (line := StreamStatistics _ _ _ _ _ _ _).
    destruct (IH (write line (print line r)) earlier name (text ++ [line])
                 (write_last line (print line r) earlier name text Hfiles))
      as (lines & Hf & Hs & Hn).
    exists (line :: lines). cbv zeta in *.
    split; [|split].
    + rewrite Hf, <- app_assoc. reflexivity.
    + rewrite Hs. cbn [write print stdout]. rewrite <- app_assoc. reflexivity.
    + cbn [List.length].
      destruct (print_each_stream items (write line (print line r))); lia.
Qed.

(** X29: the report file mirrors the screen. However [print_stream_stats]
    ends, either it has printed nothing and opened no file, or it has opened
    exactly one file, which holds the very texts it printed, in order: the
    global statistics and then one text per stream, all the streams when it
    returns and fewer when it raises on the way. *)
Theorem print_stream_stats_file_mirrors_screen (run_number : option Z)
    (r : t) :
  match print_stream_stats run_number r with
  | Done r' =>
      exists name lines,
        files r' = files r ++ [(name, lines)]
        /\ stdout r' = stdout r ++ lines
        /\ List.length lines = S (List.length (streams_stats r))
  | Failed _ r' =>
      r' = r
      \/ exists name lines,
           files r' = files r ++ [(name, lines)]
           /\ stdout r' = stdout r ++ lines
           /\ (0 < List.length lines <= List.length (streams_stats r))%nat
  end.
Proof.
  unfold print_stream_stats.
  destruct (int_int_truediv _ _) as [total_size_mb|]; [|left; reflexivity].
  destruct (max_float _) as [total_time|]; [|left; reflexivity].
  destruct (rate _ total_time) as [packet_rate_sec|]; [|left; reflexivity].
  destruct (if exp r then _ else _) as [run|]; [|left; reflexivity].
  set (line := GlobalStatistics _ _ _ _ _ _).
  set (name := mk_name _ _ _).
  destruct (print_each_stream_mirror (streams_stats r)
              (write line (print line (open name r))) (files r) name [line])
    as (lines & Hf & Hs & Hn).
  { apply (write_last line (print line (open name r)) (files r) name []).
    reflexivity. }
  cbv zeta in Hf, Hs.
  destruct (print_each_stream (streams_stats r)
              (write line (print line (open name r)))) as [r'|e r'];
    [|right]; exists name, (line :: lines);
    (split; [exact Hf|]);
    (split; [rewrite Hs; cbn [write print open stdout];
             rewrite <- app_assoc; reflexivity|]);
    cbn [List.length]; lia.
Qed.

(** ** Experiment mode *)

(** X30: in experiment mode, and with no global [run_number] defined (as
    in the module's own [__main__]), [print_stream_stats] never gets as far
    as opening its file: it raises with nothing printed and nothing
    written. *)
Theorem print_stream_stats_experiment_without_run_number (r : t) :
  exp r = true ->
  exists e, print_stream_stats None r = Failed e r.
Proof.
  intros Hexp. unfold print_stream_stats. rewrite Hexp.
  destruct (int_int_truediv _ _) as [total_size_mb|]; [|eauto].
  destruct (max_float _) as [total_time|]; [|eauto].
  destruct (rate _ total_time) as [packet_rate_sec|]; eauto.
Qed.

Lemma print_stream_stats_experiment_without_run_number_witness :
  exists e, print_stream_stats None experiment_report
            = Failed e experiment_report.
Proof.
  apply (print_stream_stats_experiment_without_run_number experiment_report).
  reflexivity.
Defined.

End ReportFacts.
